(** * WBTC scalping bot: signal detection, position tracking, risk guards

    A shallow embedding of the decision logic of the trading bot server
    (SignalDetector, IndicatorCalculator, BinanceService, DexPriceMonitor,
    TaapiService, MonitoringService, OpportunityController, PositionManager,
    StopLossManager, SlippageController, CapitalAllocator, NetworkMonitor,
    TradeExecutor and the handlers that connect them) together with the
    properties its specification states about it and further properties of
    the code.

    JavaScript numbers are IEEE 754 binary64 values and are modelled by the
    primitive type [float], whose operations are the binary64 ones (division
    by zero gives an infinity or NaN, every comparison with NaN is false).
    ethers [BigNumber]s are unbounded integers, modelled by [Z].  Objects
    that the code shares by reference are modelled in an explicit store. *)

From Stdlib Require Import ZArith QArith Qround Lia Floats String List Bool.
From stdpp Require Import base option gmap strings list.

#[local] Set Warnings "-inexact-float".
#[local] Open Scope Z_scope.

(* ===================================================================== *)
(** * JavaScript values used by the bot *)
(* ===================================================================== *)

Module JS.

(** A field that holds [null] or a value is an [option]. *)

(** [ToBoolean] on a number: [0], [-0] and [NaN] are falsy. *)
Definition truthy_num (x : float) : bool :=
  negb (x =? 0)%float && negb (is_nan x).

(** [ToBoolean] on a string: only the empty string is falsy. *)
Definition truthy_str (s : string) : bool :=
  match s with EmptyString => false | String _ _ => true end.

(** [ToBoolean] on a nullable value: [null] is falsy. *)
Definition truthy {A : Type} (on_value : A -> bool) (v : option A) : bool :=
  match v with None => false | Some a => on_value a end.

(** [ToNumber] on a nullable number: [null] converts to [0]. *)
Definition to_number (v : option float) : float :=
  match v with None => 0%float | Some x => x end.

(** [x > y] and [x < y] on numbers. *)
Definition gt (x y : float) : bool := (y <? x)%float.
Definition lt (x y : float) : bool := (x <? y)%float.

(** [x === 0] on a number. *)
Definition is_zero (x : float) : bool := (x =? 0)%float.

(** [Math.floor] of a finite number, as an integer; [None] on NaN and the
    infinities (where [BigNumber.from] throws). *)
Definition floor_to_Z (x : float) : option Z :=
  match Prim2SF x with
  | S754_zero _ => Some 0
  | S754_finite s m e =>
      let v := if s then Z.neg m else Z.pos m in
      Some (if (0 <=? e)%Z then v * 2 ^ e else v / 2 ^ (- e))
  | _ => None
  end.

(** A binary64 value that is a number proper: a zero or a finite value,
    neither NaN nor an infinity. *)
Definition is_number (x : spec_float) : bool :=
  match x with S754_zero _ | S754_finite _ _ _ => true | _ => false end.

(** Milliseconds since the epoch, the value of [new Date()]. *)
Definition date := Z.

(** Whether a number has no fractional part ([x % 1] is [0]); NaN and the
    infinities have none to speak of and are excluded. *)
Definition is_integer (x : float) : bool :=
  match Prim2SF x with
  | S754_zero _ => true
  | S754_finite _ m e =>
      (0 <=? e)%Z || (Z.pos m mod 2 ^ (- e) =? 0)%Z
  | _ => false
  end.

(** [Math.min] of two numbers: NaN if either is, and [-0] below [+0]. *)
Definition Math_min (a b : float) : float :=
  if is_nan a || is_nan b then nan
  else if (a <? b)%float then a
  else if (b <? a)%float then b
  else if get_sign a then a else b.

(** [Math.max] of two integers, as used on millisecond counts. *)
Definition Math_max_int (a b : Z) : Z := Z.max a b.

End JS.

(* ===================================================================== *)
(** * config/index.js *)
(* ===================================================================== *)

Module config.

Module trading.
Definition minProfitThreshold : float := 0.006%float.
Definition trailingStopLoss : float := 0.005%float.
Definition maxSlippage : float := 0.002%float.
Definition refreshInterval : Z := 60000.
End trading.

Module indicators.
Module rsi.
Definition period : Z := 14.
Definition oversold : float := 30%float.
Definition overbought : float := 70%float.
End rsi.
Module ema.
Definition period : Z := 20.
End ema.
End indicators.

Module wallet.
Definition maxCapitalPerTrade : float := 0.1%float.
End wallet.

Module bsc.
(** [ethers.parseUnits("5", "gwei")], in wei. *)
Definition gasPrice : Z := 5 * 10 ^ 9.
Definition gasLimit : Z := 300000.
End bsc.

End config.

(* ===================================================================== *)
(** * PositionManager *)
(* ===================================================================== *)

Module PositionManager.

(** A registered callback is identified by a handle; [null] is [None]. *)
Definition handler := nat.

Record callbackSlots := {
  onPositionOpened : option handler;
  onPositionClosed : option handler
}.

Record t := {
  currentPosition : option string;   (* null = no position, "long" *)
  entryPrice : option float;
  highestPrice : option float;
  callbacks : callbackSlots
}.

(** What the logger receives (the numbers before [toFixed]). *)
Inductive message :=
| OpenedLongAt (price : float)
| NoPositionToClose
| ClosedAt (positionType : string) (exitPrice : float)
| TradeCompletedWith (profitPercent : float)
| UpdatedHighestPrice (price : float).

(** The observable effects of a call, in program order. *)
Inductive event :=
| LogInfo (m : message)
| LogWarn (m : message)
| LogDebug (m : message)
| CallPositionOpened (h : handler) (type : string) (entry : float)
    (timestamp : JS.date)
| CallPositionClosed (h : handler) (type : string) (entry : option float)
    (exit : float) (profitPercent : float) (timestamp : JS.date).

Definition constructor : t :=
  {| currentPosition := None; entryPrice := None; highestPrice := None;
     callbacks := {| onPositionOpened := None; onPositionClosed := None |} |}.

Definition openPosition (entry : float) (now : JS.date) (this : t)
  : t * list event :=
  let this' :=
    {| currentPosition := Some "long"%string;
       entryPrice := Some entry;
       highestPrice := Some entry;
       callbacks := callbacks this |} in
  (this',
   LogInfo (OpenedLongAt entry) ::
   match onPositionOpened (callbacks this) with
   | Some h => [CallPositionOpened h "long" entry now]
   | None => []
   end).

Definition closePosition (exitPrice : float) (now : JS.date) (this : t)
  : t * list event :=
  if negb (JS.truthy JS.truthy_str (currentPosition this)) then
    (this, [LogWarn NoPositionToClose])
  else
    let positionType := default ""%string (currentPosition this) in
    let entry := entryPrice this in
    let profitPercent :=
      (((exitPrice - JS.to_number entry) / JS.to_number entry) * 100)%float in
    ({| currentPosition := None; entryPrice := None; highestPrice := None;
        callbacks := callbacks this |},
     LogInfo (ClosedAt positionType exitPrice) ::
     LogInfo (TradeCompletedWith profitPercent) ::
     match onPositionClosed (callbacks this) with
     | Some h =>
         [CallPositionClosed h positionType entry exitPrice profitPercent now]
     | None => []
     end).

Definition updateHighestPrice (currentPrice : float) (this : t)
  : t * list event :=
  if JS.truthy JS.truthy_str (currentPosition this)
     && JS.gt currentPrice (JS.to_number (highestPrice this))
  then
    ({| currentPosition := currentPosition this;
        entryPrice := entryPrice this;
        highestPrice := Some currentPrice;
        callbacks := callbacks this |},
     [LogDebug (UpdatedHighestPrice currentPrice)])
  else (this, []).

Definition shouldTriggerStopLoss (currentPrice : float) (this : t) : bool :=
  if negb (JS.truthy JS.truthy_str (currentPosition this))
     || negb (JS.truthy JS.truthy_num (highestPrice this))
  then false
  else
    let stopLossPrice :=
      (JS.to_number (highestPrice this)
       * (1 - config.trading.trailingStopLoss))%float in
    JS.lt currentPrice stopLossPrice.

Definition registerPositionOpened (h : handler) (this : t) : t :=
  {| currentPosition := currentPosition this;
     entryPrice := entryPrice this;
     highestPrice := highestPrice this;
     callbacks := {| onPositionOpened := Some h;
               onPositionClosed := onPositionClosed (callbacks this) |} |}.

Definition registerPositionClosed (h : handler) (this : t) : t :=
  {| currentPosition := currentPosition this;
     entryPrice := entryPrice this;
     highestPrice := highestPrice this;
     callbacks := {| onPositionOpened := onPositionOpened (callbacks this);
               onPositionClosed := Some h |} |}.

(** The price updates of a position's lifetime, applied in order. *)
Definition updateAll (prices : list float) (this : t) : t :=
  fold_left (fun s p => fst (updateHighestPrice p s)) prices this.

(** The states the singleton can be in: built by the constructor and
    changed only through the methods. *)
Inductive reachable : t -> Prop :=
| reach_new : reachable constructor
| reach_open s e now : reachable s -> reachable (fst (openPosition e now s))
| reach_close s x now : reachable s -> reachable (fst (closePosition x now s))
| reach_update s p : reachable s -> reachable (fst (updateHighestPrice p s))
| reach_on_opened s h : reachable s -> reachable (registerPositionOpened h s)
| reach_on_closed s h : reachable s -> reachable (registerPositionClosed h s).

(** Either no position and nothing recorded, or a long position with both
    prices recorded. *)
Definition shaped (s : t) : Prop :=
  (currentPosition s = None /\ entryPrice s = None /\ highestPrice s = None)
  \/ (currentPosition s = Some "long"%string
      /\ exists e h, entryPrice s = Some e /\ highestPrice s = Some h).

(** What holds of a long position opened at [e]. *)
Definition tracking (e : float) (s : t) : Prop :=
  currentPosition s = Some "long"%string
  /\ entryPrice s = Some e
  /\ exists h, highestPrice s = Some h /\ (e <=? h)%float = true.

(** The scenario of the specification: bought at 50000, peak 51000. *)
Definition scenario (now : JS.date) : t :=
  updateAll [51000%float] (fst (openPosition 50000 now constructor)).

(** The object [getCurrentPosition] returns. *)
Module CurrentPosition.
Record t := {
  type : option string;
  entryPrice : option float;
  highestPrice : option float;
  unrealizedProfit : float
}.
End CurrentPosition.

Definition getCurrentPosition (this : t) : CurrentPosition.t :=
  {| CurrentPosition.type := currentPosition this;
     CurrentPosition.entryPrice := entryPrice this;
     CurrentPosition.highestPrice := highestPrice this;
     CurrentPosition.unrealizedProfit :=
       if JS.truthy JS.truthy_str (currentPosition this) then
         (((JS.to_number (highestPrice this)
            - JS.to_number (entryPrice this))
           / JS.to_number (entryPrice this)) * 100)%float
       else 0%float |}.

End PositionManager.

(* ===================================================================== *)
(** * IndicatorCalculator *)
(* ===================================================================== *)

Module IndicatorCalculator.

Record t := {
  rsi : option float;
  ema : option float;
  previousRsi : option float;
  previousEma : option float
}.

Definition constructor : t :=
  {| rsi := None; ema := None; previousRsi := None; previousEma := None |}.

Definition isRsiOversold (this : t) : bool :=
  match rsi this with
  | None => false
  | Some r => JS.lt r config.indicators.rsi.oversold
  end.

Definition isRsiOverbought (this : t) : bool :=
  match rsi this with
  | None => false
  | Some r => JS.gt r config.indicators.rsi.overbought
  end.

Definition isPriceAboveEma (currentPrice : float) (this : t) : bool :=
  match ema this with
  | None => false
  | Some e => JS.gt currentPrice e
  end.

Definition isPriceBelowEma (currentPrice : float) (this : t) : bool :=
  match ema this with
  | None => false
  | Some e => JS.lt currentPrice e
  end.

Definition isRsiRisingFromOversold (this : t) : bool :=
  match previousRsi this, rsi this with
  | Some p, Some r =>
      JS.lt p r && JS.lt p config.indicators.rsi.oversold
  | _, _ => false
  end.

Definition isRsiFallingFromOverbought (this : t) : bool :=
  match previousRsi this, rsi this with
  | Some p, Some r =>
      JS.gt p r && JS.gt p config.indicators.rsi.overbought
  | _, _ => false
  end.

End IndicatorCalculator.

(* ===================================================================== *)
(** * BinanceService and DexPriceMonitor: the two prices *)
(* ===================================================================== *)

Module BinanceService.

Record t := { currentPrice : float; historicalPrices : list float }.

Definition constructor : t :=
  {| currentPrice := 0%float; historicalPrices := [] |}.

Definition getCurrentPrice (this : t) : float := currentPrice this.

(** A WebSocket message once parsed: a kline with its close price
    ([parseFloat(candle.c)]), another event, or text that fails to parse. *)
Inductive message :=
| Kline (closePrice : float)
| OtherEvent
| Malformed.

Definition handler := nat.

Inductive event :=
| CallPriceUpdate (h : handler) (price : float) (history : list float)
| LogError.

(** [Array.prototype.shift]: drops the first element. *)
Definition shift (l : list float) : list float := List.tl l.

(** The ["message"] handler of [connectWebSocket]; [onPriceUpdate] is the
    registered callback. *)
Definition onMessage (onPriceUpdate : option handler) (msg : message)
    (this : t) : t * list event :=
  match msg with
  | Kline closePrice =>
      let pushed := historicalPrices this ++ [closePrice] in
      let history :=
        if (100 <? length pushed)%nat then shift pushed else pushed in
      ({| currentPrice := closePrice; historicalPrices := history |},
       match onPriceUpdate with
       | Some h => [CallPriceUpdate h closePrice history]
       | None => []
       end)
  | OtherEvent => (this, [])
  | Malformed => (this, [LogError])
  end.

Definition onMessages (msgs : list message) (this : t) : t :=
  fold_left (fun s m => fst (onMessage None m s)) msgs this.

(** The close prices a list of messages carries, in order. *)
Definition closes (msgs : list message) : list float :=
  flat_map (fun m => match m with Kline c => [c] | _ => [] end) msgs.

End BinanceService.

Module DexPriceMonitor.

Record t := { price : float }.

Definition constructor : t := {| price := 0%float |}.

Definition getCurrentPrice (this : t) : float := price this.

Definition calculatePriceDifference (binancePrice : float) (this : t)
  : float :=
  if JS.is_zero (price this) || JS.is_zero binancePrice then 0%float
  else ((binancePrice - price this) / price this)%float.

Definition isPotentialBuyOpportunity (binancePrice : float) (this : t)
  : bool :=
  let priceDiff := calculatePriceDifference binancePrice this in
  JS.gt priceDiff config.trading.minProfitThreshold.

Definition isPotentialSellOpportunity (binancePrice : float) (this : t)
  : bool :=
  let priceDiff := calculatePriceDifference binancePrice this in
  JS.lt priceDiff (- config.trading.minProfitThreshold)%float.

End DexPriceMonitor.

(* ===================================================================== *)
(** * TaapiService: the reference price with its indicators *)
(* ===================================================================== *)

Module Indicators.
Record t := { rsi : option float; ema : option float }.
End Indicators.

Module TaapiService.

Record t := {
  price : float;
  indicators : Indicators.t;
  lastUpdated : option JS.date
}.

Definition constructor : t :=
  {| price := 0%float;
     indicators := {| Indicators.rsi := None; Indicators.ema := None |};
     lastUpdated := None |}.

(** The assignments [fetchData] makes once the three requests resolved. *)
Definition fetched (priceData rsiValue emaValue : float) (now : JS.date)
  : t :=
  {| price := priceData;
     indicators :=
       {| Indicators.rsi := Some rsiValue; Indicators.ema := Some emaValue |};
     lastUpdated := Some now |}.

Definition isRsiOversold (this : t) : bool :=
  match Indicators.rsi (indicators this) with
  | None => false
  | Some r => JS.lt r config.indicators.rsi.oversold
  end.

Definition isRsiOverbought (this : t) : bool :=
  match Indicators.rsi (indicators this) with
  | None => false
  | Some r => JS.gt r config.indicators.rsi.overbought
  end.

Definition isPriceAboveEma (this : t) : bool :=
  match Indicators.ema (indicators this) with
  | None => false
  | Some e => JS.gt (price this) e
  end.

Definition isPriceBelowEma (this : t) : bool :=
  match Indicators.ema (indicators this) with
  | None => false
  | Some e => JS.lt (price this) e
  end.

End TaapiService.

(* ===================================================================== *)
(** * MonitoringService: the market-data snapshot *)
(* ===================================================================== *)

Module Centralized.
Record t := { price : float; indicators : Indicators.t }.
End Centralized.

Module Dex.
Record t := { price : float }.
End Dex.

Module MarketData.
Record t := {
  centralized : Centralized.t;
  dex : Dex.t;
  priceDifference : float;
  timestamp : option JS.date
}.
End MarketData.

(** The market data as a value: what is read through [this.marketData].
    How the objects behind it are shared is the subject of [Store]. *)
Module MonitoringService.
Import MarketData.

Definition constructor : MarketData.t :=
  {| centralized :=
       {| Centralized.price := 0%float;
          Centralized.indicators :=
            {| Indicators.rsi := None; Indicators.ema := None |} |};
     dex := {| Dex.price := 0%float |};
     priceDifference := 0%float;
     timestamp := None |}.

Definition updatePriceDifference (now : JS.date) (md : MarketData.t)
  : MarketData.t :=
  let c := Centralized.price (centralized md) in
  let d := Dex.price (dex md) in
  {| centralized := centralized md;
     dex := dex md;
     priceDifference :=
       if JS.is_zero c || JS.is_zero d then 0%float
       else ((c - d) / d)%float;
     timestamp := Some now |}.

(** The [TaapiService.onDataUpdate] handler of [setupDataFlow]. *)
Definition onTaapiData (data : TaapiService.t) (now : JS.date)
    (md : MarketData.t) : MarketData.t :=
  updatePriceDifference now
    {| centralized :=
         {| Centralized.price := TaapiService.price data;
            Centralized.indicators :=
              {| Indicators.rsi :=
                   Indicators.rsi (TaapiService.indicators data);
                 Indicators.ema :=
                   Indicators.ema (TaapiService.indicators data) |} |};
       dex := dex md;
       priceDifference := priceDifference md;
       timestamp := timestamp md |}.

(** The [DexPriceMonitor.onPriceUpdate] handler of [setupDataFlow]. *)
Definition onDexPrice (price : float) (now : JS.date) (md : MarketData.t)
  : MarketData.t :=
  updatePriceDifference now
    {| centralized := centralized md;
       dex := {| Dex.price := price |};
       priceDifference := priceDifference md;
       timestamp := timestamp md |}.

Definition isPotentialBuyOpportunity (taapi : TaapiService.t)
    (md : MarketData.t) : bool :=
  let priceDiffCheck :=
    JS.gt (priceDifference md) config.trading.minProfitThreshold in
  let rsiCheck := TaapiService.isRsiOversold taapi in
  let emaCheck := TaapiService.isPriceBelowEma taapi in
  priceDiffCheck && (rsiCheck || emaCheck).

Definition isPotentialSellOpportunity (taapi : TaapiService.t)
    (md : MarketData.t) : bool :=
  let priceDiffCheck :=
    JS.lt (priceDifference md) (- config.trading.minProfitThreshold)%float in
  let rsiCheck := TaapiService.isRsiOverbought taapi in
  let emaCheck := TaapiService.isPriceAboveEma taapi in
  priceDiffCheck && (rsiCheck || emaCheck).

(** The feed updates the service receives. *)
Inductive update :=
| TaapiData (data : TaapiService.t) (now : JS.date)
| DexPrice (price : float) (now : JS.date).

Definition apply (u : update) (md : MarketData.t) : MarketData.t :=
  match u with
  | TaapiData data now => onTaapiData data now md
  | DexPrice price now => onDexPrice price now md
  end.

End MonitoringService.

(* ===================================================================== *)
(** * Freshness of a snapshot *)
(* ===================================================================== *)

Module Freshness.

(** Modelled from the spec: the aggregator's freshness rule ([isStale]),
    which no source file implements.  A snapshot is usable only if both its
    reference side and its DEX side were updated within the staleness
    window; a side that was never updated is stale. *)
Definition olderThan (window : Z) (now : JS.date)
    (updatedAt : option JS.date) : bool :=
  match updatedAt with
  | None => true
  | Some at_ => (window <? now - at_)%Z
  end.

(** Modelled from the spec: [isStale], true when either side is older than
    its window. *)
Definition isStale (referenceWindow dexWindow : Z) (now : JS.date)
    (referenceUpdatedAt dexUpdatedAt : option JS.date) : bool :=
  olderThan referenceWindow now referenceUpdatedAt
  || olderThan dexWindow now dexUpdatedAt.

(** Modelled from the spec: the default window of the reference side, twice
    the refresh interval of its feed (60 s). *)
Definition referenceWindow : Z := 2 * 60000.

(** Modelled from the spec: the default window of the DEX side, twice the
    polling interval of the DEX price (15 s). *)
Definition dexWindow : Z := 2 * 15000.

(** The same data with other times of update. *)
Definition retimedData (lastUpdated : option JS.date) (d : TaapiService.t)
  : TaapiService.t :=
  {| TaapiService.price := TaapiService.price d;
     TaapiService.indicators := TaapiService.indicators d;
     TaapiService.lastUpdated := lastUpdated |}.

Definition retimedSnapshot (timestamp : option JS.date) (md : MarketData.t)
  : MarketData.t :=
  {| MarketData.centralized := MarketData.centralized md;
     MarketData.dex := MarketData.dex md;
     MarketData.priceDifference := MarketData.priceDifference md;
     MarketData.timestamp := timestamp |}.

(** Reference data fetched at time 0 (price 50100 below EMA 50200, RSI 25)
    and the snapshot built from it and a DEX price of 49700, also at time 0. *)
Definition oldData : TaapiService.t := TaapiService.fetched 50100 25 50200 0.

Definition oldSnapshot : MarketData.t :=
  MonitoringService.apply (MonitoringService.DexPrice 49700 0)
    (MonitoringService.apply (MonitoringService.TaapiData oldData 0)
       MonitoringService.constructor).

End Freshness.

(* ===================================================================== *)
(** * SignalDetector *)
(* ===================================================================== *)

Module SignalDetector.

Definition handler := nat.

Record signalData := {
  binancePrice : float;
  dexPrice : float;
  rsi : option float;
  ema : option float;
  priceGap : float
}.

Record signal := {
  type : option string;            (* "buy", "sell" or null *)
  timestamp : option JS.date;
  data : option signalData
}.

Record t := {
  lastSignal : signal;
  onBuySignal : option handler;
  onSellSignal : option handler
}.

Definition constructor : t :=
  {| lastSignal := {| type := None; timestamp := None; data := None |};
     onBuySignal := None; onSellSignal := None |}.

(** The services a check reads. *)
Record services := {
  binance : BinanceService.t;
  dexMonitor : DexPriceMonitor.t;
  calculator : IndicatorCalculator.t
}.

Inductive event :=
| LogDebug (rsiFlag emaFlag : bool) (priceGapPercent : float)
| LogInfo (text : string)
| CallBuySignal (h : handler) (s : signal)
| CallSellSignal (h : handler) (s : signal).

(** The gap a buy check computes: relative to the DEX price. *)
Definition buyGap (sv : services) : float :=
  let binancePrice := BinanceService.getCurrentPrice (binance sv) in
  let dexPrice := DexPriceMonitor.getCurrentPrice (dexMonitor sv) in
  ((binancePrice - dexPrice) / dexPrice)%float.

(** The gap a sell check computes: relative to the Binance price. *)
Definition sellGap (sv : services) : float :=
  let binancePrice := BinanceService.getCurrentPrice (binance sv) in
  let dexPrice := DexPriceMonitor.getCurrentPrice (dexMonitor sv) in
  ((dexPrice - binancePrice) / binancePrice)%float.

Definition mkSignal (kind : string) (now : JS.date) (sv : services)
    (gap : float) : signal :=
  {| type := Some kind;
     timestamp := Some now;
     data := Some
       {| binancePrice := BinanceService.getCurrentPrice (binance sv);
          dexPrice := DexPriceMonitor.getCurrentPrice (dexMonitor sv);
          rsi := IndicatorCalculator.rsi (calculator sv);
          ema := IndicatorCalculator.ema (calculator sv);
          priceGap := gap |} |}.

(** Each check returns its verdict, the detector afterwards, and what it
    logged and called. *)
Definition checkBuySignal (currentPosition : option string)
    (sv : services) (now : JS.date) (this : t) : bool * t * list event :=
  match currentPosition with
  | Some _ => (false, this, [])
  | None =>
      let binancePrice := BinanceService.getCurrentPrice (binance sv) in
      let rsiOversold := IndicatorCalculator.isRsiOversold (calculator sv) in
      let priceAboveEma :=
        IndicatorCalculator.isPriceAboveEma binancePrice (calculator sv) in
      let priceGapPercent := buyGap sv in
      let sufficientGap :=
        JS.gt priceGapPercent config.trading.minProfitThreshold in
      let debug := LogDebug rsiOversold priceAboveEma priceGapPercent in
      if rsiOversold && priceAboveEma && sufficientGap then
        let s := mkSignal "buy" now sv priceGapPercent in
        (true,
         {| lastSignal := s; onBuySignal := onBuySignal this;
            onSellSignal := onSellSignal this |},
         debug :: LogInfo "BUY SIGNAL DETECTED!" ::
         match onBuySignal this with
         | Some h => [CallBuySignal h s]
         | None => []
         end)
      else (false, this, [debug])
  end.

Definition checkSellSignal (currentPosition : option string)
    (sv : services) (now : JS.date) (this : t) : bool * t * list event :=
  if negb (bool_decide (currentPosition = Some "long"%string)) then
    (false, this, [])
  else
    let binancePrice := BinanceService.getCurrentPrice (binance sv) in
    let rsiOverbought :=
      IndicatorCalculator.isRsiOverbought (calculator sv) in
    let priceBelowEma :=
      IndicatorCalculator.isPriceBelowEma binancePrice (calculator sv) in
    let priceGapPercent := sellGap sv in
    let sufficientGap :=
      JS.gt priceGapPercent config.trading.minProfitThreshold in
    let debug := LogDebug rsiOverbought priceBelowEma priceGapPercent in
    if rsiOverbought && priceBelowEma && sufficientGap then
      let s := mkSignal "sell" now sv priceGapPercent in
      (true,
       {| lastSignal := s; onBuySignal := onBuySignal this;
          onSellSignal := onSellSignal this |},
       debug :: LogInfo "SELL SIGNAL DETECTED!" ::
       match onSellSignal this with
       | Some h => [CallSellSignal h s]
       | None => []
       end)
    else (false, this, [debug]).

(** The verdict alone. *)
Definition buySignal (currentPosition : option string) (sv : services)
    (now : JS.date) (this : t) : bool :=
  fst (fst (checkBuySignal currentPosition sv now this)).

Definition sellSignal (currentPosition : option string) (sv : services)
    (now : JS.date) (this : t) : bool :=
  fst (fst (checkSellSignal currentPosition sv now this)).

(** Services with the given prices and current indicator values. *)
Definition market (binancePrice dexPrice : float) (rsi ema : option float)
  : services :=
  {| binance :=
       {| BinanceService.currentPrice := binancePrice;
          BinanceService.historicalPrices := [] |};
     dexMonitor := {| DexPriceMonitor.price := dexPrice |};
     calculator :=
       {| IndicatorCalculator.rsi := rsi; IndicatorCalculator.ema := ema;
          IndicatorCalculator.previousRsi := None;
          IndicatorCalculator.previousEma := None |} |}.

(** The market of the sell counterexample: Binance 50000 below EMA 50100,
    RSI 75, DEX 50301. *)
Definition dex_leads : services :=
  market 50000 50301 (Some 75%float) (Some 50100%float).

(** Modelled from the spec: [priceGapPct] of a snapshot, the gap
    [(referencePrice - dexPrice) / dexPrice], defined as 0 when either price
    is 0 or unset.  An unset price is the 0 the constructors assign. *)
Definition priceGapPct (sv : services) : float :=
  let referencePrice := BinanceService.getCurrentPrice (binance sv) in
  let dexPrice := DexPriceMonitor.getCurrentPrice (dexMonitor sv) in
  if JS.is_zero referencePrice || JS.is_zero dexPrice then 0%float
  else ((referencePrice - dexPrice) / dexPrice)%float.

(** Modelled from the spec: buy eligibility, only when the position is
    flat: RSI oversold and reference price above the EMA and
    [priceGapPct > minProfitThreshold]. *)
Definition buyEligible (position : option string) (sv : services) : bool :=
  match position with
  | Some _ => false
  | None =>
      IndicatorCalculator.isRsiOversold (calculator sv)
      && IndicatorCalculator.isPriceAboveEma
           (BinanceService.getCurrentPrice (binance sv)) (calculator sv)
      && JS.gt (priceGapPct sv) config.trading.minProfitThreshold
  end.

(** The market before the first DEX price has arrived: the DEX monitor still
    holds the price its constructor assigned, Binance is at 50100 above EMA
    50000, RSI 25. *)
Definition dex_unset : services :=
  market 50100 (DexPriceMonitor.price DexPriceMonitor.constructor)
    (Some 25%float) (Some 50000%float).

End SignalDetector.

(* ===================================================================== *)
(** * ethers BigNumber and SlippageController *)
(* ===================================================================== *)

Module BigNumber.

(** Arbitrary-precision integers; [div] truncates toward zero. *)
Definition t := Z.
Definition mul (a b : t) : t := a * b.
Definition div (a b : t) : t := Z.quot a b.
Definition lte (a b : t) : bool := (a <=? b)%Z.

(** [BigNumber.from(Math.floor(x))]: throws when the number is not an
    integer value, as for NaN and the infinities. *)
Definition from_floor (x : float) : option t := JS.floor_to_Z x.

Definition gt (a b : t) : bool := (b <? a)%Z.

(** [BigNumber.from(x)] on a number: throws on a fractional part
    (underflow), outside the safe integers (overflow) and on NaN. *)
Definition MAX_SAFE : Z := 2 ^ 53 - 1.

Definition from (x : float) : option t :=
  match JS.floor_to_Z x with
  | Some z =>
      if JS.is_integer x && (- MAX_SAFE <? z)%Z && (z <? MAX_SAFE)%Z
      then Some z else None
  | None => None
  end.

End BigNumber.

Module SlippageController.

Definition handler := nat.

Record t := { onSlippageApplied : option handler }.

Definition constructor : t := {| onSlippageApplied := None |}.

Inductive event :=
| LogDebug (slippagePercent : float) (tradeType : string)
| CallSlippageApplied (h : handler) (tradeType : string)
    (amount adjustedAmount : BigNumber.t).

(** [None] when [BigNumber.from] throws. *)
Definition applySlippage (amount : BigNumber.t) (tradeType : string)
    (this : t) : option (BigNumber.t * list event) :=
  let slippageTolerance := (1 - config.trading.maxSlippage)%float in
  match BigNumber.from_floor (slippageTolerance * 10000)%float with
  | None => None
  | Some factor =>
      let adjustedAmount :=
        BigNumber.div (BigNumber.mul amount factor) 10000 in
      Some (adjustedAmount,
            LogDebug (config.trading.maxSlippage * 100)%float tradeType ::
            match onSlippageApplied this with
            | Some h => [CallSlippageApplied h tradeType amount adjustedAmount]
            | None => []
            end)
  end.

(** The amount returned, apart from what is logged and called. *)
Definition adjusted (amount : BigNumber.t) (tradeType : string) (this : t)
  : option BigNumber.t :=
  fst <$> applySlippage amount tradeType this.

End SlippageController.

(* ===================================================================== *)
(** * TradeExecutor *)
(* ===================================================================== *)

Module TradeExecutor.

Definition handler := nat.

(** [amountIn] and [amountOut] are kept as the integers that [formatUnits]
    renders. *)
Record tradeRecord := {
  type : string;
  txHash : string;
  amountIn : BigNumber.t;
  amountOut : BigNumber.t;
  timestamp : JS.date;
  blockNumber : Z
}.

Record t := {
  transactions : list tradeRecord;
  onTradeExecuted : option handler;
  onTradeError : option handler
}.

Definition constructor : t :=
  {| transactions := []; onTradeExecuted := None; onTradeError := None |}.

Inductive method := ExecuteBuy | ExecuteSell.

Definition tradeType (m : method) : string :=
  match m with ExecuteBuy => "buy" | ExecuteSell => "sell" end.

(** A call that has started and not yet returned is suspended at one of
    its [await]s, holding the locals it has computed so far. *)
Inductive activation :=
| AwaitingAmount (m : method)
    (* CapitalAllocator.getTradeAmount("buy") / wbtcToken.balanceOf *)
| AwaitingQuote (m : method) (amountIn : BigNumber.t) (deadline : Z)
    (* pancakeRouter.getAmountsOut *)
| AwaitingSwap (m : method) (amountIn expectedOut minAmountOut : BigNumber.t)
    (* pancakeRouter.swapExactTokensForTokens *)
| AwaitingReceipt (m : method) (amountIn expectedOut : BigNumber.t)
    (hash : string).
    (* swapTx.wait() *)

(** What an awaited promise settles with. *)
Inductive settlement :=
| Amount (v : BigNumber.t)
| Quote (amountOut : BigNumber.t)
| Transaction (hash : string)
| Receipt (block : Z)
| Failure (message : string).

(** How a call ends. *)
Inductive completion :=
| ReturnedFalse
| ReturnedRecord (r : tradeRecord)
| Threw (message : string).

(** What the logger receives. *)
Inductive message :=
| Executing (m : method)
| NothingToTrade (m : method)
| Trading (m : method) (amountIn : BigNumber.t)
| ExpectingAtLeast (m : method) (minAmountOut : BigNumber.t)
| Submitted (hash : string)
| ErrorExecuting (m : method) (message : string).

Inductive event :=
| LogInfo (msg : message)
| LogWarn (msg : message)
| LogError (msg : message)
| RequestAmount (m : method)
| RequestQuote (m : method) (amountIn : BigNumber.t)
| SubmitSwap (m : method) (amountIn minAmountOut : BigNumber.t) (deadline : Z)
| Slippage (e : SlippageController.event)
| CallTradeExecuted (h : handler) (r : tradeRecord)
| CallTradeError (h : handler) (tradeType : string) (message : string).

(** The [catch] block of both methods. *)
Definition failed (m : method) (message : string) (this : t)
  : t * (activation + completion) * list event :=
  (this, inr (Threw message),
   LogError (ErrorExecuting m message) ::
   match onTradeError this with
   | Some h => [CallTradeError h (tradeType m) message]
   | None => []
   end).

(** The start of a call, up to its first [await]. *)
Definition start (m : method) : activation * list event :=
  (AwaitingAmount m,
   [LogInfo (Executing m); RequestAmount m]).

(** The code between one [await] and the next, run when the awaited promise
    settles.  [None]: the settlement is not one the awaited promise can
    produce. *)
Definition resume (a : activation) (r : settlement) (now : JS.date)
    (slippage : SlippageController.t) (this : t)
  : option (t * (activation + completion) * list event) :=
  match a, r with
  | AwaitingAmount m, Failure message
  | AwaitingQuote m _ _, Failure message
  | AwaitingSwap m _ _ _, Failure message
  | AwaitingReceipt m _ _ _, Failure message =>
      Some (failed m message this)
  | AwaitingAmount m, Amount tradeAmount =>
      if BigNumber.lte tradeAmount 0 then
        Some (this, inr ReturnedFalse,
              [LogWarn (NothingToTrade m)])
      else
        let deadline := now / 1000 + 300 in
        Some (this, inl (AwaitingQuote m tradeAmount deadline),
              [RequestQuote m tradeAmount])
  | AwaitingQuote m tradeAmount deadline, Quote expected =>
      match SlippageController.applySlippage expected (tradeType m) slippage
      with
      | None => Some (failed m "invalid BigNumber value" this)
      | Some (minAmountOut, evs) =>
          Some (this, inl (AwaitingSwap m tradeAmount expected minAmountOut),
                map Slippage evs ++
                [LogInfo (Trading m tradeAmount);
                 LogInfo (ExpectingAtLeast m minAmountOut);
                 SubmitSwap m tradeAmount minAmountOut deadline])
      end
  | AwaitingSwap m tradeAmount expected _, Transaction hash =>
      Some (this, inl (AwaitingReceipt m tradeAmount expected hash),
            [LogInfo (Submitted hash)])
  | AwaitingReceipt m tradeAmount expected hash, Receipt block =>
      let tradeRecord :=
        {| type := tradeType m; txHash := hash; amountIn := tradeAmount;
           amountOut := expected; timestamp := now; blockNumber := block |} in
      Some ({| transactions := transactions this ++ [tradeRecord];
               onTradeExecuted := onTradeExecuted this;
               onTradeError := onTradeError this |},
            inr (ReturnedRecord tradeRecord),
            match onTradeExecuted this with
            | Some h => [CallTradeExecuted h tradeRecord]
            | None => []
            end)
  | _, _ => None
  end.

(** ** The calls in progress

    [executeBuy] and [executeSell] are [async]: a call runs to its first
    [await] and returns to the event loop, which may start further calls
    and resumes each one when its promise settles. *)

Record runtime := {
  executor : t;
  slippage : SlippageController.t;
  active : gmap nat activation;       (* the calls in progress *)
  finished : list (nat * completion); (* how the others ended *)
  trace : list event                  (* everything done so far *)
}.

Definition boot : runtime :=
  {| executor := constructor; slippage := SlippageController.constructor;
     active := ∅; finished := []; trace := [] |}.

Inductive action :=
| Call (m : method)
| Settle (id : nat) (r : settlement) (now : JS.date).

(** A call is made: nothing is consulted, the call starts. *)
Definition call (m : method) (rt : runtime) : runtime :=
  let id := fresh (dom (active rt)) in
  let '(a, evs) := start m in
  {| executor := executor rt; slippage := slippage rt;
     active := <[id := a]> (active rt);
     finished := finished rt;
     trace := trace rt ++ evs |}.

Definition settle (id : nat) (r : settlement) (now : JS.date) (rt : runtime)
  : option runtime :=
  a ← active rt !! id;
  '(this', next, evs) ← resume a r now (slippage rt) (executor rt);
  Some
    {| executor := this'; slippage := slippage rt;
       active := match next with
                 | inl a' => <[id := a']> (active rt)
                 | inr _ => delete id (active rt)
                 end;
       finished := match next with
                   | inl _ => finished rt
                   | inr c => finished rt ++ [(id, c)]
                   end;
       trace := trace rt ++ evs |}.

Definition step (x : action) (rt : runtime) : option runtime :=
  match x with
  | Call m => Some (call m rt)
  | Settle id r now => settle id r now rt
  end.

Fixpoint run (xs : list action) (rt : runtime) : option runtime :=
  match xs with
  | [] => Some rt
  | x :: xs' => rt' ← step x rt; run xs' rt'
  end.

Definition inProgress (rt : runtime) : nat := size (active rt).

(** The swaps handed to the router so far. *)
Definition isSwap (e : event) : bool :=
  match e with SubmitSwap _ _ _ _ => true | _ => false end.

Definition swapsSubmitted (rt : runtime) : list event :=
  List.filter isSwap (trace rt).

(** Two buy calls made back to back, each resumed up to its swap. *)
Definition overlapping : list action :=
  [Call ExecuteBuy; Call ExecuteBuy;
   Settle 0 (Amount 1000) 0; Settle 1 (Amount 1000) 0;
   Settle 0 (Quote 5000) 0; Settle 1 (Quote 5000) 0].

(** The records of the calls that returned one, in the order they
    returned. *)
Definition records (done : list (nat * completion)) : list tradeRecord :=
  flat_map
    (fun c => match snd c with ReturnedRecord r => [r] | _ => [] end) done.

End TradeExecutor.

(* ===================================================================== *)
(** * The objects behind the market data *)
(* ===================================================================== *)

(** [this.marketData] is an object whose [centralized] and [dex] fields
    refer to further objects, and [centralized.indicators] to another.  The
    store keeps every object at a reference, so that a copy of the outer
    object shares the inner ones, as in JavaScript. *)
Module Store.

Abbreviation ref := nat.

Inductive object :=
| IndicatorsObj (rsi ema : option float)
| CentralizedObj (price : float) (indicators : ref)
| DexObj (price : float)
| MarketDataObj (centralized dex : ref) (priceDifference : float)
    (timestamp : option JS.date).

Abbreviation heap := (gmap nat object).

(** An object literal: a new object at a reference not in use. *)
Definition alloc (o : object) (h : heap) : ref * heap :=
  let r := fresh (dom h) in (r, <[r := o]> h).

(** The service holds a reference to its market data. *)
Record service := { marketData : ref }.

(** The object literal the constructor assigns to [this.marketData]. *)
Definition constructor (h : heap) : service * heap :=
  let '(i, h) := alloc (IndicatorsObj None None) h in
  let '(c, h) := alloc (CentralizedObj 0 i) h in
  let '(d, h) := alloc (DexObj 0) h in
  let '(m, h) := alloc (MarketDataObj c d 0 None) h in
  ({| marketData := m |}, h).

(** [{ ...this.marketData }]: a new object with the same four fields; the
    fields that are references are copied as references. *)
Definition getCurrentData (this : service) (h : heap) : option (ref * heap) :=
  match h !! marketData this with
  | Some (MarketDataObj c d pd ts) => Some (alloc (MarketDataObj c d pd ts) h)
  | _ => None
  end.

(** The value read through a market-data object, field by field. *)
Definition load (r : ref) (h : heap) : option MarketData.t :=
  match h !! r with
  | Some (MarketDataObj c d pd ts) =>
      match h !! c, h !! d with
      | Some (CentralizedObj cp i), Some (DexObj dp) =>
          match h !! i with
          | Some (IndicatorsObj rsi ema) =>
              Some {| MarketData.centralized :=
                        {| Centralized.price := cp;
                           Centralized.indicators :=
                             {| Indicators.rsi := rsi;
                                Indicators.ema := ema |} |};
                      MarketData.dex := {| Dex.price := dp |};
                      MarketData.priceDifference := pd;
                      MarketData.timestamp := ts |}
          | _ => None
          end
      | _, _ => None
      end
  | _ => None
  end.

(** [updatePriceDifference] on the objects. *)
Definition updatePriceDifference (now : JS.date) (this : service) (h : heap)
  : option heap :=
  match h !! marketData this with
  | Some (MarketDataObj c d _ _) =>
      match h !! c, h !! d with
      | Some (CentralizedObj cp _), Some (DexObj dp) =>
          let pd :=
            if JS.is_zero cp || JS.is_zero dp then 0%float
            else ((cp - dp) / dp)%float in
          Some (<[marketData this := MarketDataObj c d pd (Some now)]> h)
      | _, _ => None
      end
  | _ => None
  end.

(** The [TaapiService.onDataUpdate] handler: [this.marketData.centralized]
    is assigned a new object. *)
Definition onTaapiData (data : TaapiService.t) (now : JS.date)
    (this : service) (h : heap) : option heap :=
  match h !! marketData this with
  | Some (MarketDataObj _ d pd ts) =>
      let '(i, h) :=
        alloc (IndicatorsObj (Indicators.rsi (TaapiService.indicators data))
                 (Indicators.ema (TaapiService.indicators data))) h in
      let '(c, h) := alloc (CentralizedObj (TaapiService.price data) i) h in
      updatePriceDifference now this
        (<[marketData this := MarketDataObj c d pd ts]> h)
  | _ => None
  end.

(** The [DexPriceMonitor.onPriceUpdate] handler: the price is written into
    the object [this.marketData.dex] refers to. *)
Definition onDexPrice (price : float) (now : JS.date) (this : service)
    (h : heap) : option heap :=
  match h !! marketData this with
  | Some (MarketDataObj _ d _ _) =>
      match h !! d with
      | Some (DexObj _) =>
          updatePriceDifference now this (<[d := DexObj price]> h)
      | _ => None
      end
  | _ => None
  end.

(** What a consumer may assign through a snapshot it was given. *)
Inductive mutation :=
| SetPriceDifference (v : float)      (* snapshot.priceDifference = v *)
| SetTimestamp (v : option JS.date)   (* snapshot.timestamp = v *)
| SetCentralized (price : float) (rsi ema : option float)
                                      (* snapshot.centralized = { ... } *)
| SetDex (price : float)              (* snapshot.dex = { price } *)
| SetCentralizedPrice (v : float)     (* snapshot.centralized.price = v *)
| SetRsi (v : option float)  (* snapshot.centralized.indicators.rsi = v *)
| SetEma (v : option float)  (* snapshot.centralized.indicators.ema = v *)
| SetDexPrice (v : float).            (* snapshot.dex.price = v *)

(** The assignments that write a field of the snapshot object itself. *)
Definition topLevel (m : mutation) : bool :=
  match m with
  | SetPriceDifference _ | SetTimestamp _ | SetCentralized _ _ _ | SetDex _ =>
      true
  | _ => false
  end.

Definition mutate (m : mutation) (snapshot : ref) (h : heap) : option heap :=
  match h !! snapshot with
  | Some (MarketDataObj c d pd ts) =>
      match m with
      | SetPriceDifference v =>
          Some (<[snapshot := MarketDataObj c d v ts]> h)
      | SetTimestamp v =>
          Some (<[snapshot := MarketDataObj c d pd v]> h)
      | SetCentralized price rsi ema =>
          let '(i, h) := alloc (IndicatorsObj rsi ema) h in
          let '(c', h) := alloc (CentralizedObj price i) h in
          Some (<[snapshot := MarketDataObj c' d pd ts]> h)
      | SetDex price =>
          let '(d', h) := alloc (DexObj price) h in
          Some (<[snapshot := MarketDataObj c d' pd ts]> h)
      | SetCentralizedPrice v =>
          match h !! c with
          | Some (CentralizedObj _ i) => Some (<[c := CentralizedObj v i]> h)
          | _ => None
          end
      | SetRsi v =>
          match h !! c with
          | Some (CentralizedObj _ i) =>
              match h !! i with
              | Some (IndicatorsObj _ ema) =>
                  Some (<[i := IndicatorsObj v ema]> h)
              | _ => None
              end
          | _ => None
          end
      | SetEma v =>
          match h !! c with
          | Some (CentralizedObj _ i) =>
              match h !! i with
              | Some (IndicatorsObj rsi _) =>
                  Some (<[i := IndicatorsObj rsi v]> h)
              | _ => None
              end
          | _ => None
          end
      | SetDexPrice v =>
          match h !! d with
          | Some (DexObj _) => Some (<[d := DexObj v]> h)
          | _ => None
          end
      end
  | _ => None
  end.

(** A consumer asks for the data of a newly constructed service and then
    assigns through what it was given; the result is the service's own market
    data afterwards. *)
Definition afterConsumer (m : mutation) : option MarketData.t :=
  let '(this, h) := constructor ∅ in
  '(snapshot, h) ← getCurrentData this h;
  h ← mutate m snapshot h;
  load (marketData this) h.

(** What an assignment through a snapshot does to the values read through
    the objects it reaches. *)
Definition assigned (m : mutation) (md : MarketData.t) : MarketData.t :=
  let c := MarketData.centralized md in
  let i := Centralized.indicators c in
  match m with
  | SetPriceDifference v =>
      {| MarketData.centralized := c; MarketData.dex := MarketData.dex md;
         MarketData.priceDifference := v;
         MarketData.timestamp := MarketData.timestamp md |}
  | SetTimestamp v =>
      {| MarketData.centralized := c; MarketData.dex := MarketData.dex md;
         MarketData.priceDifference := MarketData.priceDifference md;
         MarketData.timestamp := v |}
  | SetCentralized price rsi ema =>
      {| MarketData.centralized :=
           {| Centralized.price := price;
              Centralized.indicators :=
                {| Indicators.rsi := rsi; Indicators.ema := ema |} |};
         MarketData.dex := MarketData.dex md;
         MarketData.priceDifference := MarketData.priceDifference md;
         MarketData.timestamp := MarketData.timestamp md |}
  | SetDex price | SetDexPrice price =>
      {| MarketData.centralized := c;
         MarketData.dex := {| Dex.price := price |};
         MarketData.priceDifference := MarketData.priceDifference md;
         MarketData.timestamp := MarketData.timestamp md |}
  | SetCentralizedPrice v =>
      {| MarketData.centralized :=
           {| Centralized.price := v; Centralized.indicators := i |};
         MarketData.dex := MarketData.dex md;
         MarketData.priceDifference := MarketData.priceDifference md;
         MarketData.timestamp := MarketData.timestamp md |}
  | SetRsi v =>
      {| MarketData.centralized :=
           {| Centralized.price := Centralized.price c;
              Centralized.indicators :=
                {| Indicators.rsi := v; Indicators.ema := Indicators.ema i |} |};
         MarketData.dex := MarketData.dex md;
         MarketData.priceDifference := MarketData.priceDifference md;
         MarketData.timestamp := MarketData.timestamp md |}
  | SetEma v =>
      {| MarketData.centralized :=
           {| Centralized.price := Centralized.price c;
              Centralized.indicators :=
                {| Indicators.rsi := Indicators.rsi i; Indicators.ema := v |} |};
         MarketData.dex := MarketData.dex md;
         MarketData.priceDifference := MarketData.priceDifference md;
         MarketData.timestamp := MarketData.timestamp md |}
  end.

End Store.

(* ===================================================================== *)
(** * CapitalAllocator *)
(* ===================================================================== *)

Module CapitalAllocator.

Definition handler := nat.

Record t := { onCapitalAllocated : option handler }.

Definition constructor : t := {| onCapitalAllocated := None |}.

(** What [balanceOf] answers for the wallet, per token. *)
Record balances := { busd : BigNumber.t; wbtc : BigNumber.t }.

Inductive event :=
| LogDebug (tradeAmount : BigNumber.t) (decimals : Z) (tradeType : string)
| CallCapitalAllocated (h : handler) (tradeType : string)
    (tradeAmount : BigNumber.t).

(** [getTradeAmount], from the balances the token contracts report.
    [None] when [BigNumber.from] throws. *)
Definition getTradeAmount (tradeType : string) (wallet : balances) (this : t)
  : option (BigNumber.t * list event) :=
  let '(balance, decimals) :=
    if bool_decide (tradeType = "buy"%string) then (busd wallet, 18)
    else (wbtc wallet, 8) in
  let maxPercent := (config.wallet.maxCapitalPerTrade * 100)%float in
  match BigNumber.from maxPercent with
  | None => None
  | Some percent =>
      let tradeAmount := BigNumber.div (BigNumber.mul balance percent) 100 in
      Some (tradeAmount,
            LogDebug tradeAmount decimals tradeType ::
            match onCapitalAllocated this with
            | Some h => [CallCapitalAllocated h tradeType tradeAmount]
            | None => []
            end)
  end.

(** The amount alone. *)
Definition tradeAmount (tradeType : string) (wallet : balances) (this : t)
  : option BigNumber.t :=
  fst <$> getTradeAmount tradeType wallet this.

(** What the first [await] of a trade method settles with, for a wallet:
    [executeBuy] awaits [getTradeAmount("buy")], [executeSell] the WBTC
    balance itself. *)
Definition amountFor (m : TradeExecutor.method) (wallet : balances)
    (this : t) : TradeExecutor.settlement :=
  match m with
  | TradeExecutor.ExecuteBuy =>
      match tradeAmount "buy" wallet this with
      | Some v => TradeExecutor.Amount v
      | None => TradeExecutor.Failure "invalid BigNumber value"
      end
  | TradeExecutor.ExecuteSell => TradeExecutor.Amount (wbtc wallet)
  end.

End CapitalAllocator.

(* ===================================================================== *)
(** * NetworkMonitor *)
(* ===================================================================== *)

Module NetworkMonitor.

Definition handler := nat.

Record t := {
  currentGasPrice : BigNumber.t;
  onGasPriceUpdate : option handler;
  onNetworkCongestion : option handler
}.

Definition constructor : t :=
  {| currentGasPrice := config.bsc.gasPrice;
     onGasPriceUpdate := None; onNetworkCongestion := None |}.

(** What [provider.getGasPrice()] settles with. *)
Inductive answer :=
| GasPrice (wei : BigNumber.t)
| ProviderError (message : string).

Inductive event :=
| LogDebug (gasPrice : BigNumber.t)
| LogError (message : string)
| CallGasPriceUpdate (h : handler) (gasPrice : BigNumber.t).

(** [updateGasPrice] once the provider answered: the new state, the value
    returned ([inr]: the error rethrown), and the effects. *)
Definition updateGasPrice (a : answer) (this : t)
  : t * (BigNumber.t + string) * list event :=
  match a with
  | GasPrice gasPrice =>
      let bufferedGasPrice :=
        BigNumber.div (BigNumber.mul gasPrice 110) 100 in
      let current :=
        if BigNumber.gt bufferedGasPrice config.bsc.gasPrice
        then bufferedGasPrice else config.bsc.gasPrice in
      ({| currentGasPrice := current;
          onGasPriceUpdate := onGasPriceUpdate this;
          onNetworkCongestion := onNetworkCongestion this |},
       inl current,
       LogDebug current ::
       match onGasPriceUpdate this with
       | Some h => [CallGasPriceUpdate h current]
       | None => []
       end)
  | ProviderError message => (this, inr message, [LogError message])
  end.

Definition getGasPrice (this : t) : BigNumber.t := currentGasPrice this.

Definition updateAll (answers : list answer) (this : t) : t :=
  fold_left (fun s a => fst (fst (updateGasPrice a s))) answers this.

End NetworkMonitor.

(* ===================================================================== *)
(** * StopLossManager *)
(* ===================================================================== *)

Module StopLossManager.

Definition handler := nat.

Record t := { onStopLossTriggered : option handler }.

Definition constructor : t := {| onStopLossTriggered := None |}.

Inductive event :=
| Position (e : PositionManager.event)
| LogWarn                             (* "Stop-loss condition met! ..." *)
| LogError (message : string)
| ExecuteSell                         (* TradeExecutor.executeSell() *)
| CallStopLossTriggered (h : handler) (price : float)
    (highestPrice : option float) (timestamp : JS.date).

(** Where a check stands when it returns to the event loop: finished, or
    waiting for [executeSell] with the locals it needs afterwards. *)
Inductive pending :=
| Finished
| AwaitingSell (currentPrice : float) (reportedPeak : option float).

(** [checkStopLoss] up to its [await]. *)
Definition checkStopLoss (dex : DexPriceMonitor.t) (pm : PositionManager.t)
  : PositionManager.t * pending * list event :=
  let currentPosition := PositionManager.getCurrentPosition pm in
  if negb (JS.truthy JS.truthy_str
             (PositionManager.CurrentPosition.type currentPosition))
  then (pm, Finished, [])
  else
    let currentPrice := DexPriceMonitor.getCurrentPrice dex in
    let '(pm', evs) := PositionManager.updateHighestPrice currentPrice pm in
    if PositionManager.shouldTriggerStopLoss currentPrice pm' then
      (pm',
       AwaitingSell currentPrice
         (PositionManager.CurrentPosition.highestPrice currentPosition),
       map Position evs ++ [LogWarn; ExecuteSell])
    else (pm', Finished, map Position evs).

(** What [executeSell] settled with: its result (a record or [false]) or
    an exception. *)
Inductive sold :=
| SellResult (r : option TradeExecutor.tradeRecord)
| SellThrew (message : string).

(** [checkStopLoss] after its [await]: the value it returns ([inr]: the
    error rethrown) and the effects. *)
Definition afterSell (currentPrice : float) (reportedPeak : option float)
    (s : sold) (now : JS.date) (this : t)
  : (option TradeExecutor.tradeRecord + string) * list event :=
  match s with
  | SellResult r =>
      (inl r,
       match onStopLossTriggered this with
       | Some h => [CallStopLossTriggered h currentPrice reportedPeak now]
       | None => []
       end)
  | SellThrew message => (inr message, [LogError message])
  end.

End StopLossManager.

(* ===================================================================== *)
(** * OpportunityController *)
(* ===================================================================== *)

Module OpportunityController.

Record status := {
  type : string;
  strength : float;
  priceDifference : float
}.

(** The body of [getOpportunityStatus], on the service's market data and
    the reference data its checks read. *)
Definition getOpportunityStatus (taapi : TaapiService.t) (md : MarketData.t)
  : status :=
  let isBuyOpportunity :=
    MonitoringService.isPotentialBuyOpportunity taapi md in
  let isSellOpportunity :=
    MonitoringService.isPotentialSellOpportunity taapi md in
  let type := "neutral"%string in
  let type := if isBuyOpportunity then "buy"%string else type in
  let type := if isSellOpportunity then "sell"%string else type in
  let strength :=
    JS.Math_min (abs (MarketData.priceDifference md * 100)%float) 100 in
  {| type := type; strength := strength;
     priceDifference := MarketData.priceDifference md |}.

End OpportunityController.

(* ===================================================================== *)
(** * TaapiService, the rate-limited variant *)
(* ===================================================================== *)

(** The request queue of the variant that fetches one value at a time. *)
Module RateLimiting.

(** A queued request, by the handle of its resolvers. *)
Definition request := nat.

Record t := {
  queue : list request;
  processing : bool;
  lastRequestTime : Z;
  minTimeBetweenRequests : Z
}.

Definition constructor : t :=
  {| queue := []; processing := false; lastRequestTime := 0;
     minTimeBetweenRequests := 15000 |}.

(** The first part of [processRequestQueue], run at time [now]: with an
    empty queue it stops processing; otherwise it takes the next request
    and computes how long to wait before making it. *)
Definition processRequestQueue (now : JS.date) (this : t)
  : t * option (request * Z) :=
  match queue this with
  | [] =>
      ({| queue := []; processing := false;
          lastRequestTime := lastRequestTime this;
          minTimeBetweenRequests := minTimeBetweenRequests this |}, None)
  | r :: rest =>
      let timeSinceLastRequest := now - lastRequestTime this in
      let timeToWait :=
        JS.Math_max_int 0
          (minTimeBetweenRequests this - timeSinceLastRequest) in
      ({| queue := rest; processing := true;
          lastRequestTime := lastRequestTime this;
          minTimeBetweenRequests := minTimeBetweenRequests this |},
       Some (r, timeToWait))
  end.

(** [makeRateLimitedRequest]: the request joins the queue, and processing
    starts unless it is under way. *)
Definition makeRateLimitedRequest (r : request) (now : JS.date) (this : t)
  : t * option (request * Z) :=
  let queued :=
    {| queue := queue this ++ [r]; processing := processing this;
       lastRequestTime := lastRequestTime this;
       minTimeBetweenRequests := minTimeBetweenRequests this |} in
  if negb (processing this) then processRequestQueue now queued
  else (queued, None).

(** How the request made ended: a result, or an error with the HTTP status
    of its response if it has one. *)
Inductive outcome :=
| Succeeded
| Failed (status : option Z).

(** The second part of [processRequestQueue], run when the request ended at
    time [now]. *)
Definition requestEnded (o : outcome) (now : JS.date) (this : t) : t :=
  match o with
  | Succeeded =>
      {| queue := queue this; processing := processing this;
         lastRequestTime := now;
         minTimeBetweenRequests := minTimeBetweenRequests this |}
  | Failed status =>
      {| queue := queue this; processing := processing this;
         lastRequestTime := lastRequestTime this;
         minTimeBetweenRequests :=
           if bool_decide (status = Some 429)
           then minTimeBetweenRequests this + 1000
           else minTimeBetweenRequests this |}
  end.

(** What happens to the limiter, in the order it happens. *)
Inductive action :=
| Make (r : request) (now : JS.date)
| Process (now : JS.date)
| Ended (o : outcome) (now : JS.date).

Definition step (a : action) (this : t) : t :=
  match a with
  | Make r now => fst (makeRateLimitedRequest r now this)
  | Process now => fst (processRequestQueue now this)
  | Ended o now => requestEnded o now this
  end.

Definition run (actions : list action) (this : t) : t :=
  fold_left (fun s a => step a s) actions this.

(** What an action hands to the network, if anything: the request and the
    time to wait before making it. *)
Definition scheduled (a : action) (this : t) : option (request * Z) :=
  match a with
  | Make r now => snd (makeRateLimitedRequest r now this)
  | Process now => snd (processRequestQueue now this)
  | Ended _ _ => None
  end.

Definition time (a : action) : JS.date :=
  match a with Make _ now | Process now | Ended _ now => now end.

(** The requests handed to the network along a list of actions, in order. *)
Fixpoint issued (actions : list action) (this : t) : list request :=
  match actions with
  | [] => []
  | a :: rest =>
      match scheduled a this with Some (r, _) => [r] | None => [] end
      ++ issued rest (step a this)
  end.

(** The requests callers made, in order. *)
Definition made (actions : list action) : list request :=
  flat_map (fun a => match a with Make r _ => [r] | _ => [] end) actions.

(** The requests that ended with HTTP status 429, counted. *)
Definition isRateLimitHit (a : action) : bool :=
  match a with
  | Ended (Failed status) _ => bool_decide (status = Some 429)
  | _ => false
  end.

Definition rateLimitHits (actions : list action) : Z :=
  Z.of_nat (length (List.filter isRateLimitHit actions)).

(** When the last request that succeeded ended; [0] if none has. *)
Definition lastSuccess (actions : list action) : JS.date :=
  fold_left
    (fun t a => match a with Ended Succeeded now => now | _ => t end)
    actions 0.

End RateLimiting.

Module TaapiFetch.

Definition handler := nat.

(** What one request of [fetchDataSequentially] settles with. *)
Inductive fetched (A : Type) :=
| Resolved (value : A)
| Rejected (message : string).
Arguments Resolved {A} value.
Arguments Rejected {A} message.

Inductive event :=
| LogError (message : string)
| CallDataUpdate (h : handler) (data : TaapiService.t).

(** [fetchDataSequentially]: the price, then the RSI, then the EMA, each
    stored as soon as it arrives, at the times [t1], [t2], [t3]; a later
    request is made only if the earlier ones resolved.  Returns the data
    afterwards, whether the call returned ([None]) or threw, and the
    effects. *)
Definition fetchDataSequentially
    (price : fetched float) (rsi ema : fetched float)
    (t1 t2 t3 : JS.date) (onDataUpdate : option handler)
    (this : TaapiService.t)
  : TaapiService.t * option string * list event :=
  match price with
  | Rejected message => (this, Some message, [LogError message])
  | Resolved priceData =>
      let d1 :=
        {| TaapiService.price := priceData;
           TaapiService.indicators := TaapiService.indicators this;
           TaapiService.lastUpdated := Some t1 |} in
      match rsi with
      | Rejected message => (d1, Some message, [LogError message])
      | Resolved rsiValue =>
          let d2 :=
            {| TaapiService.price := priceData;
               TaapiService.indicators :=
                 {| Indicators.rsi := Some rsiValue;
                    Indicators.ema :=
                      Indicators.ema (TaapiService.indicators this) |};
               TaapiService.lastUpdated := Some t2 |} in
          match ema with
          | Rejected message => (d2, Some message, [LogError message])
          | Resolved emaValue =>
              let d3 :=
                {| TaapiService.price := priceData;
                   TaapiService.indicators :=
                     {| Indicators.rsi := Some rsiValue;
                        Indicators.ema := Some emaValue |};
                   TaapiService.lastUpdated := Some t3 |} in
              (d3, None,
               match onDataUpdate with
               | Some h => [CallDataUpdate h d3]
               | None => []
               end)
          end
      end
  end.

(** [fetchData] of the other variant: the three requests are made together
    ([Promise.all]) and the data is stored only once all have resolved. *)
Definition fetchData (all : fetched (float * float * float))
    (now : JS.date) (onDataUpdate : option handler) (this : TaapiService.t)
  : TaapiService.t * option string * list event :=
  match all with
  | Rejected message => (this, Some message, [LogError message])
  | Resolved (priceData, rsiValue, emaValue) =>
      let d := TaapiService.fetched priceData rsiValue emaValue now in
      (d, None,
       match onDataUpdate with
       | Some h => [CallDataUpdate h d]
       | None => []
       end)
  end.

End TaapiFetch.

(* ===================================================================== *)
(** * The bot: the handlers that index.js installs *)
(* ===================================================================== *)

(** [registerEventHandlers] connects the modules: every Binance price
    update runs the two signal checks on the position manager's current
    position; a buy signal starts [executeBuy] and opens the position when
    the trade returns a record; a sell signal starts [executeSell] and closes
    it likewise.  [StopLossManager.startMonitoring] adds the periodic
    stop-loss check. *)
Module Bot.

(** Who awaits a call of the trade executor: the handler of a buy or sell
    signal, or a stop-loss check with the locals it holds. *)
Inductive awaiter :=
| BuySignalHandler
| SellSignalHandler
| StopLossCheck (currentPrice : float) (reportedPeak : option float).

Record t := {
  positions : PositionManager.t;
  detector : SignalDetector.t;
  stopLoss : StopLossManager.t;
  trades : TradeExecutor.runtime;
  awaiting : gmap nat awaiter;   (* suspended at [await executeBuy/Sell()] *)
  unhandled : list string        (* rejections that nothing catches *)
}.

(** The singletons once [initialize] has registered the handlers. *)
Definition constructor : t :=
  {| positions :=
       PositionManager.registerPositionClosed 1%nat
         (PositionManager.registerPositionOpened 0%nat
            PositionManager.constructor);
     detector :=
       {| SignalDetector.lastSignal :=
            SignalDetector.lastSignal SignalDetector.constructor;
          SignalDetector.onBuySignal := Some 0%nat;
          SignalDetector.onSellSignal := Some 1%nat |};
     stopLoss := StopLossManager.constructor;
     trades := TradeExecutor.boot;
     awaiting := ∅;
     unhandled := [] |}.

(** A handler calls the executor and is suspended on the call. *)
Definition startTrade (m : TradeExecutor.method) (w : awaiter) (this : t)
  : t :=
  let id := fresh (dom (TradeExecutor.active (trades this))) in
  {| positions := positions this; detector := detector this;
     stopLoss := stopLoss this;
     trades := TradeExecutor.call m (trades this);
     awaiting := <[id := w]> (awaiting this);
     unhandled := unhandled this |}.

Definition isCallBuySignal (e : SignalDetector.event) : bool :=
  match e with SignalDetector.CallBuySignal _ _ => true | _ => false end.

Definition isCallSellSignal (e : SignalDetector.event) : bool :=
  match e with SignalDetector.CallSellSignal _ _ => true | _ => false end.

Definition withDetector (sd : SignalDetector.t) (this : t) : t :=
  {| positions := positions this; detector := sd;
     stopLoss := stopLoss this; trades := trades this;
     awaiting := awaiting this; unhandled := unhandled this |}.

Definition withPositions (pm : PositionManager.t) (this : t) : t :=
  {| positions := pm; detector := detector this;
     stopLoss := stopLoss this; trades := trades this;
     awaiting := awaiting this; unhandled := unhandled this |}.

(** The [BinanceService.onPriceUpdate] handler; [sv] is what the services
    hold once [updateIndicators] has run. *)
Definition onPriceUpdate (sv : SignalDetector.services) (now : JS.date)
    (this : t) : t :=
  let '(_, sd, evs) :=
    SignalDetector.checkBuySignal
      (PositionManager.CurrentPosition.type
         (PositionManager.getCurrentPosition (positions this)))
      sv now (detector this) in
  let this := withDetector sd this in
  let this :=
    if existsb isCallBuySignal evs
    then startTrade TradeExecutor.ExecuteBuy BuySignalHandler this
    else this in
  let '(_, sd, evs) :=
    SignalDetector.checkSellSignal
      (PositionManager.CurrentPosition.type
         (PositionManager.getCurrentPosition (positions this)))
      sv now (detector this) in
  let this := withDetector sd this in
  if existsb isCallSellSignal evs
  then startTrade TradeExecutor.ExecuteSell SellSignalHandler this
  else this.

(** One tick of the stop-loss interval. *)
Definition onStopLossTick (dex : DexPriceMonitor.t) (this : t) : t :=
  let '(pm, pending, _) :=
    StopLossManager.checkStopLoss dex (positions this) in
  let this := withPositions pm this in
  match pending with
  | StopLossManager.Finished => this
  | StopLossManager.AwaitingSell price peak =>
      startTrade TradeExecutor.ExecuteSell (StopLossCheck price peak) this
  end.

(** How the call [id] ended, if the settlement ended it. *)
Definition outcome (id : nat) (after : TradeExecutor.runtime)
  : option TradeExecutor.completion :=
  match TradeExecutor.active after !! id with
  | Some _ => None
  | None => snd <$> last (TradeExecutor.finished after)
  end.

(** A promise awaited by the call [id] settles; if that ends the call, the
    handler suspended on it goes on: with a record ([tradeResult] truthy) the
    buy handler opens the position and the sell handler closes it, at the
    DEX price of that moment. *)
Definition onSettled (id : nat) (r : TradeExecutor.settlement)
    (now : JS.date) (dex : DexPriceMonitor.t) (this : t) : option t :=
  rt ← TradeExecutor.settle id r now (trades this);
  let resumed :=
    {| positions := positions this; detector := detector this;
       stopLoss := stopLoss this; trades := rt;
       awaiting := awaiting this; unhandled := unhandled this |} in
  Some
    match outcome id rt with
    | None => resumed
    | Some c =>
        let ended :=
          {| positions := positions this; detector := detector this;
             stopLoss := stopLoss this; trades := rt;
             awaiting := delete id (awaiting this);
             unhandled := unhandled this |} in
        match awaiting this !! id, c with
        | Some BuySignalHandler, TradeExecutor.ReturnedRecord _ =>
            withPositions
              (fst (PositionManager.openPosition
                      (DexPriceMonitor.getCurrentPrice dex) now
                      (positions this))) ended
        | Some SellSignalHandler, TradeExecutor.ReturnedRecord _ =>
            withPositions
              (fst (PositionManager.closePosition
                      (DexPriceMonitor.getCurrentPrice dex) now
                      (positions this))) ended
        | Some _, TradeExecutor.Threw message =>
            {| positions := positions this; detector := detector this;
               stopLoss := stopLoss this; trades := rt;
               awaiting := delete id (awaiting this);
               unhandled := unhandled this ++ [message] |}
        | _, _ => ended
        end
    end.

Inductive action :=
| PriceUpdate (sv : SignalDetector.services) (now : JS.date)
| StopLossTick (dex : DexPriceMonitor.t)
| Settled (id : nat) (r : TradeExecutor.settlement) (now : JS.date)
    (dex : DexPriceMonitor.t).

Definition step (a : action) (this : t) : option t :=
  match a with
  | PriceUpdate sv now => Some (onPriceUpdate sv now this)
  | StopLossTick dex => Some (onStopLossTick dex this)
  | Settled id r now dex => onSettled id r now dex this
  end.

Fixpoint run (actions : list action) (this : t) : option t :=
  match actions with
  | [] => Some this
  | a :: rest => this' ← step a this; run rest this'
  end.

(** The three conditions of a buy signal, on what the services hold. *)
Definition buyConditions (sv : SignalDetector.services) : bool :=
  IndicatorCalculator.isRsiOversold (SignalDetector.calculator sv)
  && IndicatorCalculator.isPriceAboveEma
       (BinanceService.getCurrentPrice (SignalDetector.binance sv))
       (SignalDetector.calculator sv)
  && JS.gt (SignalDetector.buyGap sv) config.trading.minProfitThreshold.

(** Price updates alone, in order. *)
Definition priceUpdates
    (updates : list (SignalDetector.services * JS.date)) (this : t) : t :=
  fold_left (fun s u => onPriceUpdate (fst u) (snd u) s) updates this.

End Bot.

(* ===================================================================== *)
(** * Proof support *)
(* ===================================================================== *)

(** Settles a goal about three binary64 values of one sign by comparing
    their exponents, then their mantissas. *)
Ltac by_cases_on_order ex ey ez mx my mz :=
  change (Pos.compare_cont Eq) with Pos.compare;
  destruct (Z.compare_spec ex ey), (Z.compare_spec ey ez),
           (Z.compare_spec ex ez);
  subst; simpl; try discriminate; try reflexivity; try lia;
  destruct (Pos.compare_spec mx my), (Pos.compare_spec my mz),
           (Pos.compare_spec mx mz);
  subst; simpl; try discriminate; try reflexivity; try lia.

(** An activation past its first [await] trades a positive amount. *)
Definition funded (a : TradeExecutor.activation) : Prop :=
  match a with
  | TradeExecutor.AwaitingAmount _ => True
  | TradeExecutor.AwaitingQuote _ amountIn _
  | TradeExecutor.AwaitingSwap _ amountIn _ _
  | TradeExecutor.AwaitingReceipt _ amountIn _ _ => 0 < amountIn
  end.

(** What an event says about the amount traded. *)
Definition fundedEvent (e : TradeExecutor.event) : Prop :=
  match e with
  | TradeExecutor.RequestQuote _ amountIn
  | TradeExecutor.SubmitSwap _ amountIn _ _ => 0 < amountIn
  | _ => True
  end.

(** The ledger of a runtime: the transactions are the records returned, and
    every amount traded or about to be is positive. *)
Record ledger (rt : TradeExecutor.runtime) : Prop := {
  ledger_records :
    TradeExecutor.transactions (TradeExecutor.executor rt)
    = TradeExecutor.records (TradeExecutor.finished rt);
  ledger_active :
    map_Forall (fun _ a => funded a) (TradeExecutor.active rt);
  ledger_transactions :
    Forall (fun r => 0 < TradeExecutor.amountIn r)
      (TradeExecutor.transactions (TradeExecutor.executor rt));
  ledger_trace : Forall fundedEvent (TradeExecutor.trace rt)
}.

(** The method a call in progress belongs to, and the method a handler
    calls. *)
Definition methodOf (a : TradeExecutor.activation) : TradeExecutor.method :=
  match a with
  | TradeExecutor.AwaitingAmount m
  | TradeExecutor.AwaitingQuote m _ _
  | TradeExecutor.AwaitingSwap m _ _ _
  | TradeExecutor.AwaitingReceipt m _ _ _ => m
  end.

Definition methodFor (w : Bot.awaiter) : TradeExecutor.method :=
  match w with
  | Bot.BuySignalHandler => TradeExecutor.ExecuteBuy
  | _ => TradeExecutor.ExecuteSell
  end.

(** What holds of the bot in every state it reaches: each suspended handler
    waits for a call in progress of the method it called, and a position is
    tracked only if the ledger holds a buy. *)
Record consistent (b : Bot.t) : Prop := {
  consistent_awaiting :
    forall id w, Bot.awaiting b !! id = Some w ->
      exists a, TradeExecutor.active (Bot.trades b) !! id = Some a
                /\ methodOf a = methodFor w;
  consistent_shape :
    PositionManager.currentPosition (Bot.positions b) = None
    \/ PositionManager.currentPosition (Bot.positions b)
       = Some "long"%string;
  consistent_position :
    PositionManager.currentPosition (Bot.positions b) <> None ->
    exists r,
      In r (TradeExecutor.transactions
              (TradeExecutor.executor (Bot.trades b)))
      /\ TradeExecutor.type r = "buy"%string
}.

(** Looks a reference up in a store built by insertions. *)
Ltac lookup_in_store :=
  repeat first
    [ rewrite lookup_insert_eq
    | rewrite lookup_insert_ne by congruence ];
  try reflexivity; try eassumption.

(* ===================================================================== *)
(** * Part II: properties *)
(* ===================================================================== *)

(* ===================================================================== *)
(** * Binary64 comparison facts *)
(* ===================================================================== *)

(** The order of [SpecFloat], on which the primitive comparisons are
    specified ([FloatAxioms.ltb_spec] and friends). *)
Module SFOrder.

Lemma SFcompare_refl (x : spec_float) :
  x <> S754_nan -> SFcompare x x = Some Eq.
Proof.
  destruct x as [s|s| |s m e]; simpl; try congruence; intros _.
  - destruct s; reflexivity.
  - rewrite Z.compare_refl.
    change (Pos.compare_cont Eq m m) with (Pos.compare m m).
    rewrite Pos.compare_refl. destruct s; reflexivity.
Qed.

Lemma SFcompare_nan_l (y : spec_float) : SFcompare S754_nan y = None.
Proof. reflexivity. Qed.

Lemma SFcompare_nan_r (x : spec_float) : SFcompare x S754_nan = None.
Proof. destruct x; reflexivity. Qed.

Lemma SFcompare_some_not_nan (x y : spec_float) (c : comparison) :
  SFcompare x y = Some c -> x <> S754_nan /\ y <> S754_nan.
Proof.
  intros H; split; intros ->.
  - rewrite SFcompare_nan_l in H; discriminate.
  - rewrite SFcompare_nan_r in H; discriminate.
Qed.

Lemma SFleb_trans (x y z : spec_float) :
  SFleb x y = true -> SFleb y z = true -> SFleb x z = true.
Proof.
  unfold SFleb.
  destruct x as [sx|sx| |sx mx ex], y as [sy|sy| |sy my ey],
           z as [sz|sz| |sz mz ez]; simpl;
    try discriminate; try reflexivity;
    repeat match goal with s : bool |- _ => destruct s end; simpl;
    try discriminate; try reflexivity.
  all: by_cases_on_order ex ey ez mx my mz.
Qed.

Lemma SFltb_leb (x y : spec_float) : SFltb x y = true -> SFleb x y = true.
Proof.
  unfold SFltb, SFleb. destruct (SFcompare x y) as [[]|]; congruence.
Qed.

(** Both zeros compare alike against anything. *)
Lemma SFcompare_zero_r (x : spec_float) (s s' : bool) :
  SFcompare x (S754_zero s) = SFcompare x (S754_zero s').
Proof. destruct x; reflexivity. Qed.

Lemma SFeqb_zero_inv (x : spec_float) (s : bool) :
  SFeqb x (S754_zero s) = true -> exists s', x = S754_zero s'.
Proof.
  unfold SFeqb. destruct x as [s'|s'| |s' m e]; simpl; try discriminate.
  - intros _. now exists s'.
  - destruct s'; discriminate.
  - destruct s'; discriminate.
Qed.

End SFOrder.

(** Subtraction and division of numbers (zeros and finite values) never
    produce NaN, as long as the divisor is not a zero: rounding a
    non-negative mantissa gives a zero, a finite value or an infinity. *)
Module SFRounding.

Section Rounding.
Variables prec emax : Z.

Lemma iter_pos_preserves {A : Type} (P : A -> Prop) (f : A -> A) :
  (forall x, P x -> P (f x)) ->
  forall (p : positive) (x : A), P x -> P (SpecFloat.iter_pos f p x).
Proof.
  intros Hf. induction p as [p IH|p IH|]; intros x Hx; simpl; auto.
Qed.

Lemma shr_1_nonneg (mrs : shr_record) :
  (0 <= shr_m mrs)%Z -> (0 <= shr_m (shr_1 mrs))%Z.
Proof.
  destruct mrs as [m r s]. simpl.
  destruct m as [|[p|p|]|[p|p|]]; simpl; lia.
Qed.

Lemma shr_fexp_nonneg (m e : Z) (l : location) :
  (0 <= m)%Z -> (0 <= shr_m (fst (shr_fexp prec emax m e l)))%Z.
Proof.
  intros Hm. unfold shr_fexp, shr.
  assert (shr_m (shr_record_of_loc m l) = m) as E.
  { destruct l as [|[]]; reflexivity. }
  destruct (_ - e)%Z as [|p|p]; simpl; try (rewrite E; exact Hm).
  apply (iter_pos_preserves (fun r => (0 <= shr_m r)%Z)).
  - exact shr_1_nonneg.
  - now rewrite E.
Qed.

Lemma round_nearest_even_nonneg (m : Z) (l : location) :
  (0 <= m)%Z -> (0 <= round_nearest_even m l)%Z.
Proof.
  intros Hm. unfold round_nearest_even.
  destruct l as [|[]]; try destruct (Z.even m); lia.
Qed.

Lemma binary_round_aux_not_nan (s : bool) (m e : Z) (l : location) :
  (0 <= m)%Z -> binary_round_aux prec emax s m e l <> S754_nan.
Proof.
  intros Hm. unfold binary_round_aux.
  pose proof (shr_fexp_nonneg m e l Hm) as H1.
  destruct (shr_fexp prec emax m e l) as [mrs' e']. simpl in H1.
  pose proof (shr_fexp_nonneg _ e' loc_Exact
                (round_nearest_even_nonneg _ (loc_of_shr_record mrs') H1))
    as H2.
  destruct (shr_fexp prec emax (round_nearest_even _ _) e' loc_Exact)
    as [mrs'' e'']. simpl in H2.
  destruct (shr_m mrs'') as [|p|p]; try discriminate; try lia.
  destruct (_ <=? _)%Z; discriminate.
Qed.

Lemma binary_normalize_not_nan (m e : Z) (sz : bool) :
  binary_normalize prec emax m e sz <> S754_nan.
Proof.
  unfold binary_normalize, binary_round.
  destruct m as [|p|p]; try discriminate;
    destruct (shl_align _ _ _) as [mz ez];
    apply binary_round_aux_not_nan; lia.
Qed.

Lemma SFsub_not_nan (x y : spec_float) :
  JS.is_number x = true -> JS.is_number y = true ->
  SFsub prec emax x y <> S754_nan.
Proof.
  destruct x as [sx|sx| |sx mx ex], y as [sy|sy| |sy my ey];
    simpl; try discriminate; intros _ _.
  - destruct sx, sy; discriminate.
  - apply binary_normalize_not_nan.
Qed.

Lemma SFdiv_not_nan (x y : spec_float) (s : bool) (m : positive) (e : Z) :
  x <> S754_nan -> y = S754_finite s m e -> SFdiv prec emax x y <> S754_nan.
Proof.
  intros Hx ->. destruct x as [sx|sx| |sx mx ex]; simpl; try discriminate.
  - congruence.
  - destruct (SFdiv_core_binary _ _ _ _ _ _) as [[mz ez] lz] eqn:E.
    apply binary_round_aux_not_nan.
    unfold SFdiv_core_binary in E.
    set (m' := match (ex - e - _)%Z with
               | Z0 => _ | Zpos _ => _ | Zneg _ => _
               end) in E.
    assert (0 <= m')%Z as Hm'.
    { subst m'. destruct (_ - _ - _)%Z; try lia.
      apply Z.shiftl_nonneg. lia. }
    pose proof (Z_div_mod m' (Z.pos m) ltac:(lia)) as D.
    destruct (Z.div_eucl m' (Z.pos m)) as [q r]. inversion E; subst.
    destruct D as [D1 D2]. nia.
Qed.
End Rounding.

End SFRounding.

(** The same facts on primitive floats. *)
Module F64.

Lemma is_nan_spec (x : float) :
  is_nan x = true <-> Prim2SF x = S754_nan.
Proof.
  unfold is_nan. rewrite FloatAxioms.eqb_spec. unfold SFeqb. split.
  - destruct (Prim2SF x) eqn:E; try reflexivity;
      rewrite SFOrder.SFcompare_refl; simpl; congruence.
  - intros ->. reflexivity.
Qed.

Lemma not_nan_spec (x : float) :
  is_nan x = false <-> Prim2SF x <> S754_nan.
Proof.
  rewrite <- is_nan_spec. destruct (is_nan x); split; congruence.
Qed.

Lemma leb_refl (x : float) : is_nan x = false -> (x <=? x)%float = true.
Proof.
  rewrite not_nan_spec, FloatAxioms.leb_spec. intros H. unfold SFleb.
  now rewrite SFOrder.SFcompare_refl.
Qed.

Lemma leb_trans (x y z : float) :
  (x <=? y)%float = true -> (y <=? z)%float = true ->
  (x <=? z)%float = true.
Proof. rewrite !FloatAxioms.leb_spec. apply SFOrder.SFleb_trans. Qed.

Lemma ltb_leb (x y : float) :
  (x <? y)%float = true -> (x <=? y)%float = true.
Proof.
  rewrite FloatAxioms.ltb_spec, FloatAxioms.leb_spec.
  apply SFOrder.SFltb_leb.
Qed.

Lemma leb_not_nan (x y : float) :
  (x <=? y)%float = true -> is_nan x = false /\ is_nan y = false.
Proof.
  rewrite FloatAxioms.leb_spec, !not_nan_spec. unfold SFleb.
  destruct (SFcompare _ _) as [c|] eqn:E; [|discriminate].
  intros _. exact (SFOrder.SFcompare_some_not_nan _ _ _ E).
Qed.

Lemma ltb_nan_r (x y : float) :
  is_nan y = true -> (x <? y)%float = false.
Proof.
  rewrite is_nan_spec, FloatAxioms.ltb_spec. intros ->. unfold SFltb.
  now rewrite SFOrder.SFcompare_nan_r.
Qed.

(** A float that is [=== 0] is one of the two zeros. *)
Lemma eqb_zero_inv (x : float) :
  (x =? 0)%float = true -> x = 0%float \/ x = (-0)%float.
Proof.
  rewrite FloatAxioms.eqb_spec. change (Prim2SF 0) with (S754_zero false).
  intros H. apply SFOrder.SFeqb_zero_inv in H as [s Hs].
  rewrite <- (SF2Prim_Prim2SF x), Hs.
  destruct s; [right|left]; reflexivity.
Qed.

Lemma ltb_neg_zero (x : float) :
  (x <? (-0))%float = (x <? 0)%float.
Proof.
  rewrite !FloatAxioms.ltb_spec. unfold SFltb.
  change (Prim2SF (-0)) with (S754_zero true).
  change (Prim2SF 0) with (S754_zero false).
  now rewrite (SFOrder.SFcompare_zero_r _ true false).
Qed.

(** NaN is absorbing for multiplication. *)
Lemma mul_nan_l (x y : float) : is_nan x = true -> is_nan (x * y) = true.
Proof.
  rewrite !is_nan_spec, FloatAxioms.mul_spec. intros ->. reflexivity.
Qed.

(** Numbers proper: neither NaN nor an infinity. *)
Lemma is_finite_number (x : float) :
  is_finite x = true -> JS.is_number (Prim2SF x) = true.
Proof.
  unfold is_finite, is_infinity. intros H.
  apply negb_true_iff, orb_false_iff in H as [Hn Hi].
  apply not_nan_spec in Hn.
  rewrite FloatAxioms.eqb_spec, FloatAxioms.abs_spec in Hi.
  change (Prim2SF infinity) with (S754_infinity false) in Hi.
  destruct (Prim2SF x) as [s|s| |s m e]; try reflexivity.
  - discriminate.
  - congruence.
Qed.

Lemma nonzero_number_is_finite (x : float) :
  JS.is_number (Prim2SF x) = true -> (x =? 0)%float = false ->
  exists s m e, Prim2SF x = S754_finite s m e.
Proof.
  rewrite FloatAxioms.eqb_spec. change (Prim2SF 0) with (S754_zero false).
  destruct (Prim2SF x) as [s|s| |s m e]; simpl; try discriminate.
  intros _ _. now exists s, m, e.
Qed.

(** The relative gap of two numbers is a number or an infinity, never NaN,
    once the divisor is known not to be a zero. *)
Lemma relative_gap_not_nan (c d : float) :
  is_finite c = true -> is_finite d = true -> (d =? 0)%float = false ->
  is_nan ((c - d) / d) = false.
Proof.
  intros Hc Hd Hz. apply is_finite_number in Hc, Hd.
  destruct (nonzero_number_is_finite d Hd Hz) as (s & m & e & E).
  apply not_nan_spec.
  rewrite FloatAxioms.div_spec, FloatAxioms.sub_spec.
  apply (SFRounding.SFdiv_not_nan _ _ _ _ s m e); [|exact E].
  now apply SFRounding.SFsub_not_nan.
Qed.

End F64.

(* ===================================================================== *)
(** * PositionManager: the trailing-stop ratchet *)
(* ===================================================================== *)

Module PositionManagerProps.
Import PositionManager.

Lemma reachable_shaped (s : t) : reachable s -> shaped s.
Proof.
  induction 1 as [|s e now _ _|s x now _ IH|s p _ IH|s h _ IH|s h _ IH].
  - left; repeat split.
  - right; split; [reflexivity|]. now exists e, e.
  - unfold closePosition.
    destruct (negb _); [exact IH|]. left; repeat split.
  - unfold updateHighestPrice.
    destruct (_ && _) eqn:C; [|exact IH]. simpl.
    destruct IH as [(Hp & _ & _)|(Hp & e & h & He & Hh)].
    + rewrite Hp in C. discriminate.
    + right. simpl. split; [exact Hp|]. now exists e, p.
  - exact IH.
  - exact IH.
Qed.

(** ** The ratchet *)

Lemma openPosition_tracking (e : float) (now : JS.date) (s : t) :
  is_nan e = false -> tracking e (fst (openPosition e now s)).
Proof.
  intros He. repeat split. exists e. split; [reflexivity|].
  now apply F64.leb_refl.
Qed.

(** One update keeps the position and never lowers the peak. *)
Lemma updateHighestPrice_ratchet (e p h : float) (s : t) :
  tracking e s -> highestPrice s = Some h ->
  tracking e (fst (updateHighestPrice p s))
  /\ exists h', highestPrice (fst (updateHighestPrice p s)) = Some h'
                /\ (h <=? h')%float = true.
Proof.
  intros (Hp & He & h0 & Hh0 & Hle) Hh.
  assert (h0 = h) as -> by congruence.
  unfold updateHighestPrice. rewrite Hp, Hh. simpl.
  unfold JS.gt. destruct (h <? p)%float eqn:C; simpl.
  - apply F64.ltb_leb in C. split.
    + repeat split; [exact He|]. exists p. split; [reflexivity|].
      exact (F64.leb_trans _ _ _ Hle C).
    + now exists p.
  - split.
    + repeat split; [exact Hp|exact He|]. now exists h.
    + exists h. split; [exact Hh|].
      apply F64.leb_refl. exact (proj2 (F64.leb_not_nan _ _ Hle)).
Qed.

Lemma updateAll_ratchet (e : float) (prices : list float) :
  forall (s : t) (h : float),
    tracking e s -> highestPrice s = Some h ->
    tracking e (updateAll prices s)
    /\ exists h', highestPrice (updateAll prices s) = Some h'
                  /\ (h <=? h')%float = true.
Proof.
  induction prices as [|p prices IH]; intros s h Ht Hh.
  - split; [exact Ht|]. exists h. split; [exact Hh|].
    destruct Ht as (_ & _ & h0 & Hh0 & Hle).
    assert (h0 = h) as -> by congruence.
    apply F64.leb_refl. exact (proj2 (F64.leb_not_nan _ _ Hle)).
  - destruct (updateHighestPrice_ratchet e p h s Ht Hh)
      as (Ht1 & h1 & Hh1 & Hle1).
    destruct (IH _ h1 Ht1 Hh1) as (Ht2 & h2 & Hh2 & Hle2).
    split; [exact Ht2|]. exists h2. split; [exact Hh2|].
    exact (F64.leb_trans _ _ _ Hle1 Hle2).
Qed.

Lemma updateAll_app (xs ys : list float) (s : t) :
  updateAll (xs ++ ys) s = updateAll ys (updateAll xs s).
Proof. unfold updateAll. apply fold_left_app. Qed.

(** C6.  From [openPosition e] on, whatever prices [updateHighestPrice]
    is given (in any order, repeated or not, numbers or NaN), the position
    stays long with entry price [e]; the peak recorded at any moment
    ([before]) is at least [e], and the peak recorded at any later moment
    ([before ++ after]) is at least the earlier one.  The entry price is a
    number (not NaN), as every price the DEX monitor parses is. *)
Theorem peak_monotone_and_above_entry
    (e : float) (now : JS.date) (s0 : t) (before after : list float) :
  is_nan e = false ->
  let opened := fst (openPosition e now s0) in
  let earlier := updateAll before opened in
  let later := updateAll (before ++ after) opened in
  highestPrice opened = Some e
  /\ currentPosition later = Some "long"%string
  /\ entryPrice later = Some e
  /\ exists peak peak',
       highestPrice earlier = Some peak
       /\ highestPrice later = Some peak'
       /\ (e <=? peak)%float = true
       /\ (peak <=? peak')%float = true
       /\ (e <=? peak')%float = true.
Proof.
  intros He opened earlier later.
  pose proof (openPosition_tracking e now s0 He) as Ht0.
  destruct (updateAll_ratchet e before _ e Ht0 eq_refl)
    as (Ht1 & h1 & Hh1 & Hle1).
  destruct (updateAll_ratchet e after _ h1 Ht1 Hh1)
    as (Ht2 & h2 & Hh2 & Hle2).
  subst later. rewrite updateAll_app. fold opened in Ht1, Hh1, Ht2, Hh2 |- *.
  fold earlier in Ht2, Hh2 |- *.
  split; [reflexivity|].
  destruct Ht2 as (Hp2 & He2 & _).
  split; [exact Hp2|]. split; [exact He2|].
  exists h1, h2. repeat split; try assumption.
  exact (F64.leb_trans _ _ _ Hle1 Hle2).
Qed.

Lemma peak_monotone_and_above_entry_witness :
  let opened := fst (openPosition 50000 0 constructor) in
  let prices := [50500; 51000; 50700; 51000; 49000]%float in
  highestPrice (updateAll [50500; 51000]%float opened) = Some 51000%float
  /\ highestPrice (updateAll prices opened) = Some 51000%float
  /\ exists peak peak',
       highestPrice (updateAll [50500; 51000]%float opened) = Some peak
       /\ highestPrice (updateAll prices opened) = Some peak'
       /\ (50000 <=? peak)%float = true
       /\ (peak <=? peak')%float = true
       /\ (50000 <=? peak')%float = true.
Proof.
  split; [reflexivity|]. split; [reflexivity|].
  exact (proj2 (proj2 (proj2
    (peak_monotone_and_above_entry 50000 0 constructor
       [50500; 51000]%float [50700; 51000; 49000]%float eq_refl)))).
Defined.

(** ** The stop-loss predicate *)

(** A falsy peak ([0], [-0] or NaN) puts the stop at a zero or at NaN, and
    no price that is not negative lies below that. *)
Lemma falsy_peak_never_below (cur h : float) :
  (cur <? 0)%float = false -> JS.truthy_num h = false ->
  (cur <? h * (1 - config.trading.trailingStopLoss))%float = false.
Proof.
  intros Hcur Hh. unfold JS.truthy_num in Hh.
  destruct (h =? 0)%float eqn:Z0; simpl in Hh.
  - destruct (F64.eqb_zero_inv h Z0) as [-> | ->].
    + exact Hcur.
    + change ((-0) * (1 - config.trading.trailingStopLoss))%float
        with (-0)%float.
      now rewrite F64.ltb_neg_zero.
  - apply negb_false_iff in Hh.
    apply F64.ltb_nan_r, F64.mul_nan_l, Hh.
Qed.

(** C7.  For a current price that is not negative, in any state the
    position manager can be in, [shouldTriggerStopLoss] answers true exactly
    when a long position is open and the price is below
    [peak * (1 - trailingStopLoss)]; it answers false whenever no position is
    open; and with entry 50000, peak 51000, trailing stop 0.005 and current
    price 50700 it answers true, the stop being at exactly 50745. *)
Theorem shouldTriggerStopLoss_spec :
  (forall (s : t) (cur : float),
      reachable s -> (cur <? 0)%float = false ->
      shouldTriggerStopLoss cur s = true
      <-> exists peak,
            currentPosition s = Some "long"%string
            /\ highestPrice s = Some peak
            /\ (cur <? peak * (1 - config.trading.trailingStopLoss))%float
               = true)
  /\ (forall (s : t) (cur : float),
        currentPosition s = None -> shouldTriggerStopLoss cur s = false)
  /\ (forall now : JS.date,
        currentPosition (scenario now) = Some "long"%string
        /\ entryPrice (scenario now) = Some 50000%float
        /\ highestPrice (scenario now) = Some 51000%float
        /\ config.trading.trailingStopLoss = 0.005%float
        /\ (51000 * (1 - 0.005))%float = 50745%float
        /\ shouldTriggerStopLoss 50700 (scenario now) = true).
Proof.
  split; [|split].
  - intros s cur Hs Hcur. unfold shouldTriggerStopLoss, JS.lt.
    destruct (reachable_shaped s Hs) as [(Hp & _ & Hh)|(Hp & e & h & _ & Hh)];
      rewrite Hp, Hh; simpl.
    + split; [discriminate|]. intros (peak & _ & Hpk & _). discriminate.
    + destruct (JS.truthy_num h) eqn:T; simpl.
      * split.
        -- intros H. now exists h.
        -- intros (peak & _ & Hpk & H). now inversion Hpk; subst.
      * split; [discriminate|]. intros (peak & _ & Hpk & H).
        inversion Hpk; subst peak.
        exact (eq_trans (eq_sym (falsy_peak_never_below cur h Hcur T)) H).
  - intros s cur Hp. unfold shouldTriggerStopLoss. now rewrite Hp.
  - intros now. repeat split.
Qed.

Lemma shouldTriggerStopLoss_spec_witness :
  reachable (scenario 0)
  /\ (50700 <? 0)%float = false
  /\ (shouldTriggerStopLoss 50700 (scenario 0) = true
      <-> exists peak,
            currentPosition (scenario 0) = Some "long"%string
            /\ highestPrice (scenario 0) = Some peak
            /\ (50700 <? peak * (1 - config.trading.trailingStopLoss))%float
               = true).
Proof.
  assert (reachable (scenario 0)) as R.
  { exact (reach_update _ 51000%float
             (reach_open _ 50000%float 0 reach_new)). }
  split; [exact R|]. split; [reflexivity|].
  exact (proj1 shouldTriggerStopLoss_spec (scenario 0) 50700%float R eq_refl).
Defined.

(** ** Closing without a position *)

(** C10.  With no position open ([currentPosition] is null),
    [closePosition] leaves the manager exactly as it was and its only effect
    is the warning: no closing or profit message is logged and the
    [onPositionClosed] callback is not called, whatever the exit price and
    whether or not a callback is registered. *)
Theorem closePosition_without_position
    (exitPrice : float) (now : JS.date) (s : t) :
  currentPosition s = None ->
  closePosition exitPrice now s = (s, [LogWarn NoPositionToClose]).
Proof. intros Hp. unfold closePosition. now rewrite Hp. Qed.

Lemma closePosition_without_position_witness :
  currentPosition (registerPositionClosed 7%nat constructor) = None
  /\ closePosition 50700 0 (registerPositionClosed 7%nat constructor)
     = (registerPositionClosed 7%nat constructor,
        [LogWarn NoPositionToClose]).
Proof.
  split; [reflexivity|].
  exact (closePosition_without_position 50700 0
           (registerPositionClosed 7%nat constructor) eq_refl).
Defined.

End PositionManagerProps.

(* ===================================================================== *)
(** * SignalDetector: when a signal is produced *)
(* ===================================================================== *)

Module SignalDetectorProps.
Import SignalDetector.

Lemma buySignal_iff (pos : option string) (sv : services) (now : JS.date)
    (this : t) :
  buySignal pos sv now this = true
  <-> pos = None
      /\ IndicatorCalculator.isRsiOversold (calculator sv) = true
      /\ IndicatorCalculator.isPriceAboveEma
           (BinanceService.currentPrice (binance sv)) (calculator sv) = true
      /\ JS.gt (buyGap sv) config.trading.minProfitThreshold = true.
Proof.
  unfold buySignal, checkBuySignal, BinanceService.getCurrentPrice.
  destruct pos as [p|]; simpl.
  - split; [discriminate|]. intros (H & _). discriminate.
  - destruct (_ && _ && _) eqn:E; simpl.
    + apply andb_true_iff in E as [E E3].
      apply andb_true_iff in E as [E1 E2]. tauto.
    + split; [discriminate|]. intros (_ & H1 & H2 & H3).
      rewrite H1, H2, H3 in E. discriminate.
Qed.

(** What a buy check does besides answering: on a true verdict it records
    the signal and calls the registered callback with it; on a false verdict
    it leaves the detector as it was and calls nothing. *)
Lemma checkBuySignal_effects (pos : option string) (sv : services)
    (now : JS.date) (this : t) :
  let '(verdict, this', events) := checkBuySignal pos sv now this in
  (verdict = true ->
   type (lastSignal this') = Some "buy"%string
   /\ forall h, onBuySignal this = Some h ->
        In (CallBuySignal h (lastSignal this')) events)
  /\ (verdict = false ->
      this' = this /\ forall h s, ~ In (CallBuySignal h s) events).
Proof.
  unfold checkBuySignal. destruct pos as [p|].
  - split; [discriminate|]. intros _. split; [reflexivity|]. intros h s [].
  - destruct (_ && _ && _).
    + split; [|discriminate]. intros _. split; [reflexivity|].
      intros h ->. simpl. auto.
    + split; [discriminate|]. intros _. split; [reflexivity|].
      intros h s [H|[]]. discriminate H.
Qed.

(** What [checkBuySignal] computes.  It answers true exactly when the
    position is flat (null) and three conditions hold together: RSI oversold,
    Binance price above the EMA, and the quotient [(binance - dex) / dex], as
    the check computes it in place, above [minProfitThreshold].  Answering
    true means recording the signal and calling the buy callback; otherwise
    nothing is recorded or called.  Any one condition failing withholds the
    signal, and for each condition there is a market where only that one
    fails; the scenario RSI 25, price 50100 above EMA 50000, gap 0.008, flat
    position gives a buy signal. *)
Theorem buy_signal_is_the_conjunction :
  (forall (pos : option string) (sv : services) (now : JS.date) (this : t),
      let binancePrice := BinanceService.currentPrice (binance sv) in
      let dexPrice := DexPriceMonitor.price (dexMonitor sv) in
      let rsiOversold := IndicatorCalculator.isRsiOversold (calculator sv) in
      let priceAboveEma :=
        IndicatorCalculator.isPriceAboveEma binancePrice (calculator sv) in
      let sufficientGap :=
        JS.gt ((binancePrice - dexPrice) / dexPrice)%float
              config.trading.minProfitThreshold in
      (buySignal pos sv now this = true
       <-> pos = None /\ rsiOversold = true /\ priceAboveEma = true
           /\ sufficientGap = true)
      /\ (buySignal pos sv now this
          = match pos with
            | None => rsiOversold && priceAboveEma && sufficientGap
            | Some _ => false
            end)
      /\ (let '(verdict, this', events) := checkBuySignal pos sv now this in
          (verdict = true ->
           type (lastSignal this') = Some "buy"%string
           /\ forall h, onBuySignal this = Some h ->
                In (CallBuySignal h (lastSignal this')) events)
          /\ (verdict = false ->
              this' = this /\ forall h s, ~ In (CallBuySignal h s) events)))
  /\ (forall (now : JS.date) (this : t),
        (* RSI 45 is not oversold; the other two conditions hold *)
        buySignal None (market 50100 49700 (Some 45%float) (Some 50000%float))
                  now this = false
        (* price 50100 is not above EMA 50200; the other two hold *)
        /\ buySignal None
             (market 50100 49700 (Some 25%float) (Some 50200%float))
             now this = false
        (* gap (50100 - 50000) / 50000 = 0.002 is too small *)
        /\ buySignal None
             (market 50100 50000 (Some 25%float) (Some 50000%float))
             now this = false
        (* all three hold: gap (50100 - 49700) / 49700 is about 0.008 *)
        /\ buySignal None
             (market 50100 49700 (Some 25%float) (Some 50000%float))
             now this = true
        (* and the same market with a long position gives no buy signal *)
        /\ buySignal (Some "long"%string)
             (market 50100 49700 (Some 25%float) (Some 50000%float))
             now this = false).
Proof.
  split.
  - intros pos sv now this. cbv zeta. split; [|split].
    + exact (buySignal_iff pos sv now this).
    + unfold buySignal, checkBuySignal, BinanceService.getCurrentPrice.
      destruct pos; [reflexivity|].
      unfold buyGap, BinanceService.getCurrentPrice,
        DexPriceMonitor.getCurrentPrice.
      now destruct (_ && _ && _).
    + exact (checkBuySignal_effects pos sv now this).
  - intros now this. repeat split.
Qed.

(** Where both prices are not zero the gap of the buy check is the one
    [DexPriceMonitor.calculatePriceDifference] gives. *)
Lemma buyGap_is_calculatePriceDifference (sv : services) :
  JS.is_zero (DexPriceMonitor.price (dexMonitor sv)) = false ->
  JS.is_zero (BinanceService.currentPrice (binance sv)) = false ->
  buyGap sv
  = DexPriceMonitor.calculatePriceDifference
      (BinanceService.currentPrice (binance sv)) (dexMonitor sv).
Proof.
  intros Hd Hb. unfold DexPriceMonitor.calculatePriceDifference.
  now rewrite Hd, Hb.
Qed.

(** The buy check divides without that guard: on a DEX price of 0 (the
    monitor's initial value) the gap is infinite and passes the threshold. *)
Lemma buyGap_not_guarded :
  let sv := market 50100 0 (Some 25%float) (Some 50000%float) in
  buyGap sv = infinity
  /\ DexPriceMonitor.calculatePriceDifference 50100 (dexMonitor sv) = 0%float
  /\ buySignal None sv 0 constructor = true.
Proof. repeat split. Qed.

(** The gap of the specification is the one
    [DexPriceMonitor.calculatePriceDifference] computes, guard included. *)
Lemma priceGapPct_is_calculatePriceDifference (sv : services) :
  priceGapPct sv
  = DexPriceMonitor.calculatePriceDifference
      (BinanceService.currentPrice (binance sv)) (dexMonitor sv).
Proof.
  unfold priceGapPct, DexPriceMonitor.calculatePriceDifference,
    BinanceService.getCurrentPrice, DexPriceMonitor.getCurrentPrice.
  cbv zeta. now rewrite orb_comm.
Qed.

(** Where both prices are not zero, the check is the buy eligibility of the
    specification. *)
Lemma buySignal_is_buyEligible (pos : option string) (sv : services)
    (now : JS.date) (this : t) :
  JS.is_zero (BinanceService.currentPrice (binance sv)) = false ->
  JS.is_zero (DexPriceMonitor.price (dexMonitor sv)) = false ->
  buySignal pos sv now this = buyEligible pos sv.
Proof.
  intros Hb Hd.
  unfold buySignal, checkBuySignal, buyEligible, priceGapPct, buyGap,
    BinanceService.getCurrentPrice, DexPriceMonitor.getCurrentPrice.
  cbv zeta. rewrite Hb, Hd. simpl.
  destruct pos; [reflexivity|]. now destruct (_ && _ && _).
Qed.

(** C1, at the failing input.  Before the first DEX price has arrived the
    DEX monitor holds the 0 of its constructor.  With the position flat,
    RSI 25 and Binance at 50100 above EMA 50000, [priceGapPct] is 0 (as the
    guarded [calculatePriceDifference] of the same monitor computes it) and
    does not exceed [minProfitThreshold], so the three conditions do not hold
    together and no buy signal is due.  [checkBuySignal] divides by the DEX
    price without that guard: its gap is [+Infinity], it answers true,
    records a buy signal and calls the registered buy callback.  Where both
    prices are not zero the check is exactly the conjunction claimed. *)
Theorem buy_signal_on_unset_dex_price :
  DexPriceMonitor.price (dexMonitor dex_unset)
  = DexPriceMonitor.price DexPriceMonitor.constructor
  /\ IndicatorCalculator.isRsiOversold (calculator dex_unset) = true
  /\ IndicatorCalculator.isPriceAboveEma
       (BinanceService.currentPrice (binance dex_unset))
       (calculator dex_unset) = true
  /\ priceGapPct dex_unset = 0%float
  /\ DexPriceMonitor.calculatePriceDifference
       (BinanceService.currentPrice (binance dex_unset))
       (dexMonitor dex_unset) = 0%float
  /\ JS.gt (priceGapPct dex_unset) config.trading.minProfitThreshold = false
  /\ buyEligible None dex_unset = false
  /\ buyGap dex_unset = infinity
  /\ buySignal None dex_unset 0 constructor = true
  /\ (let '(_, this', events) :=
        checkBuySignal None dex_unset 0
          {| lastSignal := lastSignal constructor;
             onBuySignal := Some 0%nat; onSellSignal := None |} in
      type (lastSignal this') = Some "buy"%string
      /\ (priceGap <$> data (lastSignal this')) = Some infinity
      /\ In (CallBuySignal 0%nat (lastSignal this')) events)
  /\ (forall sv : services,
        priceGapPct sv
        = DexPriceMonitor.calculatePriceDifference
            (BinanceService.currentPrice (binance sv)) (dexMonitor sv))
  /\ (forall (pos : option string) (sv : services) (now : JS.date)
            (this : t),
        JS.is_zero (BinanceService.currentPrice (binance sv)) = false ->
        JS.is_zero (DexPriceMonitor.price (dexMonitor sv)) = false ->
        buySignal pos sv now this = buyEligible pos sv).
Proof.
  do 9 (split; [reflexivity|]).
  split; [|split].
  - simpl. repeat split. right. right. now left.
  - exact priceGapPct_is_calculatePriceDifference.
  - exact buySignal_is_buyEligible.
Qed.

Lemma sellSignal_iff (pos : option string) (sv : services) (now : JS.date)
    (this : t) :
  sellSignal pos sv now this = true
  <-> pos = Some "long"%string
      /\ IndicatorCalculator.isRsiOverbought (calculator sv) = true
      /\ IndicatorCalculator.isPriceBelowEma
           (BinanceService.currentPrice (binance sv)) (calculator sv) = true
      /\ JS.gt (sellGap sv) config.trading.minProfitThreshold = true.
Proof.
  unfold sellSignal, checkSellSignal, BinanceService.getCurrentPrice.
  destruct (bool_decide_reflect (pos = Some "long"%string)) as [Hp|Hp]; simpl.
  - destruct (_ && _ && _) eqn:E; simpl.
    + apply andb_true_iff in E as [E E3].
      apply andb_true_iff in E as [E1 E2]. tauto.
    + split; [discriminate|]. intros (_ & H1 & H2 & H3).
      rewrite H1, H2, H3 in E. discriminate.
  - split; [discriminate|]. intros (H & _). contradiction.
Qed.

(** C2, counterexample.  With a long position, RSI overbought, Binance
    price below the EMA and DEX 50301 against Binance 50000, the detector
    produces a sell signal although [-priceGapPct], with
    [priceGapPct = (reference - dex) / dex], is about 0.00598 and does not
    exceed the threshold 0.006: the detector's own gap, taken relative to
    the Binance price, is 0.00602. *)
Lemma sell_gap_is_not_negated_buy_gap :
  let referencePrice := BinanceService.currentPrice (binance dex_leads) in
  let dexPrice := DexPriceMonitor.price (dexMonitor dex_leads) in
  let priceGapPct := ((referencePrice - dexPrice) / dexPrice)%float in
  sellSignal (Some "long"%string) dex_leads 0 constructor = true
  /\ IndicatorCalculator.isRsiOverbought (calculator dex_leads) = true
  /\ IndicatorCalculator.isPriceBelowEma referencePrice
       (calculator dex_leads) = true
  /\ JS.gt (- priceGapPct)%float config.trading.minProfitThreshold = false.
Proof. repeat split. Qed.

(** What a sell check does besides answering. *)
Lemma checkSellSignal_effects (pos : option string) (sv : services)
    (now : JS.date) (this : t) :
  let '(verdict, this', events) := checkSellSignal pos sv now this in
  (verdict = true ->
   type (lastSignal this') = Some "sell"%string
   /\ forall h, onSellSignal this = Some h ->
        In (CallSellSignal h (lastSignal this')) events)
  /\ (verdict = false ->
      this' = this /\ forall h s, ~ In (CallSellSignal h s) events).
Proof.
  unfold checkSellSignal. destruct (negb _).
  - split; [discriminate|]. intros _. split; [reflexivity|]. intros h s [].
  - destruct (_ && _ && _).
    + split; [|discriminate]. intros _. split; [reflexivity|].
      intros h ->. simpl. auto.
    + split; [discriminate|]. intros _. split; [reflexivity|].
      intros h s [H|[]]. discriminate H.
Qed.

(** C2, as the code has it.  A sell signal is produced exactly when the
    position is long, RSI is overbought, the Binance price is below the
    EMA, and the gap recomputed relative to the Binance price,
    [(dex - binance) / binance], is above [minProfitThreshold].  Producing it
    means answering true, recording the signal and calling the sell
    callback; otherwise nothing is recorded or called. *)
Theorem sell_signal_is_the_conjunction
    (pos : option string) (sv : services) (now : JS.date) (this : t) :
  let binancePrice := BinanceService.currentPrice (binance sv) in
  let dexPrice := DexPriceMonitor.price (dexMonitor sv) in
  let rsiOverbought :=
    IndicatorCalculator.isRsiOverbought (calculator sv) in
  let priceBelowEma :=
    IndicatorCalculator.isPriceBelowEma binancePrice (calculator sv) in
  let sufficientGap :=
    JS.gt ((dexPrice - binancePrice) / binancePrice)%float
          config.trading.minProfitThreshold in
  (sellSignal pos sv now this = true
   <-> pos = Some "long"%string /\ rsiOverbought = true
       /\ priceBelowEma = true /\ sufficientGap = true)
  /\ (let '(verdict, this', events) := checkSellSignal pos sv now this in
      (verdict = true ->
       type (lastSignal this') = Some "sell"%string
       /\ forall h, onSellSignal this = Some h ->
            In (CallSellSignal h (lastSignal this')) events)
      /\ (verdict = false ->
          this' = this /\ forall h s, ~ In (CallSellSignal h s) events)).
Proof.
  cbv zeta. split.
  - exact (sellSignal_iff pos sv now this).
  - exact (checkSellSignal_effects pos sv now this).
Qed.

End SignalDetectorProps.

(* ===================================================================== *)
(** * MonitoringService: the price gap and the age of the data *)
(* ===================================================================== *)

Module MonitoringServiceProps.
Import MarketData.

(** The gap that belongs to two prices. *)
Lemma updatePriceDifference_gap (now : JS.date) (md : MarketData.t) :
  let c := Centralized.price (centralized md) in
  let d := Dex.price (dex md) in
  priceDifference (MonitoringService.updatePriceDifference now md)
  = DexPriceMonitor.calculatePriceDifference c {| DexPriceMonitor.price := d |}.
Proof.
  simpl. unfold DexPriceMonitor.calculatePriceDifference. simpl.
  now rewrite orb_comm.
Qed.

(** C5.  [updatePriceDifference] stores exactly [0] whenever the
    centralized price or the DEX price is [0], which is also what an unset
    price is (the constructor's value); in that case nothing is divided.
    Otherwise it stores [(centralized - dex) / dex], and the divisor is then
    not zero.  For prices that are numbers (neither NaN nor infinite) the
    stored gap is never NaN.  The prices themselves are left as they are,
    every feed update recomputes the gap this way, and
    [DexPriceMonitor.calculatePriceDifference] follows the same rule. *)
Theorem price_gap_guarded_against_zero :
  (forall (now : JS.date) (md : MarketData.t),
      let c := Centralized.price (centralized md) in
      let d := Dex.price (dex md) in
      let md' := MonitoringService.updatePriceDifference now md in
      (JS.is_zero c || JS.is_zero d = true -> priceDifference md' = 0%float)
      /\ (JS.is_zero c || JS.is_zero d = false ->
          priceDifference md' = ((c - d) / d)%float /\ JS.is_zero d = false)
      /\ (is_finite c = true -> is_finite d = true ->
          is_nan (priceDifference md') = false)
      /\ centralized md' = centralized md /\ dex md' = dex md)
  /\ (forall (u : MonitoringService.update) (md : MarketData.t),
        let md' := MonitoringService.apply u md in
        let c := Centralized.price (centralized md') in
        let d := Dex.price (dex md') in
        priceDifference md'
        = if JS.is_zero c || JS.is_zero d then 0%float
          else ((c - d) / d)%float)
  /\ (forall (binancePrice : float) (m : DexPriceMonitor.t),
        let d := DexPriceMonitor.price m in
        let gap := DexPriceMonitor.calculatePriceDifference binancePrice m in
        (JS.is_zero binancePrice || JS.is_zero d = true -> gap = 0%float)
        /\ (JS.is_zero binancePrice || JS.is_zero d = false ->
            gap = ((binancePrice - d) / d)%float /\ JS.is_zero d = false)
        /\ (is_finite binancePrice = true -> is_finite d = true ->
            is_nan gap = false))
  /\ Centralized.price (centralized MonitoringService.constructor) = 0%float
  /\ Dex.price (dex MonitoringService.constructor) = 0%float
  /\ priceDifference MonitoringService.constructor = 0%float
  /\ JS.is_zero (-0)%float = true.
Proof.
  split; [|split; [|split]].
  - intros now md c d md'. subst md'. simpl. fold c d.
    split; [|split; [|split; [|split]]]; try reflexivity.
    + now intros ->.
    + intros H. rewrite H. split; [reflexivity|].
      now apply orb_false_iff in H.
    + intros Hc Hd. destruct (JS.is_zero c || JS.is_zero d) eqn:G.
      * reflexivity.
      * apply orb_false_iff in G as [_ G].
        now apply F64.relative_gap_not_nan.
  - intros u md. destruct u; reflexivity.
  - intros b m d gap. subst gap d.
    unfold DexPriceMonitor.calculatePriceDifference.
    rewrite (orb_comm (JS.is_zero (DexPriceMonitor.price m))).
    split; [|split].
    + now intros ->.
    + intros H. rewrite H. split; [reflexivity|].
      now apply orb_false_iff in H.
    + intros Hc Hd.
      destruct (JS.is_zero b || JS.is_zero (DexPriceMonitor.price m)) eqn:G.
      * reflexivity.
      * apply orb_false_iff in G as [_ G].
        now apply F64.relative_gap_not_nan.
  - repeat split.
Qed.

(** The alternate check of the monitoring service asks for the gap and
    either indicator, with the price below the EMA: here RSI 45 is not
    oversold, and the reference price 50100 is below, not above, EMA 50200. *)
Lemma opportunity_is_gap_and_either_indicator :
  let taapi := TaapiService.fetched 50100 45 50200 0 in
  let md :=
    MonitoringService.apply (MonitoringService.DexPrice 49700 0)
      (MonitoringService.apply (MonitoringService.TaapiData taapi 0)
         MonitoringService.constructor) in
  TaapiService.isRsiOversold taapi = false
  /\ TaapiService.isPriceAboveEma taapi = false
  /\ MonitoringService.isPotentialBuyOpportunity taapi md = true.
Proof. repeat split. Qed.

(** C4, counterexample.  Reference data and snapshot last updated at time 0
    are stale one hour later under the default windows, yet
    [isPotentialBuyOpportunity] answers true on them; and the detector,
    evaluated at that later time on prices and indicators that satisfy its
    three conditions, produces a buy signal. *)
Lemma stale_snapshot_still_signals :
  let now := 3600000 in
  TaapiService.lastUpdated Freshness.oldData = Some 0
  /\ timestamp Freshness.oldSnapshot = Some 0
  /\ Freshness.isStale Freshness.referenceWindow Freshness.dexWindow now
       (TaapiService.lastUpdated Freshness.oldData)
       (timestamp Freshness.oldSnapshot) = true
  /\ MonitoringService.isPotentialBuyOpportunity Freshness.oldData
       Freshness.oldSnapshot = true
  /\ SignalDetector.buySignal None
       (SignalDetector.market 50100 49700 (Some 25%float) (Some 50000%float))
       now SignalDetector.constructor = true.
Proof. repeat split. Qed.

(** C4, as the code has it.  No check on the signal path looks at the age
    of the data: the answers of [isPotentialBuyOpportunity] and
    [isPotentialSellOpportunity] are the same whatever [lastUpdated] and
    [timestamp] say, and the verdicts of [checkBuySignal] and
    [checkSellSignal] are the same at whatever time they are evaluated.  A
    stale snapshot yields a signal exactly when a fresh one with the same
    prices and indicators does. *)
Theorem signals_ignore_the_age_of_data :
  (forall (taapi : TaapiService.t) (md : MarketData.t)
          (lastUpdated timestamp : option JS.date),
      MonitoringService.isPotentialBuyOpportunity
        (Freshness.retimedData lastUpdated taapi)
        (Freshness.retimedSnapshot timestamp md)
      = MonitoringService.isPotentialBuyOpportunity taapi md
      /\ MonitoringService.isPotentialSellOpportunity
           (Freshness.retimedData lastUpdated taapi)
           (Freshness.retimedSnapshot timestamp md)
         = MonitoringService.isPotentialSellOpportunity taapi md)
  /\ (forall (pos : option string) (sv : SignalDetector.services)
            (now now' : JS.date) (this this' : SignalDetector.t),
        SignalDetector.buySignal pos sv now this
        = SignalDetector.buySignal pos sv now' this'
        /\ SignalDetector.sellSignal pos sv now this
           = SignalDetector.sellSignal pos sv now' this').
Proof.
  split.
  - intros taapi md lu ts. split; reflexivity.
  - intros pos sv now now' this this'.
    unfold SignalDetector.buySignal, SignalDetector.sellSignal,
      SignalDetector.checkBuySignal, SignalDetector.checkSellSignal.
    split.
    + destruct pos; [reflexivity|]. now destruct (_ && _ && _).
    + destruct (negb _); [reflexivity|]. now destruct (_ && _ && _).
Qed.

End MonitoringServiceProps.

(* ===================================================================== *)
(** * SlippageController: the minimum acceptable output *)
(* ===================================================================== *)

Module SlippageControllerProps.
Import SlippageController.

(** [Math.floor((1 - 0.002) * 10000)] is exactly 9980 in binary64. *)
Lemma tolerance_factor :
  BigNumber.from_floor ((1 - config.trading.maxSlippage) * 10000)%float
  = Some 9980%Z.
Proof. reflexivity. Qed.

Lemma adjusted_eq (amount : BigNumber.t) (tradeType : string) (this : t) :
  adjusted amount tradeType this = Some (Z.quot (amount * 9980) 10000).
Proof.
  unfold adjusted, applySlippage. now rewrite tolerance_factor.
Qed.

Lemma floor_of_tolerance (amount : Z) :
  Qfloor (inject_Z amount * (1 - 0.002))%Q = (amount * 998 / 1000)%Z.
Proof. reflexivity. Qed.

Lemma quot_of_tolerance (amount : Z) :
  (0 < amount)%Z -> Z.quot (amount * 9980) 10000 = (amount * 998 / 1000)%Z.
Proof.
  intros H. rewrite Z.quot_div_nonneg by lia.
  replace (amount * 9980)%Z with (amount * 998 * 10)%Z by lia.
  change 10000%Z with (1000 * 10)%Z.
  now rewrite Z.div_mul_cancel_r by lia.
Qed.

(** One hundred tokens of [S decimals] decimals, in base units. *)
Lemma hundred_tokens (decimals : nat) :
  let unit := (10 ^ Z.of_nat (S decimals))%Z in
  Z.quot (100 * unit * 9980) 10000 = (998 * 10 ^ Z.of_nat decimals)%Z
  /\ (inject_Z (998 * 10 ^ Z.of_nat decimals) / inject_Z unit == 99.8)%Q.
Proof.
  cbv zeta. rewrite Nat2Z.inj_succ, Z.pow_succ_r by lia.
  set (u := (10 ^ Z.of_nat decimals)%Z).
  assert (0 < u)%Z as Hu by (apply Z.pow_pos_nonneg; lia).
  split.
  - replace (100 * (10 * u) * 9980)%Z with (998 * u * 10000)%Z by lia.
    now rewrite Z.quot_mul by lia.
  - destruct u as [|p|p]; try lia.
    unfold Qeq, Qdiv, Qmult, Qinv, inject_Z. simpl. lia.
Qed.

(** C8.  For every positive amount and either trade side, [applySlippage]
    returns the amount times [1 - maxSlippage] (0.998), rounded down to a
    whole number of base units, and the same for "buy" as for "sell".
    Amounts are counted in a token's base units, so an expected output of 100
    tokens gives 99.8 tokens whatever the number of decimals (8 for WBTC, 18
    for BUSD). *)
Theorem min_acceptable_output
    (amount : BigNumber.t) (tradeType : string) (this : t) :
  (0 < amount)%Z ->
  config.trading.maxSlippage = 0.002%float
  /\ adjusted amount tradeType this
     = Some (Qfloor (inject_Z amount * (1 - 0.002))%Q)
  /\ adjusted amount "buy" this = adjusted amount "sell" this
  /\ forall decimals : nat,
       let unit := (10 ^ Z.of_nat (S decimals))%Z in
       exists out : BigNumber.t,
         adjusted (100 * unit) tradeType this = Some out
         /\ (inject_Z out / inject_Z unit == 99.8)%Q.
Proof.
  intros Hpos. split; [reflexivity|]. split; [|split].
  - rewrite adjusted_eq, floor_of_tolerance. f_equal.
    now apply quot_of_tolerance.
  - now rewrite !adjusted_eq.
  - intros decimals unit.
    destruct (hundred_tokens decimals) as [E Q].
    exists (998 * 10 ^ Z.of_nat decimals)%Z. split; [|exact Q].
    rewrite adjusted_eq. f_equal. exact E.
Qed.

Lemma min_acceptable_output_witness :
  (0 < 100 * 10 ^ 18)%Z
  /\ adjusted (100 * 10 ^ 18) "sell" constructor
     = Some (Qfloor (inject_Z (100 * 10 ^ 18) * (1 - 0.002))%Q)
  /\ adjusted (100 * 10 ^ 18) "sell" constructor = Some (998 * 10 ^ 17)%Z
  /\ adjusted (100 * 10 ^ 8) "buy" constructor = Some 9980000000%Z.
Proof.
  split; [reflexivity|]. split; [|split; reflexivity].
  exact (proj1 (proj2
    (min_acceptable_output (100 * 10 ^ 18) "sell" constructor eq_refl))).
Defined.

(** On a bare hundred base units the rounding shows: the result is 99. *)
Lemma hundred_base_units :
  adjusted 100 "buy" constructor = Some 99%Z
  /\ Qfloor (inject_Z 100 * (1 - 0.002))%Q = 99%Z.
Proof. split; reflexivity. Qed.

End SlippageControllerProps.

(* ===================================================================== *)
(** * TradeExecutor: calls in progress *)
(* ===================================================================== *)

Module TradeExecutorProps.
Import TradeExecutor.

(** C3, counterexample.  A second [executeBuy] made while the first is in
    progress is not rejected: two calls are then in progress, both are
    resumed past their quote and both hand a swap to the router, and no call
    has ended, let alone with a busy error. *)
Lemma two_submissions_in_progress :
  inProgress <$> run [Call ExecuteBuy] boot = Some 1%nat
  /\ inProgress <$> run [Call ExecuteBuy; Call ExecuteBuy] boot = Some 2%nat
  /\ inProgress <$> run overlapping boot = Some 2%nat
  /\ (fun rt => active rt !! 0%nat) <$> run overlapping boot
     = Some (Some (AwaitingSwap ExecuteBuy 1000 5000 4990))
  /\ (fun rt => active rt !! 1%nat) <$> run overlapping boot
     = Some (Some (AwaitingSwap ExecuteBuy 1000 5000 4990))
  /\ finished <$> run overlapping boot = Some []
  /\ swapsSubmitted <$> run overlapping boot
     = Some [SubmitSwap ExecuteBuy 1000 4990 300;
             SubmitSwap ExecuteBuy 1000 4990 300].
Proof. repeat split; vm_compute; reflexivity. Qed.

(** A call ends with an exception only when a promise it awaited failed. *)
Lemma resume_threw (a : activation) (r : settlement) (now : JS.date)
    (sl : SlippageController.t) (this this' : t) (message : string)
    (evs : list event) :
  resume a r now sl this = Some (this', inr (Threw message), evs) ->
  r = Failure message.
Proof.
  destruct a as [m|m ai dl|m ai eo mo|m ai eo hash],
           r as [v|q|h|b|msg]; simpl; unfold failed; intros H;
    try discriminate H; try (injection H as _ <- _; reflexivity).
  destruct (BigNumber.lte _ _); discriminate.
Qed.

(** C3, as the code has it.  [executeBuy] and [executeSell] consult
    nothing before they start: a call made while others are in progress gets
    an activation of its own, waiting for its trade amount; the calls in
    progress become one more and the others stay as they are; no call is
    ended by it; and the only exceptions a call ever ends with are the
    failures of the promises it awaited. *)
Theorem submissions_are_not_serialized :
  (forall (m : method) (rt : runtime),
      let id := fresh (dom (active rt)) in
      active rt !! id = None
      /\ active (call m rt) !! id = Some (AwaitingAmount m)
      /\ inProgress (call m rt) = S (inProgress rt)
      /\ finished (call m rt) = finished rt
      /\ executor (call m rt) = executor rt
      /\ forall id' : nat, id' <> id ->
           active (call m rt) !! id' = active rt !! id')
  /\ (forall (id : nat) (r : settlement) (now : JS.date) (rt rt' : runtime)
            (message : string),
        settle id r now rt = Some rt' ->
        finished rt' = finished rt ++ [(id, Threw message)] ->
        r = Failure message).
Proof.
  split.
  - intros m rt id.
    assert (active rt !! id = None) as Hfresh.
    { apply not_elem_of_dom. apply is_fresh. }
    unfold call, inProgress. simpl. fold id.
    split; [exact Hfresh|]. split; [apply lookup_insert_eq|].
    split; [now apply map_size_insert_None|].
    split; [reflexivity|]. split; [reflexivity|].
    intros id' Hne. now apply lookup_insert_ne.
  - intros id r now rt rt' message. unfold settle.
    destruct (active rt !! id) as [a|]; simpl; [|discriminate].
    destruct (resume a r now (slippage rt) (executor rt))
      as [[[this' next] evs]|] eqn:R; simpl; [|discriminate].
    intros [= <-]. simpl. destruct next as [a'|c].
    + intros H. apply (f_equal (@List.length _)) in H.
      rewrite length_app in H. simpl in H. lia.
    + intros H. apply app_inv_head in H. injection H as ->.
      exact (resume_threw _ _ _ _ _ _ _ _ R).
Qed.

End TradeExecutorProps.

(* ===================================================================== *)
(** * getCurrentData: what the copy shares *)
(* ===================================================================== *)

Module StoreProps.
Import Store.

(** The objects the constructor builds hold the initial market data. *)
Lemma constructor_loads :
  let '(this, h) := constructor ∅ in
  load (marketData this) h = Some MonitoringService.constructor.
Proof. reflexivity. Qed.

(** Reading a market-data object touches four objects, all in the store. *)
Lemma load_inv (r : ref) (h : heap) (md : MarketData.t) :
  load r h = Some md ->
  exists c d i,
    h !! r = Some (MarketDataObj c d (MarketData.priceDifference md)
                     (MarketData.timestamp md))
    /\ h !! c = Some (CentralizedObj
                        (Centralized.price (MarketData.centralized md)) i)
    /\ h !! d = Some (DexObj (Dex.price (MarketData.dex md)))
    /\ h !! i = Some (IndicatorsObj
                        (Indicators.rsi (Centralized.indicators
                                           (MarketData.centralized md)))
                        (Indicators.ema (Centralized.indicators
                                           (MarketData.centralized md)))).
Proof.
  unfold load.
  destruct (h !! r) as [[| | |c d pd ts]|] eqn:Hr; try discriminate.
  destruct (h !! c) as [[|cp i| |]|] eqn:Hc; try discriminate.
  destruct (h !! d) as [[| |dp|]|] eqn:Hd; try discriminate.
  destruct (h !! i) as [[rsi ema| | |]|] eqn:Hi; try discriminate.
  intros [= <-]. exists c, d, i. simpl. auto.
Qed.

Lemma load_intro (r c d i : ref) (h : heap) (md : MarketData.t) :
  h !! r = Some (MarketDataObj c d (MarketData.priceDifference md)
                   (MarketData.timestamp md)) ->
  h !! c = Some (CentralizedObj
                   (Centralized.price (MarketData.centralized md)) i) ->
  h !! d = Some (DexObj (Dex.price (MarketData.dex md))) ->
  h !! i = Some (IndicatorsObj
                   (Indicators.rsi (Centralized.indicators
                                      (MarketData.centralized md)))
                   (Indicators.ema (Centralized.indicators
                                      (MarketData.centralized md)))) ->
  load r h = Some md.
Proof.
  intros Hr Hc Hd Hi. unfold load. rewrite Hr, Hc, Hd, Hi.
  destruct md as [[cp [rsi ema]] [dp] pd ts]. reflexivity.
Qed.

(** Writing at a reference that holds no object yet, or a market-data
    object other than the one read, changes nothing of what is read. *)
Lemma load_insert_other (r k : ref) (o : object) (h : heap)
    (md : MarketData.t) :
  load r h = Some md ->
  (h !! k = None
   \/ exists c d pd ts, h !! k = Some (MarketDataObj c d pd ts)) ->
  k <> r ->
  load r (<[k := o]> h) = Some md.
Proof.
  intros L Hk Hne.
  destruct (load_inv r h md L) as (c & d & i & Hr & Hc & Hd & Hi).
  apply (load_intro r c d i); rewrite lookup_insert_ne; auto;
    intros ->; destruct Hk as [Hk|(c' & d' & pd' & ts' & Hk)]; congruence.
Qed.

Lemma alloc_spec (o : object) (h h' : heap) (r : ref) :
  alloc o h = (r, h') -> h !! r = None /\ h' = <[r := o]> h.
Proof.
  unfold alloc. intros [= <- <-]. split; [|reflexivity].
  apply not_elem_of_dom, is_fresh.
Qed.

(** The copy reads the same as the original, and making it changes nothing
    of what the service holds. *)
Lemma getCurrentData_copies (this : service) (h h1 : heap) (snapshot : ref)
    (md : MarketData.t) :
  load (marketData this) h = Some md ->
  getCurrentData this h = Some (snapshot, h1) ->
  snapshot <> marketData this
  /\ (exists c d pd ts, h1 !! snapshot = Some (MarketDataObj c d pd ts))
  /\ load snapshot h1 = Some md
  /\ load (marketData this) h1 = Some md.
Proof.
  intros L G.
  destruct (load_inv _ h md L) as (c & d & i & Hr & Hc & Hd & Hi).
  unfold getCurrentData in G. rewrite Hr in G. apply (inj Some) in G.
  apply alloc_spec in G as [Hfresh ->].
  assert (snapshot <> marketData this) as Hne by congruence.
  split; [exact Hne|]. split; [|split].
  - rewrite lookup_insert_eq. eauto.
  - apply (load_intro snapshot c d i).
    + apply lookup_insert_eq.
    + rewrite lookup_insert_ne; congruence.
    + rewrite lookup_insert_ne; congruence.
    + rewrite lookup_insert_ne; congruence.
  - apply load_insert_other; auto.
Qed.

(** An assignment to a field of the snapshot itself stays in the copy. *)
Lemma top_level_assignment_stays_outside (this : service) (h h1 h2 : heap)
    (snapshot : ref) (m : mutation) (md : MarketData.t) :
  load (marketData this) h = Some md ->
  getCurrentData this h = Some (snapshot, h1) ->
  topLevel m = true ->
  mutate m snapshot h1 = Some h2 ->
  load (marketData this) h2 = Some md.
Proof.
  intros L G T M.
  destruct (getCurrentData_copies this h h1 snapshot md L G)
    as (Hne & (c & d & pd & ts & Hs) & _ & L1).
  unfold mutate in M. rewrite Hs in M.
  destruct m as [v|v|price rsi ema|price| | | | ]; try discriminate T.
  - injection M as <-. apply load_insert_other; eauto 10.
  - injection M as <-. apply load_insert_other; eauto 10.
  - destruct (alloc (IndicatorsObj rsi ema) h1) as [i ha] eqn:A1.
    destruct (alloc (CentralizedObj price i) ha) as [c' hb] eqn:A2.
    apply alloc_spec in A1 as [F1 ->]. apply alloc_spec in A2 as [F2 ->].
    injection M as <-.
    destruct (load_inv _ _ _ L1) as (c0 & d0 & i0 & H1 & _).
    assert (i <> snapshot) as N1 by congruence.
    assert (i <> marketData this) as N2 by congruence.
    assert (c' <> snapshot) as N3.
    { intros ->. rewrite lookup_insert_ne in F2 by congruence. congruence. }
    assert (c' <> marketData this) as N4.
    { intros ->. rewrite lookup_insert_ne in F2 by congruence. congruence. }
    apply load_insert_other; [|right|exact Hne].
    + apply load_insert_other; [|left; exact F2|exact N4].
      apply load_insert_other; [exact L1|left; exact F1|exact N2].
    + exists c, d, pd, ts. now rewrite !lookup_insert_ne by congruence.
  - destruct (alloc (DexObj price) h1) as [d' ha] eqn:A1.
    apply alloc_spec in A1 as [F1 ->]. injection M as <-.
    destruct (load_inv _ _ _ L1) as (c0 & d0 & i0 & H1 & _).
    assert (d' <> snapshot) as N1 by congruence.
    assert (d' <> marketData this) as N2 by congruence.
    apply load_insert_other; [|right|exact Hne].
    + apply load_insert_other; [exact L1|left; exact F1|exact N2].
    + exists c, d, pd, ts. now rewrite lookup_insert_ne by congruence.
Qed.

(** On the objects, the feed handlers compute what [MonitoringService]
    computes on the values read through them. *)
Lemma updatePriceDifference_refines (now : JS.date) (this : service)
    (h : heap) (md : MarketData.t) :
  load (marketData this) h = Some md ->
  exists h',
    updatePriceDifference now this h = Some h'
    /\ load (marketData this) h'
       = Some (MonitoringService.updatePriceDifference now md).
Proof.
  intros L.
  destruct (load_inv _ h md L) as (c & d & i & Hr & Hc & Hd & Hi).
  unfold updatePriceDifference. rewrite Hr, Hc, Hd.
  eexists. split; [reflexivity|].
  apply (load_intro _ c d i); simpl.
  - apply lookup_insert_eq.
  - rewrite lookup_insert_ne; congruence.
  - rewrite lookup_insert_ne; congruence.
  - rewrite lookup_insert_ne; congruence.
Qed.

Lemma onDexPrice_refines (price : float) (now : JS.date) (this : service)
    (h : heap) (md : MarketData.t) :
  load (marketData this) h = Some md ->
  exists h',
    onDexPrice price now this h = Some h'
    /\ load (marketData this) h'
       = Some (MonitoringService.onDexPrice price now md).
Proof.
  intros L.
  destruct (load_inv _ h md L) as (c & d & i & Hr & Hc & Hd & Hi).
  unfold onDexPrice. rewrite Hr, Hd.
  apply updatePriceDifference_refines.
  apply (load_intro _ c d i); simpl.
  - rewrite lookup_insert_ne; congruence.
  - rewrite lookup_insert_ne; congruence.
  - apply lookup_insert_eq.
  - rewrite lookup_insert_ne; congruence.
Qed.

Lemma onTaapiData_refines (data : TaapiService.t) (now : JS.date)
    (this : service) (h : heap) (md : MarketData.t) :
  load (marketData this) h = Some md ->
  exists h',
    onTaapiData data now this h = Some h'
    /\ load (marketData this) h'
       = Some (MonitoringService.onTaapiData data now md).
Proof.
  intros L.
  destruct (load_inv _ h md L) as (c & d & i & Hr & Hc & Hd & Hi).
  unfold onTaapiData. rewrite Hr.
  destruct (alloc (IndicatorsObj _ _) h) as [i' ha] eqn:A1.
  destruct (alloc (CentralizedObj _ i') ha) as [c' hb] eqn:A2.
  apply alloc_spec in A1 as [F1 ->]. apply alloc_spec in A2 as [F2 ->].
  assert (c' <> i') as N0.
  { intros ->. now rewrite lookup_insert_eq in F2. }
  assert (forall k o, h !! k = Some o -> k <> i' /\ k <> c') as Old.
  { intros k o Hk. split; intros ->; [congruence|].
    rewrite lookup_insert_ne in F2; congruence. }
  destruct (Old _ _ Hr) as [R1 R2]. destruct (Old _ _ Hd) as [D1 D2].
  apply updatePriceDifference_refines.
  apply (load_intro _ c' d i'); simpl.
  - apply lookup_insert_eq.
  - rewrite lookup_insert_ne by congruence. apply lookup_insert_eq.
  - rewrite !lookup_insert_ne by congruence. exact Hd.
  - rewrite !lookup_insert_ne by congruence. apply lookup_insert_eq.
Qed.

(** C9, at the failing input.  A consumer that assigns [1] to
    [snapshot.dex.price], or [99] to [snapshot.centralized.indicators.rsi],
    on the value [getCurrentData] gave it changes the service's own market
    data: the copy shares the [dex], [centralized] and [indicators] objects
    with the original. *)
Theorem nested_assignment_reaches_the_service :
  (let '(this, h) := constructor ∅ in
   load (marketData this) h) = Some MonitoringService.constructor
  /\ afterConsumer (SetDexPrice 1)
     = Some
         {| MarketData.centralized :=
              MarketData.centralized MonitoringService.constructor;
            MarketData.dex := {| Dex.price := 1 |};
            MarketData.priceDifference := 0;
            MarketData.timestamp := None |}
  /\ afterConsumer (SetRsi (Some 99%float))
     = Some
         {| MarketData.centralized :=
              {| Centralized.price := 0;
                 Centralized.indicators :=
                   {| Indicators.rsi := Some 99%float;
                      Indicators.ema := None |} |};
            MarketData.dex := {| Dex.price := 0 |};
            MarketData.priceDifference := 0;
            MarketData.timestamp := None |}
  /\ afterConsumer (SetDexPrice 1) <> Some MonitoringService.constructor
  /\ afterConsumer (SetRsi (Some 99%float))
     <> Some MonitoringService.constructor
  /\ afterConsumer (SetPriceDifference 1) = Some MonitoringService.constructor
  /\ afterConsumer (SetDex 1) = Some MonitoringService.constructor.
Proof.
  repeat split; try reflexivity; vm_compute; discriminate.
Qed.

End StoreProps.

(* ===================================================================== *)
(** * More binary64 facts: the order is total on numbers *)
(* ===================================================================== *)

Module SFTotal.

Lemma SFcompare_antisym (x y : spec_float) :
  SFcompare y x = CompOpp <$> SFcompare x y.
Proof.
  destruct x as [sx|sx| |sx mx ex], y as [sy|sy| |sy my ey]; simpl;
    try reflexivity;
    repeat match goal with s : bool |- _ => destruct s end;
    try reflexivity.
  all: change (Pos.compare_cont Eq) with Pos.compare.
  all: rewrite (Z.compare_antisym ex ey), (Pos.compare_antisym mx my).
  all: destruct (ex ?= ey)%Z, (mx ?= my)%positive; reflexivity.
Qed.

Lemma SFcompare_total (x y : spec_float) :
  x <> S754_nan -> y <> S754_nan -> exists c, SFcompare x y = Some c.
Proof.
  destruct x, y; simpl; try congruence; eauto.
Qed.

Lemma SFltb_irrefl (x : spec_float) : SFltb x x = false.
Proof.
  unfold SFltb. destruct x as [s|s| |s m e]; simpl; try reflexivity.
  - now destruct s.
  - rewrite Z.compare_refl.
    change (Pos.compare_cont Eq m m) with (Pos.compare m m).
    rewrite Pos.compare_refl. now destruct s.
Qed.

End SFTotal.

Module F64Total.

Lemma ltb_irrefl (x : float) : (x <? x)%float = false.
Proof. rewrite FloatAxioms.ltb_spec. apply SFTotal.SFltb_irrefl. Qed.

Lemma ltb_asym (x y : float) :
  (x <? y)%float = true -> (y <? x)%float = false.
Proof.
  rewrite !FloatAxioms.ltb_spec. unfold SFltb.
  rewrite (SFTotal.SFcompare_antisym (Prim2SF x) (Prim2SF y)).
  destruct (SFcompare (Prim2SF x) (Prim2SF y)) as [[]|]; simpl; congruence.
Qed.

(** On numbers, not below means at least. *)
Lemma not_ltb_leb (x y : float) :
  is_nan x = false -> is_nan y = false ->
  (x <? y)%float = false -> (y <=? x)%float = true.
Proof.
  rewrite !F64.not_nan_spec, FloatAxioms.ltb_spec, FloatAxioms.leb_spec.
  intros Hx Hy. unfold SFltb, SFleb.
  rewrite (SFTotal.SFcompare_antisym (Prim2SF x) (Prim2SF y)).
  destruct (SFTotal.SFcompare_total _ _ Hx Hy) as [c ->].
  destruct c; simpl; congruence.
Qed.

Lemma ltb_not_nan (x y : float) :
  (x <? y)%float = true -> is_nan x = false /\ is_nan y = false.
Proof. intros H. apply F64.leb_not_nan, F64.ltb_leb, H. Qed.

(** [x < y] and [y <= x] exclude each other. *)
Lemma ltb_leb_false (x y : float) :
  (x <? y)%float = true -> (y <=? x)%float = false.
Proof.
  rewrite FloatAxioms.ltb_spec, FloatAxioms.leb_spec. unfold SFltb, SFleb.
  rewrite (SFTotal.SFcompare_antisym (Prim2SF x) (Prim2SF y)).
  destruct (SFcompare (Prim2SF x) (Prim2SF y)) as [[]|]; simpl; congruence.
Qed.

(** The absolute value of a number is not negative. *)
Lemma abs_nonneg (x : float) :
  is_nan x = false -> (0 <=? abs x)%float = true.
Proof.
  rewrite F64.not_nan_spec, FloatAxioms.leb_spec, FloatAxioms.abs_spec.
  change (Prim2SF 0) with (S754_zero false).
  destruct (Prim2SF x) as [s|s| |s m e]; simpl; try reflexivity.
  congruence.
Qed.

Lemma abs_not_nan (x : float) : is_nan x = false -> is_nan (abs x) = false.
Proof.
  rewrite !F64.not_nan_spec, FloatAxioms.abs_spec.
  destruct (Prim2SF x); simpl; congruence.
Qed.

(** Multiplying a number by a finite non-zero constant gives no NaN. *)
Lemma mul_finite_not_nan (x k : float) (s : bool) (m : positive) (e : Z) :
  Prim2SF k = S754_finite s m e ->
  is_nan x = false -> is_nan (x * k) = false.
Proof.
  intros Hk. rewrite !F64.not_nan_spec, FloatAxioms.mul_spec, Hk.
  destruct (Prim2SF x) as [sx|sx| |sx mx ex]; simpl; try congruence.
  intros _. apply SFRounding.binary_round_aux_not_nan. lia.
Qed.

(** A positive number less zero, divided by zero, is [+Infinity]. *)
Lemma positive_over_zero (b : float) :
  (0 <? b)%float = true -> ((b - 0) / 0)%float = infinity.
Proof.
  intros H. rewrite <- (SF2Prim_Prim2SF ((b - 0) / 0)).
  rewrite FloatAxioms.div_spec, FloatAxioms.sub_spec.
  rewrite FloatAxioms.ltb_spec in H. revert H.
  change (Prim2SF 0) with (S754_zero false). unfold SFltb.
  destruct (Prim2SF b) as [s|s| |s m e]; simpl; try discriminate.
  - destruct s; [discriminate|reflexivity].
  - destruct s; [discriminate|reflexivity].
Qed.

End F64Total.

(* ===================================================================== *)
(** * PositionManager: the life of a position *)
(* ===================================================================== *)

Module PositionLifecycle.
Import PositionManager.

Lemma updateHighestPrice_keeps (p : float) (s : t) :
  let s' := fst (updateHighestPrice p s) in
  currentPosition s' = currentPosition s
  /\ entryPrice s' = entryPrice s
  /\ callbacks s' = callbacks s.
Proof.
  unfold updateHighestPrice. destruct (_ && _); simpl; auto.
Qed.

Lemma updateAll_keeps (prices : list float) :
  forall s : t,
    currentPosition (updateAll prices s) = currentPosition s
    /\ entryPrice (updateAll prices s) = entryPrice s
    /\ callbacks (updateAll prices s) = callbacks s.
Proof.
  induction prices as [|p prices IH]; intros s; [auto|].
  destruct (IH (fst (updateHighestPrice p s))) as (H1 & H2 & H3).
  destruct (updateHighestPrice_keeps p s) as (K1 & K2 & K3).
  unfold updateAll in *. simpl. rewrite H1, H2, H3. auto.
Qed.

(** X1.  Opening a position from a flat manager, feeding it any price
    updates and closing it brings the manager back to exactly the state it
    had before (callbacks included).  The close logs the profit against the
    entry price, [((exit - entry) / entry) * 100], whatever the updates
    were, and calls [onPositionClosed] once with it when registered. *)
Theorem position_round_trip
    (s : t) (e x : float) (opened closed : JS.date) (prices : list float) :
  reachable s -> currentPosition s = None ->
  let profitPercent := (((x - e) / e) * 100)%float in
  closePosition x closed (updateAll prices (fst (openPosition e opened s)))
  = (s,
     LogInfo (ClosedAt "long" x) ::
     LogInfo (TradeCompletedWith profitPercent) ::
     match onPositionClosed (callbacks s) with
     | Some h => [CallPositionClosed h "long" (Some e) x profitPercent closed]
     | None => []
     end).
Proof.
  intros Hs Hp profit.
  set (o := fst (openPosition e opened s)).
  destruct (updateAll_keeps prices o) as (K1 & K2 & K3).
  unfold closePosition. rewrite K1, K2, K3. subst o. simpl.
  destruct (PositionManagerProps.reachable_shaped s Hs) as [(_ & He & Hh)|(Hl & _)];
    [|congruence].
  destruct s as [cp ep hp cb]. simpl in *. subst. reflexivity.
Qed.

Lemma position_round_trip_witness :
  let s := registerPositionClosed 7%nat constructor in
  closePosition 50500 9
    (updateAll [51000; 50200]%float (fst (openPosition 50000 1 s)))
  = (s,
     [LogInfo (ClosedAt "long" 50500);
      LogInfo (TradeCompletedWith 1);
      CallPositionClosed 7%nat "long" (Some 50000%float) 50500 1 9]).
Proof.
  exact (position_round_trip (registerPositionClosed 7%nat constructor)
           50000 50500 1 9 [51000; 50200]%float
           (reach_on_closed _ 7%nat reach_new) eq_refl).
Defined.

(** The peak after a list of updates, from a long position whose peak is a
    number. *)
Lemma updateAll_peak (prices : list float) :
  forall (s : t) (h : float),
    currentPosition s = Some "long"%string ->
    highestPrice s = Some h -> is_nan h = false ->
    exists peak,
      highestPrice (updateAll prices s) = Some peak
      /\ In peak (h :: prices)
      /\ is_nan peak = false
      /\ (h <=? peak)%float = true
      /\ forall p, In p prices -> is_nan p = false ->
           (p <=? peak)%float = true.
Proof.
  induction prices as [|p prices IH]; intros s h Hp Hh Hn.
  - exists h. simpl. repeat split; auto using F64.leb_refl.
  - destruct (updateHighestPrice_keeps p s) as (K1 & _ & _).
    assert (exists h1,
               highestPrice (fst (updateHighestPrice p s)) = Some h1
               /\ (h1 = h \/ h1 = p) /\ is_nan h1 = false
               /\ (h <=? h1)%float = true
               /\ (is_nan p = false -> (p <=? h1)%float = true))
      as (h1 & H1 & Hin & Hn1 & Hle & Hp1).
    { unfold updateHighestPrice. rewrite Hp, Hh. simpl. unfold JS.gt.
      destruct (h <? p)%float eqn:C; simpl.
      - destruct (F64Total.ltb_not_nan _ _ C) as [_ Np].
        exists p. repeat split; auto using F64.ltb_leb, F64.leb_refl.
      - exists h. repeat split; auto using F64.leb_refl.
        intros Np. now apply F64Total.not_ltb_leb. }
    destruct (IH (fst (updateHighestPrice p s)) h1
                ltac:(now rewrite K1) H1 Hn1)
      as (peak & Hpk & Hmem & Hnp & Hge & Hall).
    exists peak. split; [exact Hpk|]. split; [|split; [exact Hnp|split]].
    + destruct Hmem as [<-|Hmem].
      * destruct Hin as [->| ->]; simpl; auto.
      * simpl. auto.
    + exact (F64.leb_trans _ _ _ Hle Hge).
    + intros q [<-|Hq] Nq.
      * exact (F64.leb_trans _ _ _ (Hp1 Nq) Hge).
      * exact (Hall q Hq Nq).
Qed.

(** X2.  The peak of a position is the highest price seen: after any list
    of updates it is the entry price or one of the updates, and no update
    that is a number lies above it. *)
Theorem peak_is_the_highest_seen
    (e : float) (now : JS.date) (s0 : t) (prices : list float) :
  is_nan e = false ->
  exists peak,
    highestPrice (updateAll prices (fst (openPosition e now s0))) = Some peak
    /\ In peak (e :: prices)
    /\ forall p, In p prices -> is_nan p = false ->
         (p <=? peak)%float = true.
Proof.
  intros He.
  destruct (updateAll_peak prices (fst (openPosition e now s0)) e
              eq_refl eq_refl He) as (peak & H1 & H2 & _ & _ & H3).
  now exists peak.
Qed.

Lemma peak_is_the_highest_seen_witness :
  exists peak,
    highestPrice
      (updateAll [50500; 51000; 50700]%float
         (fst (openPosition 50000 0 constructor))) = Some peak
    /\ In peak [50000; 50500; 51000; 50700]%float
    /\ forall p, In p [50500; 51000; 50700]%float -> is_nan p = false ->
         (p <=? peak)%float = true.
Proof.
  exact (peak_is_the_highest_seen 50000 0 constructor
           [50500; 51000; 50700]%float eq_refl).
Defined.

Lemma updateHighestPrice_twice (p : float) (s : t) :
  updateHighestPrice p (fst (updateHighestPrice p s))
  = (fst (updateHighestPrice p s), []).
Proof.
  unfold updateHighestPrice.
  destruct (JS.truthy JS.truthy_str (currentPosition s)) eqn:T; simpl.
  - unfold JS.gt.
    destruct (JS.to_number (highestPrice s) <? p)%float eqn:C; simpl.
    + now rewrite T, F64Total.ltb_irrefl.
    + now rewrite T, C.
  - now rewrite T.
Qed.

(** X3.  Repeating a price update changes nothing and logs nothing; a NaN
    price is always ignored; and without a position every update is
    ignored. *)
Theorem repeated_update_is_ignored :
  (forall (p : float) (s : t),
      let s1 := fst (updateHighestPrice p s) in
      updateHighestPrice p s1 = (s1, []))
  /\ (forall (p : float) (s : t),
        is_nan p = true -> updateHighestPrice p s = (s, []))
  /\ (forall (p : float) (s : t),
        currentPosition s = None -> updateHighestPrice p s = (s, [])).
Proof.
  split; [|split].
  - exact updateHighestPrice_twice.
  - intros p s Hn. unfold updateHighestPrice, JS.gt.
    now rewrite (F64.ltb_nan_r _ p Hn), andb_false_r.
  - intros p s Hp. unfold updateHighestPrice. now rewrite Hp.
Qed.

End PositionLifecycle.

(* ===================================================================== *)
(** * StopLossManager: what a tick does *)
(* ===================================================================== *)

Module StopLossManagerProps.
Import StopLossManager.

(** X4.  A stop-loss check never closes the position: position type,
    entry price and callbacks of the position manager are the same after
    the check as before, whether or not it decides to sell.  With no position
    it does nothing at all.  When it decides to sell, the price it acts on is
    the DEX monitor's current price, the stop-loss predicate holds for it
    after the peak update, and the peak it will report to
    [onStopLossTriggered] is the one from before that update. *)
Theorem check_never_closes_the_position
    (dex : DexPriceMonitor.t) (pm : PositionManager.t) :
  let '(pm', pending, events) := checkStopLoss dex pm in
  PositionManager.currentPosition pm' = PositionManager.currentPosition pm
  /\ PositionManager.entryPrice pm' = PositionManager.entryPrice pm
  /\ PositionManager.callbacks pm' = PositionManager.callbacks pm
  /\ pm' = fst (PositionManager.updateHighestPrice
                  (DexPriceMonitor.price dex) pm)
  /\ (PositionManager.currentPosition pm = None ->
      pm' = pm /\ pending = Finished /\ events = [])
  /\ (forall price peak, pending = AwaitingSell price peak ->
        price = DexPriceMonitor.price dex
        /\ peak = PositionManager.highestPrice pm
        /\ PositionManager.shouldTriggerStopLoss price pm' = true
        /\ In ExecuteSell events)
  /\ (pending = Finished -> ~ In ExecuteSell events).
Proof.
  unfold checkStopLoss, DexPriceMonitor.getCurrentPrice. simpl.
  destruct (PositionLifecycle.updateHighestPrice_keeps
              (DexPriceMonitor.price dex) pm) as (K1 & K2 & K3).
  destruct (JS.truthy JS.truthy_str (PositionManager.currentPosition pm))
    eqn:T; simpl.
  - assert (PositionManager.currentPosition pm <> None) as Open.
    { intros Hp. rewrite Hp in T. discriminate. }
    destruct (PositionManager.updateHighestPrice
                (DexPriceMonitor.price dex) pm) as [pm' evs] eqn:U.
    simpl in K1, K2, K3.
    destruct (PositionManager.shouldTriggerStopLoss _ pm') eqn:S;
      refine (conj K1 (conj K2 (conj K3 (conj eq_refl
                (conj _ (conj _ _)))))).
    + intros Hp. contradiction.
    + intros price peak [= <- <-]. repeat split; auto.
      apply in_or_app. right. simpl. auto.
    + discriminate.
    + intros Hp. contradiction.
    + discriminate.
    + intros _ Hin. apply in_map_iff in Hin as (e & He & _).
      discriminate He.
  - assert (fst (PositionManager.updateHighestPrice
                   (DexPriceMonitor.price dex) pm) = pm) as E.
    { unfold PositionManager.updateHighestPrice. now rewrite T. }
    refine (conj eq_refl (conj eq_refl (conj eq_refl (conj (eq_sym E)
              (conj _ (conj _ _)))))).
    + auto.
    + discriminate.
    + intros _ [].
Qed.

(** X5.  Because the position stays open, a check that decided to sell
    decides so again on the next tick at the same DEX price: the stop-loss
    keeps firing until something else closes the position. *)
Theorem stop_loss_fires_again
    (dex : DexPriceMonitor.t) (pm pm' : PositionManager.t)
    (price : float) (peak : option float) (events : list event) :
  checkStopLoss dex pm = (pm', AwaitingSell price peak, events) ->
  checkStopLoss dex pm'
  = (pm', AwaitingSell price (PositionManager.highestPrice pm'),
     [LogWarn; ExecuteSell]).
Proof.
  unfold checkStopLoss, DexPriceMonitor.getCurrentPrice. simpl.
  destruct (JS.truthy JS.truthy_str (PositionManager.currentPosition pm))
    eqn:T; simpl; [|discriminate].
  destruct (PositionLifecycle.updateHighestPrice_keeps
              (DexPriceMonitor.price dex) pm) as (K1 & _ & _).
  pose proof (PositionLifecycle.updateHighestPrice_twice
                (DexPriceMonitor.price dex) pm) as R.
  destruct (PositionManager.updateHighestPrice
              (DexPriceMonitor.price dex) pm) as [pm1 evs] eqn:U.
  simpl in K1, R.
  destruct (PositionManager.shouldTriggerStopLoss _ pm1) eqn:S;
    [|discriminate].
  intros [= <- <- _ _]. rewrite K1, T. simpl. rewrite R, S. reflexivity.
Qed.

Lemma stop_loss_fires_again_witness :
  let dex := {| DexPriceMonitor.price := 50700 |} in
  let pm := PositionManager.scenario 0 in
  checkStopLoss dex pm
  = (pm, AwaitingSell 50700 (Some 51000%float), [LogWarn; ExecuteSell])
  /\ checkStopLoss dex pm
     = (pm, AwaitingSell 50700 (PositionManager.highestPrice pm),
        [LogWarn; ExecuteSell]).
Proof.
  split; [reflexivity|].
  exact (stop_loss_fires_again {| DexPriceMonitor.price := 50700 |}
           (PositionManager.scenario 0) (PositionManager.scenario 0)
           50700 (Some 51000%float) [LogWarn; ExecuteSell] eq_refl).
Defined.

End StopLossManagerProps.

(* ===================================================================== *)
(** * CapitalAllocator: how much a trade spends *)
(* ===================================================================== *)

Module CapitalAllocatorProps.
Import CapitalAllocator.

(** [maxCapitalPerTrade * 100] is exactly 10 in binary64, so
    [BigNumber.from] accepts it. *)
Lemma percent_of_capital :
  BigNumber.from (config.wallet.maxCapitalPerTrade * 100)%float = Some 10.
Proof. reflexivity. Qed.

Lemma tradeAmount_eq (tradeType : string) (wallet : balances) (this : t) :
  tradeAmount tradeType wallet this
  = Some (Z.quot
            ((if bool_decide (tradeType = "buy"%string)
              then busd wallet else wbtc wallet) * 10) 100).
Proof.
  unfold tradeAmount, getTradeAmount.
  destruct (bool_decide _); reflexivity.
Qed.

Lemma quot_tenth (b : Z) : 0 <= b -> Z.quot (b * 10) 100 = b / 10.
Proof.
  intros H. rewrite Z.quot_div_nonneg by lia.
  change 100 with (10 * 10). now rewrite Z.div_mul_cancel_r by lia.
Qed.

(** X6.  [getTradeAmount] allocates a tenth of the balance it reads, rounded
    down to a whole base unit: the BUSD balance for "buy", the WBTC balance
    for any other trade type.  The amount is never negative, never more than
    the balance, and is zero exactly when the balance is below ten base
    units. *)
Theorem trade_amount_is_a_tenth
    (tradeType : string) (wallet : balances) (this : t) :
  let balance :=
    if bool_decide (tradeType = "buy"%string)
    then busd wallet else wbtc wallet in
  0 <= balance ->
  exists amount : BigNumber.t,
    tradeAmount tradeType wallet this = Some amount
    /\ amount = balance / 10
    /\ 0 <= amount <= balance
    /\ 10 * amount <= balance < 10 * amount + 10
    /\ (amount <= 0 <-> balance < 10).
Proof.
  intros balance H. exists (balance / 10).
  split. { rewrite tradeAmount_eq. fold balance. now rewrite quot_tenth. }
  split; [reflexivity|].
  pose proof (Z.div_mod balance 10 ltac:(lia)) as E.
  pose proof (Z.mod_pos_bound balance 10 ltac:(lia)) as B.
  repeat split; lia.
Qed.

Lemma trade_amount_is_a_tenth_witness :
  tradeAmount "buy" {| busd := 12345; wbtc := 7 |} constructor = Some 1234
  /\ tradeAmount "sell" {| busd := 12345; wbtc := 7 |} constructor = Some 0.
Proof.
  split.
  - destruct (trade_amount_is_a_tenth "buy" {| busd := 12345; wbtc := 7 |}
                constructor) as (a & E & -> & _).
    + vm_compute. discriminate.
    + exact E.
  - reflexivity.
Defined.

(** X7.  What a trade spends.  [executeBuy] goes on with a tenth of the BUSD
    balance, and with fewer than ten base units of BUSD it returns [false]
    after a warning, without asking the router for a quote; [executeSell]
    goes on with the entire WBTC balance, and returns [false] only when that
    balance is zero.  The deadline handed on is five minutes after the time
    of the check, in seconds. *)
Theorem buy_spends_a_tenth_and_sell_spends_all
    (wallet : balances) (this : t) (now : JS.date)
    (sl : SlippageController.t) (ex : TradeExecutor.t) :
  0 <= busd wallet -> 0 <= wbtc wallet ->
  TradeExecutor.resume (TradeExecutor.AwaitingAmount TradeExecutor.ExecuteBuy)
    (amountFor TradeExecutor.ExecuteBuy wallet this) now sl ex
  = Some
      (if busd wallet <? 10
       then (ex, inr TradeExecutor.ReturnedFalse,
             [TradeExecutor.LogWarn
                (TradeExecutor.NothingToTrade TradeExecutor.ExecuteBuy)])
       else (ex,
             inl (TradeExecutor.AwaitingQuote TradeExecutor.ExecuteBuy
                    (busd wallet / 10) (now / 1000 + 300)),
             [TradeExecutor.RequestQuote TradeExecutor.ExecuteBuy
                (busd wallet / 10)]))
  /\ TradeExecutor.resume
       (TradeExecutor.AwaitingAmount TradeExecutor.ExecuteSell)
       (amountFor TradeExecutor.ExecuteSell wallet this) now sl ex
     = Some
         (if wbtc wallet =? 0
          then (ex, inr TradeExecutor.ReturnedFalse,
                [TradeExecutor.LogWarn
                   (TradeExecutor.NothingToTrade TradeExecutor.ExecuteSell)])
          else (ex,
                inl (TradeExecutor.AwaitingQuote TradeExecutor.ExecuteSell
                       (wbtc wallet) (now / 1000 + 300)),
                [TradeExecutor.RequestQuote TradeExecutor.ExecuteSell
                   (wbtc wallet)])).
Proof.
  intros Hb Hw. split.
  - unfold amountFor. rewrite tradeAmount_eq. simpl bool_decide.
    cbv iota. rewrite quot_tenth by exact Hb.
    unfold TradeExecutor.resume, BigNumber.lte.
    pose proof (Z.div_mod (busd wallet) 10 ltac:(lia)) as E.
    pose proof (Z.mod_pos_bound (busd wallet) 10 ltac:(lia)) as B.
    destruct (Z.leb_spec (busd wallet / 10) 0),
             (Z.ltb_spec (busd wallet) 10); try reflexivity; lia.
  - unfold amountFor, TradeExecutor.resume, BigNumber.lte.
    destruct (Z.leb_spec (wbtc wallet) 0), (Z.eqb_spec (wbtc wallet) 0);
      try reflexivity; lia.
Qed.

Lemma buy_spends_a_tenth_and_sell_spends_all_witness :
  TradeExecutor.resume (TradeExecutor.AwaitingAmount TradeExecutor.ExecuteBuy)
    (amountFor TradeExecutor.ExecuteBuy {| busd := 9; wbtc := 7 |}
       constructor)
    0 SlippageController.constructor TradeExecutor.constructor
  = Some (TradeExecutor.constructor, inr TradeExecutor.ReturnedFalse,
          [TradeExecutor.LogWarn
             (TradeExecutor.NothingToTrade TradeExecutor.ExecuteBuy)])
  /\ TradeExecutor.resume
       (TradeExecutor.AwaitingAmount TradeExecutor.ExecuteSell)
       (amountFor TradeExecutor.ExecuteSell {| busd := 9; wbtc := 7 |}
          constructor)
       0 SlippageController.constructor TradeExecutor.constructor
     = Some (TradeExecutor.constructor,
             inl (TradeExecutor.AwaitingQuote TradeExecutor.ExecuteSell 7 300),
             [TradeExecutor.RequestQuote TradeExecutor.ExecuteSell 7]).
Proof.
  exact (buy_spends_a_tenth_and_sell_spends_all {| busd := 9; wbtc := 7 |}
           constructor 0 SlippageController.constructor
           TradeExecutor.constructor
           ltac:(vm_compute; discriminate) ltac:(vm_compute; discriminate)).
Defined.

End CapitalAllocatorProps.

(* ===================================================================== *)
(** * NetworkMonitor: the gas price kept *)
(* ===================================================================== *)

Module NetworkMonitorProps.
Import NetworkMonitor.

Lemma updateGasPrice_price (g : BigNumber.t) (this : t) :
  currentGasPrice (fst (fst (updateGasPrice (GasPrice g) this)))
  = Z.max config.bsc.gasPrice (Z.quot (g * 110) 100).
Proof.
  simpl. unfold BigNumber.gt, BigNumber.div, BigNumber.mul.
  destruct (Z.ltb_spec config.bsc.gasPrice (Z.quot (g * 110) 100)); lia.
Qed.

Lemma gas_updates_app (xs ys : list answer) (this : t) :
  updateAll (xs ++ ys) this = updateAll ys (updateAll xs this).
Proof. apply fold_left_app. Qed.

Lemma updateAll_floor (answers : list answer) (this : t) :
  config.bsc.gasPrice <= currentGasPrice this ->
  config.bsc.gasPrice <= currentGasPrice (updateAll answers this).
Proof.
  revert this. induction answers as [|a rest IH]; intros this H; [exact H|].
  apply IH. destruct a as [g|msg]; [|exact H].
  rewrite updateGasPrice_price. lia.
Qed.

(** X8.  The gas price the monitor keeps is never below the configured one
    (5 gwei), whatever the provider answered and however often it failed.
    After an answer of [g] wei it is the larger of the configured price and
    [g] plus ten percent, so never below the network's price; a failed
    request leaves the price as it was. *)
Theorem gas_price_is_buffered_and_floored :
  (forall answers : list answer,
      config.bsc.gasPrice <= getGasPrice (updateAll answers constructor))
  /\ (forall (answers : list answer) (g : BigNumber.t) (this : t),
        0 <= g ->
        let p := getGasPrice (updateAll (answers ++ [GasPrice g]) this) in
        p = Z.max config.bsc.gasPrice (g * 11 / 10)
        /\ g <= p /\ config.bsc.gasPrice <= p)
  /\ (forall (answers : list answer) (message : string) (this : t),
        updateAll (answers ++ [ProviderError message]) this
        = updateAll answers this).
Proof.
  split; [|split].
  - intros answers. apply updateAll_floor. reflexivity.
  - intros answers g this Hg p. subst p. unfold getGasPrice.
    rewrite gas_updates_app.
    change (updateAll [GasPrice g] (updateAll answers this))
      with (fst (fst (updateGasPrice (GasPrice g) (updateAll answers this)))).
    rewrite updateGasPrice_price.
    assert (Z.quot (g * 110) 100 = g * 11 / 10) as ->.
    { rewrite Z.quot_div_nonneg by lia.
      replace (g * 110) with (g * 11 * 10) by lia.
      change 100 with (10 * 10). now rewrite Z.div_mul_cancel_r by lia. }
    pose proof (Z.div_mod (g * 11) 10 ltac:(lia)) as E.
    pose proof (Z.mod_pos_bound (g * 11) 10 ltac:(lia)) as B.
    repeat split; lia.
  - intros answers message this. now rewrite gas_updates_app.
Qed.

End NetworkMonitorProps.

(* ===================================================================== *)
(** * BinanceService: the price history *)
(* ===================================================================== *)

Module BinanceServiceProps.
Import BinanceService.

Lemma drop_one {A : Type} (l : list A) : drop 1 l = List.tl l.
Proof. now destruct l. Qed.

(** Keeping the last [n] of what was kept before and what came since is
    keeping the last [n] of everything. *)
Lemma drop_window {A : Type} (n : nat) (l r : list A) :
  let kept := drop (length l - n) l in
  drop (length (kept ++ r) - n) (kept ++ r)
  = drop (length (l ++ r) - n) (l ++ r).
Proof.
  cbv zeta. destruct (Nat.le_gt_cases (length l) n) as [H|H].
  - replace (length l - n)%nat with 0%nat by lia. reflexivity.
  - rewrite !length_app, length_drop.
    replace (length l - (length l - n) + length r - n)%nat
      with (length r) by lia.
    replace (length l + length r - n)%nat
      with ((length l - n) + length r)%nat by lia.
    rewrite <- drop_drop. f_equal.
    rewrite drop_app_le by lia. reflexivity.
Qed.

Lemma onMessage_history (h : option handler) (msg : message) (s : t) :
  (length (historicalPrices s) <= 100)%nat ->
  let L := historicalPrices s ++ closes [msg] in
  historicalPrices (fst (onMessage h msg s)) = drop (length L - 100) L
  /\ (length (historicalPrices (fst (onMessage h msg s))) <= 100)%nat.
Proof.
  intros H. destruct msg as [c| |]; simpl.
  - destruct (Nat.ltb_spec 100 (length (historicalPrices s ++ [c]))) as [G|G];
      rewrite length_app in *; simpl in *.
    + replace (length (historicalPrices s) + 1 - 100)%nat with 1%nat by lia.
      rewrite drop_one. split; [reflexivity|].
      unfold shift. destruct (historicalPrices s ++ [c]) eqn:E.
      * simpl. lia.
      * apply (f_equal (@length _)) in E. rewrite length_app in E.
        simpl in *. lia.
    + replace (length (historicalPrices s) + 1 - 100)%nat with 0%nat by lia.
      split; [reflexivity|]. lia.
  - rewrite app_nil_r.
    replace (length (historicalPrices s) - 100)%nat with 0%nat by lia.
    now split.
  - rewrite app_nil_r.
    replace (length (historicalPrices s) - 100)%nat with 0%nat by lia.
    now split.
Qed.

Lemma closes_cons (m : message) (msgs : list message) :
  closes (m :: msgs) = closes [m] ++ closes msgs.
Proof. unfold closes. simpl. now rewrite app_nil_r. Qed.

Lemma last_cons_default {A : Type} (d c : A) (l : list A) :
  default d (last (c :: l)) = default c (last l).
Proof.
  revert d c. induction l as [|x l IH]; intros d c; [reflexivity|].
  change (last (c :: x :: l)) with (last (x :: l)).
  now rewrite (IH d x), (IH c x).
Qed.

Lemma onMessages_currentPrice (msgs : list message) (s : t) :
  currentPrice (onMessages msgs s)
  = default (currentPrice s) (last (closes msgs)).
Proof.
  revert s. induction msgs as [|m rest IH]; intros s; [reflexivity|].
  change (onMessages (m :: rest) s)
    with (onMessages rest (fst (onMessage None m s))).
  rewrite IH, closes_cons. destruct m as [c| |]; simpl; try reflexivity.
  now rewrite last_cons_default.
Qed.

(** X9.  The price history is a sliding window of one hundred: after any
    run of WebSocket messages it holds the last hundred of the prices it held
    before followed by the close prices received since, in order, and never
    more than a hundred; the current price is the last close received.
    Messages that are not klines, or do not parse, change neither. *)
Theorem history_is_the_last_hundred (msgs : list message) (s : t) :
  (length (historicalPrices s) <= 100)%nat ->
  let L := historicalPrices s ++ closes msgs in
  historicalPrices (onMessages msgs s) = drop (length L - 100) L
  /\ (length (historicalPrices (onMessages msgs s)) <= 100)%nat
  /\ currentPrice (onMessages msgs s)
     = default (currentPrice s) (last (closes msgs)).
Proof.
  intros H L. split; [|split]; [| |apply onMessages_currentPrice];
    subst L; revert s H; induction msgs as [|m rest IH]; intros s H.
  - simpl. rewrite app_nil_r.
    now replace (length (historicalPrices s) - 100)%nat with 0%nat by lia.
  - change (onMessages (m :: rest) s)
      with (onMessages rest (fst (onMessage None m s))).
    destruct (onMessage_history None m s H) as [E B].
    pose proof (IH _ B) as R. rewrite E in R.
    rewrite R, (closes_cons m rest), app_assoc.
    apply drop_window.
  - exact H.
  - change (onMessages (m :: rest) s)
      with (onMessages rest (fst (onMessage None m s))).
    apply IH. now apply onMessage_history.
Qed.

Lemma history_is_the_last_hundred_witness :
  historicalPrices
    (onMessages [Kline 1; OtherEvent; Kline 2; Malformed; Kline 3]
       constructor)
  = [1; 2; 3]%float
  /\ currentPrice
       (onMessages [Kline 1; OtherEvent; Kline 2; Malformed; Kline 3]
          constructor)
     = 3%float.
Proof.
  pose proof (history_is_the_last_hundred
                [Kline 1; OtherEvent; Kline 2; Malformed; Kline 3]
                constructor ltac:(simpl; lia)) as (E & _ & C).
  split; [exact E | exact C].
Defined.

End BinanceServiceProps.

(* ===================================================================== *)
(** * TradeExecutor: the ledger *)
(* ===================================================================== *)

Module LedgerProps.
Import TradeExecutor.

Lemma records_app (xs ys : list (nat * completion)) :
  records (xs ++ ys) = records xs ++ records ys.
Proof. apply flat_map_app. Qed.

Lemma ledger_boot : ledger boot.
Proof.
  split; simpl; try constructor. apply map_Forall_empty.
Qed.

Lemma ledger_call (m : method) (rt : runtime) : ledger rt -> ledger (call m rt).
Proof.
  intros [R A T E]. split; simpl; auto.
  - apply map_Forall_insert_2; [exact I|exact A].
  - apply Forall_app. split; [exact E|]. repeat constructor.
Qed.

Lemma slippage_events_funded (evs : list SlippageController.event) :
  Forall fundedEvent (map Slippage evs).
Proof. induction evs; simpl; constructor; [exact I|assumption]. Qed.

(** What resuming an activation keeps. *)
Lemma resume_ledger (a : activation) (r : settlement) (now : JS.date)
    (sl : SlippageController.t) (this this' : t)
    (next : activation + completion) (evs : list event) :
  resume a r now sl this = Some (this', next, evs) ->
  funded a ->
  Forall fundedEvent evs
  /\ match next with
     | inl a' => funded a' /\ this' = this
     | inr (ReturnedRecord rec) =>
         0 < amountIn rec
         /\ transactions this' = transactions this ++ [rec]
     | inr _ => this' = this
     end.
Proof.
  intros H F.
  destruct a as [m|m ai dl|m ai eo mo|m ai eo hash],
           r as [v|q|h|b|msg]; simpl in H; unfold failed in H;
    try discriminate H;
    try (injection H as <- <- <-; split; [|reflexivity];
         destruct (onTradeError this); repeat constructor).
  - unfold BigNumber.lte in H. destruct (Z.leb_spec v 0) as [G|G];
      injection H as <- <- <-; (split; [repeat constructor; simpl; lia|]).
    + reflexivity.
    + split; [exact G|reflexivity].
  - destruct (SlippageController.applySlippage q (tradeType m) sl)
      as [[mo evs0]|]; injection H as <- <- <-.
    + split; [|split; [exact F|reflexivity]].
      apply Forall_app. split.
      * apply slippage_events_funded.
      * repeat constructor. exact F.
    + split; [|reflexivity].
      destruct (onTradeError this); repeat constructor.
  - injection H as <- <- <-. split; [repeat constructor|].
    split; [exact F|reflexivity].
  - injection H as <- <- <-. split.
    + destruct (onTradeExecuted this); repeat constructor.
    + split; [exact F|reflexivity].
Qed.

Lemma ledger_settle (id : nat) (r : settlement) (now : JS.date)
    (rt rt' : runtime) :
  settle id r now rt = Some rt' -> ledger rt -> ledger rt'.
Proof.
  unfold settle. intros H [R A T E].
  destruct (active rt !! id) as [a|] eqn:Ha; simpl in H; [|discriminate].
  destruct (resume a r now (slippage rt) (executor rt))
    as [[[this' next] evs]|] eqn:Hr; simpl in H; [|discriminate].
  injection H as <-.
  destruct (resume_ledger _ _ _ _ _ _ _ _ Hr (A _ _ Ha)) as [Fe Fn].
  assert (Forall fundedEvent (trace rt ++ evs)) as E'
    by (apply Forall_app; now split).
  destruct next as [a'|c].
  - destruct Fn as [Fa ->]. split; simpl; auto.
    now apply map_Forall_insert_2.
  - assert (map_Forall (fun _ a => funded a) (delete id (active rt))) as A'
      by now apply map_Forall_delete.
    destruct c as [|rec|msg].
    + subst this'. split; simpl; auto.
      rewrite records_app. simpl. now rewrite app_nil_r.
    + destruct Fn as [Fr Ft]. split; simpl; auto.
      * rewrite Ft, R, records_app. reflexivity.
      * rewrite Ft. apply Forall_app. split; [exact T|]. now constructor.
    + subst this'. split; simpl; auto.
      rewrite records_app. simpl. now rewrite app_nil_r.
Qed.

Lemma ledger_run (xs : list action) (rt rt' : runtime) :
  run xs rt = Some rt' -> ledger rt -> ledger rt'.
Proof.
  revert rt. induction xs as [|x rest IH]; intros rt H L.
  - injection H as <-. exact L.
  - simpl in H. destruct (step x rt) as [rt1|] eqn:S; simpl in H;
      [|discriminate].
    apply (IH rt1 H). destruct x as [m|id r now]; simpl in S.
    + injection S as <-. now apply ledger_call.
    + exact (ledger_settle _ _ _ _ _ S L).
Qed.

(** X10.  However calls to [executeBuy] and [executeSell] are interleaved
    and however their promises settle, the transactions the executor holds
    are exactly the records of the calls that returned one, in the order they
    returned: a call that threw or returned [false] leaves no record, even
    one that failed after its swap was submitted.  Every record, every quote
    requested and every swap submitted is for a positive amount. *)
Theorem ledger_is_the_returned_records (xs : list action) (rt : runtime) :
  run xs boot = Some rt ->
  transactions (executor rt) = records (finished rt)
  /\ Forall (fun r => 0 < amountIn r) (transactions (executor rt))
  /\ (forall (m : method) (amount minOut : BigNumber.t) (deadline : Z),
        In (SubmitSwap m amount minOut deadline) (trace rt) -> 0 < amount)
  /\ (forall (m : method) (amount : BigNumber.t),
        In (RequestQuote m amount) (trace rt) -> 0 < amount).
Proof.
  intros H. destruct (ledger_run xs boot rt H ledger_boot) as [R A T E].
  split; [exact R|]. split; [exact T|].
  pose proof (proj1 (List.Forall_forall _ _) E) as E'. split.
  - intros m amount minOut deadline Hin. exact (E' _ Hin).
  - intros m amount Hin. exact (E' _ Hin).
Qed.

Lemma ledger_is_the_returned_records_witness :
  let xs :=
    [Call ExecuteBuy; Call ExecuteSell;
     Settle 0 (Amount 1000) 0; Settle 1 (Amount 7) 0;
     Settle 0 (Quote 5000) 0; Settle 1 (Quote 90) 0;
     Settle 0 (Transaction "0xb") 0; Settle 1 (Transaction "0xs") 0;
     Settle 1 (Failure "reverted") 5; Settle 0 (Receipt 12) 9] in
  let rt := default boot (run xs boot) in
  run xs boot = Some rt
  /\ transactions (executor rt) = records (finished rt)
  /\ transactions (executor rt)
     = [{| type := "buy"; txHash := "0xb"; amountIn := 1000;
           amountOut := 5000; timestamp := 9; blockNumber := 12 |}]
  /\ finished rt
     = [(1%nat, Threw "reverted");
        (0%nat,
         ReturnedRecord
           {| type := "buy"; txHash := "0xb"; amountIn := 1000;
              amountOut := 5000; timestamp := 9; blockNumber := 12 |})]
  /\ length (swapsSubmitted rt) = 2%nat.
Proof.
  intros xs rt.
  assert (run xs boot = Some rt) as H by reflexivity.
  split; [exact H|].
  split; [exact (proj1 (ledger_is_the_returned_records xs rt H))|].
  repeat split.
Defined.

End LedgerProps.

(* ===================================================================== *)
(** * The request queue of the rate-limited TaapiService *)
(* ===================================================================== *)

Module RateLimitingProps.
Import RateLimiting.

Lemma run_cons (a : action) (rest : list action) (this : t) :
  run (a :: rest) this = run rest (step a this).
Proof. reflexivity. Qed.

Lemma run_snoc (actions : list action) (a : action) (this : t) :
  run (actions ++ [a]) this = step a (run actions this).
Proof. unfold run. now rewrite fold_left_app. Qed.

(** Only a request that ends changes the times kept. *)
Lemma step_times (a : action) (this : t) :
  minTimeBetweenRequests (step a this)
  = minTimeBetweenRequests this + (if isRateLimitHit a then 1000 else 0)
  /\ lastRequestTime (step a this)
     = match a with
       | Ended Succeeded now => now
       | _ => lastRequestTime this
       end.
Proof.
  destruct a as [r now|now|[|status] now]; simpl.
  - unfold makeRateLimitedRequest, processRequestQueue.
    destruct (processing this); simpl; [lia|].
    destruct (queue this ++ [r]); simpl; lia.
  - unfold processRequestQueue. destruct (queue this); simpl; lia.
  - lia.
  - destruct (bool_decide _); simpl; lia.
Qed.

Lemma run_times (actions : list action) (this : t) :
  minTimeBetweenRequests (run actions this)
  = minTimeBetweenRequests this + 1000 * rateLimitHits actions
  /\ lastRequestTime (run actions this)
     = fold_left
         (fun t a => match a with Ended Succeeded now => now | _ => t end)
         actions (lastRequestTime this).
Proof.
  revert this. induction actions as [|a rest IH]; intros this.
  - unfold rateLimitHits. simpl. lia.
  - rewrite run_cons. destruct (IH (step a this)) as [M L].
    destruct (step_times a this) as [M1 L1].
    rewrite M, L, M1, L1. unfold rateLimitHits. simpl.
    split.
    + destruct (isRateLimitHit a); simpl length; lia.
    + now destruct a as [r now|now|[|status] now].
Qed.

(** The wait computed for a request taken from the queue. *)
Lemma scheduled_wait (a : action) (this : t) (r : request) (w : Z) :
  scheduled a this = Some (r, w) ->
  w = Z.max 0 (minTimeBetweenRequests this - (time a - lastRequestTime this)).
Proof.
  destruct a as [r0 now|now|o now]; simpl; [| |discriminate].
  - unfold makeRateLimitedRequest, processRequestQueue.
    destruct (processing this); simpl; [discriminate|].
    destruct (queue this ++ [r0]); simpl; [discriminate|].
    now intros [= _ <-].
  - unfold processRequestQueue. destruct (queue this); simpl; [discriminate|].
    now intros [= _ <-].
Qed.

(** X11.  A request is never made sooner after the last successful one than
    the interval in force, which starts at 15 seconds and has grown by one
    second with every response of status 429 received so far; it is never
    reset.  The wait before a request is the shortest that respects this:
    zero once the interval has passed. *)
Theorem requests_are_spaced
    (actions : list action) (a : action) (r : request) (w : Z) :
  scheduled a (run actions constructor) = Some (r, w) ->
  let interval := 15000 + 1000 * rateLimitHits actions in
  minTimeBetweenRequests (run actions constructor) = interval
  /\ lastRequestTime (run actions constructor) = lastSuccess actions
  /\ 0 <= w
  /\ lastSuccess actions + interval <= time a + w
  /\ (w = 0 \/ time a + w = lastSuccess actions + interval).
Proof.
  intros H interval. apply scheduled_wait in H.
  destruct (run_times actions constructor) as [M L].
  change (minTimeBetweenRequests constructor) with 15000 in M.
  change (lastRequestTime constructor) with 0 in L.
  fold (lastSuccess actions) in L. fold interval in M.
  rewrite M, L in H. repeat split; try assumption; lia.
Qed.

Lemma requests_are_spaced_witness :
  let actions :=
    [Make 1%nat 1000; Make 2%nat 2000; Ended (Failed (Some 429)) 15500;
     Process 15600; Ended Succeeded 16500; Process 16600] in
  scheduled (Make 3%nat 20000) (run actions constructor)
  = Some (3%nat, 12500)
  /\ lastSuccess actions + (15000 + 1000 * rateLimitHits actions)
     <= 20000 + 12500.
Proof.
  intros actions.
  assert (scheduled (Make 3%nat 20000) (run actions constructor)
          = Some (3%nat, 12500)) as H by reflexivity.
  split; [exact H|].
  exact (proj1 (proj2 (proj2 (proj2
    (requests_are_spaced actions (Make 3%nat 20000) 3%nat 12500 H))))).
Defined.

Lemma step_queue (a : action) (this : t) :
  match scheduled a this with Some (r, _) => [r] | None => [] end
  ++ queue (step a this)
  = queue this ++ match a with Make r _ => [r] | _ => [] end.
Proof.
  destruct a as [r now|now|o now]; simpl.
  - unfold makeRateLimitedRequest, processRequestQueue.
    destruct (processing this); simpl; [reflexivity|].
    destruct (queue this ++ [r]); reflexivity.
  - unfold processRequestQueue. rewrite app_nil_r.
    destruct (queue this); reflexivity.
  - rewrite app_nil_r. now destruct o.
Qed.

(** X12.  No request is lost, duplicated or reordered by the queue: at any
    moment, the requests handed to the network so far followed by those
    still queued are the requests callers made, in the order they made
    them. *)
Theorem requests_leave_in_the_order_made :
  forall (actions : list action) (this : t),
    issued actions this ++ queue (run actions this)
    = queue this ++ made actions.
Proof.
  induction actions as [|a rest IH]; intros this.
  - simpl. unfold made. simpl. now rewrite app_nil_r.
  - rewrite run_cons. simpl issued. rewrite <- app_assoc, IH, app_assoc.
    rewrite step_queue, <- app_assoc. reflexivity.
Qed.

End RateLimitingProps.

(* ===================================================================== *)
(** * Fetching the reference data: one request at a time, or all at once *)
(* ===================================================================== *)

Module TaapiFetchProps.
Import TaapiFetch.

(** X13.  [fetchDataSequentially] stores each value as it arrives.  When
    all three requests resolve it ends as [fetchData] does: the same data,
    the same callback.  When a later request fails it throws with the
    earlier values already stored, so the service is left holding a new
    price beside the indicators of the previous fetch, and the data-update
    callback is not called; [fetchData] stores nothing unless all three
    resolved. *)
Theorem sequential_fetch_stores_partial_results :
  (forall (p r e : float) (t1 t2 t3 : JS.date) (h : option handler)
          (this : TaapiService.t),
      fetchDataSequentially (Resolved p) (Resolved r) (Resolved e)
        t1 t2 t3 h this
      = fetchData (Resolved (p, r, e)) t3 h this)
  /\ (forall (price rsi ema : fetched float) (t1 t2 t3 : JS.date)
            (h : option handler) (this : TaapiService.t),
        let '(data, thrown, events) :=
          fetchDataSequentially price rsi ema t1 t2 t3 h this in
        (thrown = None
         <-> exists p r e,
               price = Resolved p /\ rsi = Resolved r /\ ema = Resolved e)
        /\ (forall message, thrown = Some message ->
            events = [LogError message])
        /\ (forall p message,
              price = Resolved p -> rsi = Rejected message ->
              TaapiService.price data = p
              /\ TaapiService.indicators data = TaapiService.indicators this
              /\ TaapiService.lastUpdated data = Some t1)
        /\ (forall p r message,
              price = Resolved p -> rsi = Resolved r ->
              ema = Rejected message ->
              TaapiService.price data = p
              /\ Indicators.rsi (TaapiService.indicators data) = Some r
              /\ Indicators.ema (TaapiService.indicators data)
                 = Indicators.ema (TaapiService.indicators this)
              /\ TaapiService.lastUpdated data = Some t2)
        /\ (forall message, price = Rejected message -> data = this))
  /\ (forall (message : string) (now : JS.date) (h : option handler)
            (this : TaapiService.t),
        fetchData (Rejected message) now h this
        = (this, Some message, [LogError message])).
Proof.
  split; [|split].
  - reflexivity.
  - intros [p|m1] [r|m2] [e|m3] t1 t2 t3 h this; simpl;
      (split; [split; [intros H; try discriminate H; eauto 10
                      |intros (p' & r' & e' & H1 & H2 & H3);
                       try discriminate; reflexivity]|]);
      (split; [intros message H; try discriminate H;
               injection H as <-; reflexivity|]);
      (split; [intros p' message H1 H2; try discriminate;
               injection H1 as <-; now repeat split|]);
      (split; [intros p' r' message H1 H2 H3; try discriminate;
               injection H1 as <-; injection H2 as <-; now repeat split|]);
      intros message H; try discriminate; reflexivity.
  - reflexivity.
Qed.

End TaapiFetchProps.

(* ===================================================================== *)
(** * Opportunities and signals: what excludes what *)
(* ===================================================================== *)

Module OpportunityProps.

(** No gap is above the profit threshold and below its negation. *)
Lemma gap_is_on_one_side (gap : float) :
  JS.gt gap config.trading.minProfitThreshold
  && JS.lt gap (- config.trading.minProfitThreshold)%float = false.
Proof.
  unfold JS.gt, JS.lt.
  destruct (_ <? gap)%float eqn:A; [|reflexivity].
  destruct (gap <? _)%float eqn:B; [|reflexivity].
  apply F64.ltb_leb in A, B.
  pose proof (F64.leb_trans _ _ _ A B) as C. vm_compute in C. discriminate.
Qed.

(** No RSI is below the oversold level and above the overbought one. *)
Lemma rsi_is_on_one_side (r : float) :
  JS.lt r config.indicators.rsi.oversold
  && JS.gt r config.indicators.rsi.overbought = false.
Proof.
  unfold JS.gt, JS.lt.
  destruct (r <? _)%float eqn:A; [|reflexivity].
  destruct (_ <? r)%float eqn:B; [|reflexivity].
  apply F64.ltb_leb in A, B.
  pose proof (F64.leb_trans _ _ _ B A) as C. vm_compute in C. discriminate.
Qed.

Lemma buy_excludes_sell (taapi : TaapiService.t) (md : MarketData.t) :
  MonitoringService.isPotentialBuyOpportunity taapi md
  && MonitoringService.isPotentialSellOpportunity taapi md = false.
Proof.
  unfold MonitoringService.isPotentialBuyOpportunity,
    MonitoringService.isPotentialSellOpportunity. cbv zeta.
  pose proof (gap_is_on_one_side (MarketData.priceDifference md)) as G.
  destruct (JS.gt _ _); [|reflexivity].
  destruct (JS.lt _ _); [discriminate G|].
  now rewrite andb_false_r.
Qed.

(** X14.  The monitoring service never reports a buy opportunity and a sell
    opportunity together, whatever the indicators say, and neither does the
    DEX price monitor.  After a feed update that leaves either price at zero
    (as both are until their first update) it reports neither. *)
Theorem opportunities_exclude_each_other :
  (forall (taapi : TaapiService.t) (md : MarketData.t),
      MonitoringService.isPotentialBuyOpportunity taapi md
      && MonitoringService.isPotentialSellOpportunity taapi md = false)
  /\ (forall (binancePrice : float) (m : DexPriceMonitor.t),
        DexPriceMonitor.isPotentialBuyOpportunity binancePrice m
        && DexPriceMonitor.isPotentialSellOpportunity binancePrice m = false)
  /\ (forall (u : MonitoringService.update) (taapi : TaapiService.t)
            (md : MarketData.t),
        let md' := MonitoringService.apply u md in
        JS.is_zero (Centralized.price (MarketData.centralized md'))
        || JS.is_zero (Dex.price (MarketData.dex md')) = true ->
        MarketData.priceDifference md' = 0%float
        /\ MonitoringService.isPotentialBuyOpportunity taapi md' = false
        /\ MonitoringService.isPotentialSellOpportunity taapi md' = false)
  /\ (forall (binancePrice : float) (m : DexPriceMonitor.t),
        JS.is_zero (DexPriceMonitor.price m) || JS.is_zero binancePrice = true
        ->
        DexPriceMonitor.isPotentialBuyOpportunity binancePrice m = false
        /\ DexPriceMonitor.isPotentialSellOpportunity binancePrice m = false).
Proof.
  split; [|split; [|split]].
  - exact buy_excludes_sell.
  - intros b m.
    unfold DexPriceMonitor.isPotentialBuyOpportunity,
      DexPriceMonitor.isPotentialSellOpportunity. cbv zeta.
    apply gap_is_on_one_side.
  - intros u taapi md md' Z.
    assert (MarketData.priceDifference md' = 0%float) as E.
    { subst md'. destruct u; simpl in *; now rewrite Z. }
    split; [exact E|].
    unfold MonitoringService.isPotentialBuyOpportunity,
      MonitoringService.isPotentialSellOpportunity. cbv zeta.
    rewrite E. split; reflexivity.
  - intros b m Z.
    unfold DexPriceMonitor.isPotentialBuyOpportunity,
      DexPriceMonitor.isPotentialSellOpportunity,
      DexPriceMonitor.calculatePriceDifference. cbv zeta.
    rewrite Z. split; reflexivity.
Qed.

Lemma abs_nan (x : float) : is_nan x = true -> is_nan (abs x) = true.
Proof.
  rewrite !F64.is_nan_spec, FloatAxioms.abs_spec. now intros ->.
Qed.

(** [Math.min] of two numbers is one of the two. *)
Lemma Math_min_cases (a b : float) :
  is_nan a = false -> is_nan b = false ->
  (JS.Math_min a b = a /\ (a <=? b)%float = true)
  \/ (JS.Math_min a b = b /\ (b <=? a)%float = true).
Proof.
  intros Ha Hb. unfold JS.Math_min. rewrite Ha, Hb. simpl.
  destruct (a <? b)%float eqn:A.
  - left. split; [reflexivity|]. now apply F64.ltb_leb.
  - destruct (b <? a)%float eqn:B.
    + right. split; [reflexivity|]. now apply F64.ltb_leb.
    + destruct (get_sign a).
      * left. split; [reflexivity|]. now apply F64Total.not_ltb_leb.
      * right. split; [reflexivity|]. now apply F64Total.not_ltb_leb.
Qed.

(** X15.  The opportunity status reported over HTTP: the type is "buy"
    exactly on a buy opportunity, "sell" exactly on a sell opportunity and
    "neutral" exactly when there is neither; the price difference is the
    service's; and the strength lies between 0 and 100 whenever the price
    difference is a number, and is NaN when it is not. *)
Theorem opportunity_status_is_well_formed
    (taapi : TaapiService.t) (md : MarketData.t) :
  let status := OpportunityController.getOpportunityStatus taapi md in
  let buy := MonitoringService.isPotentialBuyOpportunity taapi md in
  let sell := MonitoringService.isPotentialSellOpportunity taapi md in
  (OpportunityController.type status = "buy"%string <-> buy = true)
  /\ (OpportunityController.type status = "sell"%string <-> sell = true)
  /\ (OpportunityController.type status = "neutral"%string
      <-> buy = false /\ sell = false)
  /\ OpportunityController.priceDifference status
     = MarketData.priceDifference md
  /\ (is_nan (MarketData.priceDifference md) = false ->
      (0 <=? OpportunityController.strength status)%float = true
      /\ (OpportunityController.strength status <=? 100)%float = true)
  /\ (is_nan (MarketData.priceDifference md) = true ->
      is_nan (OpportunityController.strength status) = true).
Proof.
  intros status buy sell.
  pose proof (buy_excludes_sell taapi md) as X.
  fold buy sell in X.
  unfold status, OpportunityController.getOpportunityStatus. cbv zeta.
  fold buy sell. simpl.
  split; [|split; [|split; [|split; [reflexivity|split]]]].
  - destruct buy, sell; simpl in *; intuition congruence.
  - destruct buy, sell; simpl in *; intuition congruence.
  - destruct buy, sell; simpl in *; intuition congruence.
  - intros N.
    assert (is_nan (abs (MarketData.priceDifference md * 100)) = false) as A.
    { apply F64Total.abs_not_nan.
      now apply (F64Total.mul_finite_not_nan _ 100 false
                   7036874417766400%positive (-46)). }
    destruct (Math_min_cases _ 100 A eq_refl) as [[-> L]|[-> L]].
    + split; [|exact L]. apply F64Total.abs_nonneg.
      now apply (F64Total.mul_finite_not_nan _ 100 false
                   7036874417766400%positive (-46)).
    + split; reflexivity.
  - intros N. unfold JS.Math_min.
    now rewrite (abs_nan _ (F64.mul_nan_l _ 100 N)).
Qed.

(** X16.  One market never gives both signals: whatever positions the two
    checks are given and whenever they run, [checkBuySignal] and
    [checkSellSignal] do not both answer true on the same prices and
    indicators, since no RSI is below 30 and above 70. *)
Theorem no_market_signals_both_ways
    (sv : SignalDetector.services) (pos pos' : option string)
    (now now' : JS.date) (this this' : SignalDetector.t) :
  SignalDetector.buySignal pos sv now this
  && SignalDetector.sellSignal pos' sv now' this' = false.
Proof.
  destruct (SignalDetector.buySignal pos sv now this) eqn:B; [|reflexivity].
  destruct (SignalDetector.sellSignal pos' sv now' this') eqn:S;
    [|reflexivity].
  apply SignalDetectorProps.buySignal_iff in B as (_ & B & _).
  apply SignalDetectorProps.sellSignal_iff in S as (_ & S & _).
  unfold IndicatorCalculator.isRsiOversold,
    IndicatorCalculator.isRsiOverbought in B, S.
  destruct (IndicatorCalculator.rsi _) as [r|]; [|discriminate].
  pose proof (rsi_is_on_one_side r) as R. rewrite B, S in R. discriminate.
Qed.

(** X17.  The buy check divides by the DEX price without the zero guard of
    [calculatePriceDifference].  While the DEX price is still the initial 0
    and the Binance price is positive, the gap it computes is [+Infinity],
    which passes the threshold: the buy signal then depends on the two
    indicator conditions alone, although the guarded gap is 0 and the DEX
    monitor reports no buy opportunity. *)
Theorem unset_dex_price_passes_the_gap_check
    (sv : SignalDetector.services) (now : JS.date) (this : SignalDetector.t) :
  let binancePrice := BinanceService.currentPrice (SignalDetector.binance sv) in
  DexPriceMonitor.price (SignalDetector.dexMonitor sv) = 0%float ->
  (0 <? binancePrice)%float = true ->
  SignalDetector.buyGap sv = infinity
  /\ SignalDetector.buySignal None sv now this
     = IndicatorCalculator.isRsiOversold (SignalDetector.calculator sv)
       && IndicatorCalculator.isPriceAboveEma binancePrice
            (SignalDetector.calculator sv)
  /\ DexPriceMonitor.calculatePriceDifference binancePrice
       (SignalDetector.dexMonitor sv) = 0%float
  /\ DexPriceMonitor.isPotentialBuyOpportunity binancePrice
       (SignalDetector.dexMonitor sv) = false.
Proof.
  intros b Hd Hb.
  assert (SignalDetector.buyGap sv = infinity) as G.
  { unfold SignalDetector.buyGap, BinanceService.getCurrentPrice,
      DexPriceMonitor.getCurrentPrice. cbv zeta. rewrite Hd.
    now apply F64Total.positive_over_zero. }
  split; [exact G|]. split; [|split].
  - unfold SignalDetector.buySignal, SignalDetector.checkBuySignal.
    cbv zeta. rewrite G. unfold BinanceService.getCurrentPrice. fold b.
    change (JS.gt infinity config.trading.minProfitThreshold) with true.
    rewrite andb_true_r. now destruct (_ && _).
  - unfold DexPriceMonitor.calculatePriceDifference. now rewrite Hd.
  - unfold DexPriceMonitor.isPotentialBuyOpportunity,
      DexPriceMonitor.calculatePriceDifference. cbv zeta. now rewrite Hd.
Qed.

Lemma unset_dex_price_passes_the_gap_check_witness :
  let sv :=
    SignalDetector.market 50100 0 (Some 25%float) (Some 50000%float) in
  SignalDetector.buyGap sv = infinity
  /\ SignalDetector.buySignal None sv 0 SignalDetector.constructor = true.
Proof.
  intros sv.
  destruct (unset_dex_price_passes_the_gap_check sv 0
              SignalDetector.constructor eq_refl eq_refl) as (G & B & _).
  split; [exact G|]. rewrite B. reflexivity.
Defined.

End OpportunityProps.

(* ===================================================================== *)
(** * Snapshots and the objects they share, in every state *)
(* ===================================================================== *)

Module SnapshotProps.
Import Store.

(** What taking a snapshot adds to the store. *)
Lemma getCurrentData_inv (this : service) (h h1 : heap) (snapshot : ref)
    (md : MarketData.t) :
  load (marketData this) h = Some md ->
  getCurrentData this h = Some (snapshot, h1) ->
  exists c d i,
    h !! marketData this
    = Some (MarketDataObj c d (MarketData.priceDifference md)
              (MarketData.timestamp md))
    /\ h !! c = Some (CentralizedObj
                        (Centralized.price (MarketData.centralized md)) i)
    /\ h !! d = Some (DexObj (Dex.price (MarketData.dex md)))
    /\ h !! i = Some (IndicatorsObj
                        (Indicators.rsi (Centralized.indicators
                                           (MarketData.centralized md)))
                        (Indicators.ema (Centralized.indicators
                                           (MarketData.centralized md))))
    /\ h !! snapshot = None
    /\ h1 = <[snapshot := MarketDataObj c d (MarketData.priceDifference md)
                            (MarketData.timestamp md)]> h.
Proof.
  intros L G.
  destruct (StoreProps.load_inv _ h md L) as (c & d & i & Hr & Hc & Hd & Hi).
  unfold getCurrentData in G. rewrite Hr in G. apply (inj Some) in G.
  apply StoreProps.alloc_spec in G as [Hfresh ->].
  exists c, d, i. auto 10.
Qed.

(** X18.  What an assignment through a snapshot does, in every state of the
    service.  The assignment succeeds and the snapshot reads as assigned.  An
    assignment to one of the snapshot's own four fields leaves the service's
    market data as it was; an assignment to a nested field
    ([centralized.price], [centralized.indicators.rsi] or [.ema],
    [dex.price]) changes the service's market data in the same way, because
    [getCurrentData] copies the outer object only. *)
Theorem assignment_through_a_snapshot
    (this : service) (h h1 : heap) (snapshot : ref) (m : mutation)
    (md : MarketData.t) :
  load (marketData this) h = Some md ->
  getCurrentData this h = Some (snapshot, h1) ->
  exists h2 : heap,
    mutate m snapshot h1 = Some h2
    /\ load snapshot h2 = Some (assigned m md)
    /\ load (marketData this) h2
       = Some (if topLevel m then md else assigned m md).
Proof.
  intros L G.
  destruct (getCurrentData_inv this h h1 snapshot md L G)
    as (c & d & i & Hr & Hc & Hd & Hi & Hs & ->).
  unfold mutate. rewrite lookup_insert_eq.
  destruct m as [v|v|price rsi ema|price|v|v|v|v]; cbn [topLevel].
  - eexists. split; [reflexivity|]. split.
    + apply (StoreProps.load_intro snapshot c d i); simpl; lookup_in_store.
    + apply (StoreProps.load_intro (marketData this) c d i); lookup_in_store.
  - eexists. split; [reflexivity|]. split.
    + apply (StoreProps.load_intro snapshot c d i); simpl; lookup_in_store.
    + apply (StoreProps.load_intro (marketData this) c d i); lookup_in_store.
  - destruct (alloc (IndicatorsObj rsi ema) _) as [i' ha] eqn:A1.
    destruct (alloc (CentralizedObj price i') ha) as [c' hb] eqn:A2.
    apply StoreProps.alloc_spec in A1 as [F1 ->].
    apply StoreProps.alloc_spec in A2 as [F2 ->].
    apply lookup_insert_None in F2 as [F2 N2].
    apply lookup_insert_None in F2 as [F2 N3].
    apply lookup_insert_None in F1 as [F1 N1].
    eexists. split; [reflexivity|]. split.
    + apply (StoreProps.load_intro snapshot c' d i'); simpl; lookup_in_store.
    + apply (StoreProps.load_intro (marketData this) c d i); lookup_in_store.
  - destruct (alloc (DexObj price) _) as [d' ha] eqn:A1.
    apply StoreProps.alloc_spec in A1 as [F1 ->].
    apply lookup_insert_None in F1 as [F1 N1].
    eexists. split; [reflexivity|]. split.
    + apply (StoreProps.load_intro snapshot c d' i); simpl; lookup_in_store.
    + apply (StoreProps.load_intro (marketData this) c d i); lookup_in_store.
  - rewrite lookup_insert_ne, Hc by congruence.
    eexists. split; [reflexivity|]. split.
    + apply (StoreProps.load_intro snapshot c d i); simpl; lookup_in_store.
    + apply (StoreProps.load_intro (marketData this) c d i); simpl; lookup_in_store.
  - rewrite lookup_insert_ne, Hc by congruence.
    rewrite lookup_insert_ne, Hi by congruence.
    eexists. split; [reflexivity|]. split.
    + apply (StoreProps.load_intro snapshot c d i); simpl; lookup_in_store.
    + apply (StoreProps.load_intro (marketData this) c d i); simpl; lookup_in_store.
  - rewrite lookup_insert_ne, Hc by congruence.
    rewrite lookup_insert_ne, Hi by congruence.
    eexists. split; [reflexivity|]. split.
    + apply (StoreProps.load_intro snapshot c d i); simpl; lookup_in_store.
    + apply (StoreProps.load_intro (marketData this) c d i); simpl; lookup_in_store.
  - rewrite lookup_insert_ne, Hd by congruence.
    eexists. split; [reflexivity|]. split.
    + apply (StoreProps.load_intro snapshot c d i); simpl; lookup_in_store.
    + apply (StoreProps.load_intro (marketData this) c d i); simpl; lookup_in_store.
Qed.

Lemma assignment_through_a_snapshot_witness :
  let this := fst (constructor ∅) in
  let h := snd (constructor ∅) in
  let taken := default (0%nat, h) (getCurrentData this h) in
  exists h2 : heap,
    mutate (SetDexPrice 1) (fst taken) (snd taken) = Some h2
    /\ load (marketData this) h2
       = Some (assigned (SetDexPrice 1) MonitoringService.constructor).
Proof.
  intros this h taken.
  destruct (assignment_through_a_snapshot this h (snd taken) (fst taken)
              (SetDexPrice 1) MonitoringService.constructor
              ltac:(vm_compute; reflexivity) ltac:(vm_compute; reflexivity))
    as (h2 & M & _ & L).
  exists h2. split; [exact M|exact L].
Defined.

(** X19.  What an earlier snapshot shows after the service moved on.  A
    DEX price update writes into the [dex] object the snapshot shares, so the
    snapshot then shows the new DEX price beside the price difference and
    timestamp of the time it was taken; a reference data update gives the
    service a new [centralized] object, so the snapshot keeps the reference
    price and indicators it had.  The service itself is updated as
    [MonitoringService] says in both cases. *)
Theorem earlier_snapshot_after_an_update
    (this : service) (h h1 : heap) (snapshot : ref) (md : MarketData.t) :
  load (marketData this) h = Some md ->
  getCurrentData this h = Some (snapshot, h1) ->
  (forall (price : float) (now : JS.date),
      exists h2 : heap,
        onDexPrice price now this h1 = Some h2
        /\ load (marketData this) h2
           = Some (MonitoringService.onDexPrice price now md)
        /\ load snapshot h2
           = Some {| MarketData.centralized := MarketData.centralized md;
                     MarketData.dex := {| Dex.price := price |};
                     MarketData.priceDifference :=
                       MarketData.priceDifference md;
                     MarketData.timestamp := MarketData.timestamp md |})
  /\ (forall (data : TaapiService.t) (now : JS.date),
        exists h2 : heap,
          onTaapiData data now this h1 = Some h2
          /\ load (marketData this) h2
             = Some (MonitoringService.onTaapiData data now md)
          /\ load snapshot h2 = Some md).
Proof.
  intros L G.
  destruct (getCurrentData_inv this h h1 snapshot md L G)
    as (c & d & i & Hr & Hc & Hd & Hi & Hs & ->).
  split.
  - intros price now. unfold onDexPrice.
    rewrite lookup_insert_ne, Hr by congruence.
    rewrite lookup_insert_ne, Hd by congruence.
    unfold updatePriceDifference.
    rewrite !lookup_insert_ne, Hr by congruence.
    rewrite !lookup_insert_ne, Hc by congruence.
    rewrite lookup_insert_eq.
    eexists. split; [reflexivity|]. split.
    + apply (StoreProps.load_intro (marketData this) c d i); simpl;
        lookup_in_store.
    + apply (StoreProps.load_intro snapshot c d i); simpl; lookup_in_store.
  - intros data now. unfold onTaapiData.
    rewrite lookup_insert_ne, Hr by congruence.
    destruct (alloc (IndicatorsObj _ _) _) as [i' ha] eqn:A1.
    destruct (alloc (CentralizedObj _ i') ha) as [c' hb] eqn:A2.
    apply StoreProps.alloc_spec in A1 as [F1 ->].
    apply StoreProps.alloc_spec in A2 as [F2 ->].
    apply lookup_insert_None in F2 as [F2 N2].
    apply lookup_insert_None in F2 as [F2 N3].
    apply lookup_insert_None in F1 as [F1 N1].
    unfold updatePriceDifference.
    rewrite lookup_insert_eq.
    rewrite (lookup_insert_ne _ (marketData this) c') by congruence.
    rewrite lookup_insert_eq.
    rewrite !lookup_insert_ne, Hd by congruence.
    eexists. split; [reflexivity|]. split.
    + apply (StoreProps.load_intro (marketData this) c' d i'); simpl;
        lookup_in_store.
    + apply (StoreProps.load_intro snapshot c d i); simpl; lookup_in_store.
Qed.

Lemma earlier_snapshot_after_an_update_witness :
  let this := fst (constructor ∅) in
  let h := snd (constructor ∅) in
  let taken := default (0%nat, h) (getCurrentData this h) in
  exists h2 : heap,
    onDexPrice 49700 5 this (snd taken) = Some h2
    /\ Dex.price <$> (MarketData.dex <$> load (fst taken) h2)
       = Some 49700%float
    /\ MarketData.timestamp <$> load (fst taken) h2 = Some None
    /\ MarketData.timestamp <$> load (marketData this) h2 = Some (Some 5).
Proof.
  intros this h taken.
  destruct (proj1 (earlier_snapshot_after_an_update this h (snd taken)
                     (fst taken) MonitoringService.constructor
                     ltac:(vm_compute; reflexivity)
                     ltac:(vm_compute; reflexivity)) 49700%float 5)
    as (h2 & E & L1 & L2).
  exists h2. split; [exact E|]. rewrite L1, L2. repeat split.
Defined.

End SnapshotProps.

(* ===================================================================== *)
(** * The bot: signals, trades and the position together *)
(* ===================================================================== *)

Module BotProps.
Import Bot.

Lemma call_inProgress (m : TradeExecutor.method) (rt : TradeExecutor.runtime) :
  TradeExecutor.inProgress (TradeExecutor.call m rt)
  = S (TradeExecutor.inProgress rt).
Proof.
  unfold TradeExecutor.call, TradeExecutor.inProgress. simpl.
  apply map_size_insert_None, not_elem_of_dom, is_fresh.
Qed.

(** A price update that meets the buy conditions while no position is
    tracked starts a buy, and that is all it does. *)
Lemma onPriceUpdate_flat (sv : SignalDetector.services) (now : JS.date)
    (b : t) (h : nat) :
  PositionManager.currentPosition (positions b) = None ->
  SignalDetector.onBuySignal (detector b) = Some h ->
  buyConditions sv = true ->
  let b' := onPriceUpdate sv now b in
  trades b' = TradeExecutor.call TradeExecutor.ExecuteBuy (trades b)
  /\ positions b' = positions b
  /\ SignalDetector.onBuySignal (detector b') = Some h
  /\ awaiting b'
     = <[fresh (dom (TradeExecutor.active (trades b))) := BuySignalHandler]>
         (awaiting b).
Proof.
  intros Hflat Hreg Hbuy. unfold buyConditions in Hbuy.
  unfold onPriceUpdate, SignalDetector.checkBuySignal. simpl.
  rewrite Hflat. cbv zeta. rewrite Hbuy, Hreg. simpl.
  rewrite Hflat. simpl. repeat split; try exact Hreg.
Qed.

(** X20.  Nothing stops a second buy while the first is in progress.  The
    position opens only when a buy has returned, so while no position is
    tracked every price update that meets the buy conditions starts another
    [executeBuy]: after [n] such updates [n] more calls are in progress, each
    on its way to a swap of its own, and still no position is tracked. *)
Theorem buy_signals_start_overlapping_buys
    (updates : list (SignalDetector.services * JS.date)) (b : t) (h : nat) :
  PositionManager.currentPosition (positions b) = None ->
  SignalDetector.onBuySignal (detector b) = Some h ->
  Forall (fun u => buyConditions (fst u) = true) updates ->
  let b' := priceUpdates updates b in
  TradeExecutor.inProgress (trades b')
  = (TradeExecutor.inProgress (trades b) + length updates)%nat
  /\ PositionManager.currentPosition (positions b') = None
  /\ TradeExecutor.transactions (TradeExecutor.executor (trades b'))
     = TradeExecutor.transactions (TradeExecutor.executor (trades b)).
Proof.
  intros Hflat Hreg Hall. revert b Hflat Hreg.
  induction Hall as [|[sv now] rest Hbuy _ IH]; intros b Hflat Hreg.
  - simpl. repeat split; auto.
  - destruct (onPriceUpdate_flat sv now b h Hflat Hreg Hbuy)
      as (Ht & Hp & Hr & _).
    specialize (IH (onPriceUpdate sv now b)
                  ltac:(now rewrite Hp) Hr).
    cbv zeta in IH. destruct IH as (I1 & I2 & I3).
    change (priceUpdates ((sv, now) :: rest) b)
      with (priceUpdates rest (onPriceUpdate sv now b)).
    cbv zeta. rewrite I1, I2, I3, Ht, call_inProgress. simpl length.
    repeat split. lia.
Qed.

Lemma buy_signals_start_overlapping_buys_witness :
  let sv :=
    SignalDetector.market 50100 49700 (Some 25%float) (Some 50000%float) in
  let b := priceUpdates [(sv, 1000); (sv, 2000); (sv, 3000)] constructor in
  TradeExecutor.inProgress (trades b) = 3%nat
  /\ PositionManager.currentPosition (positions b) = None.
Proof.
  intros sv b.
  destruct (buy_signals_start_overlapping_buys
              [(sv, 1000); (sv, 2000); (sv, 3000)] constructor 0%nat
              eq_refl eq_refl
              ltac:(repeat constructor)) as (H1 & H2 & _).
  split; [exact H1|exact H2].
Defined.

(** What resuming a call keeps: its method, and the executor unless a
    record is returned, which is then of the call's trade type. *)
Lemma resume_shape (a : TradeExecutor.activation)
    (r : TradeExecutor.settlement) (now : JS.date)
    (sl : SlippageController.t) (this this' : TradeExecutor.t)
    (next : TradeExecutor.activation + TradeExecutor.completion)
    (evs : list TradeExecutor.event) :
  TradeExecutor.resume a r now sl this = Some (this', next, evs) ->
  match next with
  | inl a' => methodOf a' = methodOf a /\ this' = this
  | inr (TradeExecutor.ReturnedRecord rec) =>
      TradeExecutor.type rec = TradeExecutor.tradeType (methodOf a)
      /\ TradeExecutor.transactions this'
         = TradeExecutor.transactions this ++ [rec]
  | inr _ => this' = this
  end.
Proof.
  intros H.
  destruct a as [m|m ai dl|m ai eo mo|m ai eo hash],
           r as [v|q|hs|bl|msg]; simpl in H;
    unfold TradeExecutor.failed in H;
    try discriminate H;
    try (injection H as <- <- <-; simpl; auto; fail).
  - destruct (BigNumber.lte v 0); injection H as <- <- <-; simpl; auto.
  - destruct (SlippageController.applySlippage _ _ _) as [[mo evs0]|];
      injection H as <- <- <-; simpl; auto.
Qed.

(** What a settlement does to the calls in progress. *)
Lemma settle_inv (id : nat) (r : TradeExecutor.settlement) (now : JS.date)
    (rt rt' : TradeExecutor.runtime) :
  TradeExecutor.settle id r now rt = Some rt' ->
  exists a this' next evs,
    TradeExecutor.active rt !! id = Some a
    /\ TradeExecutor.resume a r now (TradeExecutor.slippage rt)
         (TradeExecutor.executor rt) = Some (this', next, evs)
    /\ TradeExecutor.executor rt' = this'
    /\ match next with
       | inl a' =>
           TradeExecutor.active rt' = <[id := a']> (TradeExecutor.active rt)
           /\ outcome id rt' = None
       | inr c =>
           TradeExecutor.active rt' = delete id (TradeExecutor.active rt)
           /\ outcome id rt' = Some c
       end.
Proof.
  unfold TradeExecutor.settle. intros H.
  destruct (TradeExecutor.active rt !! id) as [a|] eqn:Ha; simpl in H;
    [|discriminate].
  destruct (TradeExecutor.resume a r now _ _)
    as [[[this' next] evs]|] eqn:Hr; simpl in H; [|discriminate].
  injection H as <-. exists a, this', next, evs.
  split; [reflexivity|]. split; [exact Hr|]. split; [reflexivity|].
  unfold outcome. destruct next as [a'|c]; simpl.
  - split; [reflexivity|]. now rewrite lookup_insert_eq.
  - split; [reflexivity|]. now rewrite lookup_delete_eq, last_snoc.
Qed.

Lemma consistent_constructor : consistent constructor.
Proof.
  split; simpl.
  - intros id w H. rewrite lookup_empty in H. discriminate.
  - now left.
  - congruence.
Qed.

Lemma consistent_withDetector (sd : SignalDetector.t) (b : t) :
  consistent b -> consistent (withDetector sd b).
Proof. intros [A S P]. split; simpl; assumption. Qed.

Lemma consistent_startTrade (m : TradeExecutor.method) (w : awaiter) (b : t) :
  methodFor w = m -> consistent b -> consistent (startTrade m w b).
Proof.
  intros Hm [A S P]. split; simpl; try assumption.
  intros id w'. destruct (decide (id = fresh (dom (TradeExecutor.active
                                                    (trades b))))) as [->|N].
  - rewrite !lookup_insert_eq. intros [= <-].
    eexists. split; [reflexivity|]. simpl. now rewrite Hm.
  - rewrite !lookup_insert_ne by congruence. apply A.
Qed.

Lemma checkStopLoss_position (dex : DexPriceMonitor.t)
    (pm : PositionManager.t) :
  PositionManager.currentPosition
    (fst (fst (StopLossManager.checkStopLoss dex pm)))
  = PositionManager.currentPosition pm.
Proof.
  unfold StopLossManager.checkStopLoss. simpl.
  destruct (JS.truthy _ _); simpl; [|reflexivity].
  destruct (PositionLifecycle.updateHighestPrice_keeps
              (DexPriceMonitor.getCurrentPrice dex) pm) as (K & _).
  destruct (PositionManager.updateHighestPrice _ pm) as [pm' evs].
  simpl in K. now destruct (PositionManager.shouldTriggerStopLoss _ pm').
Qed.

Lemma consistent_step (a : action) (b b' : t) :
  step a b = Some b' -> consistent b -> consistent b'.
Proof.
  destruct a as [sv now|dex|id r now dex]; simpl; intros H C.
  - injection H as <-. unfold onPriceUpdate.
    destruct (SignalDetector.checkBuySignal _ sv now (detector b))
      as [[v1 sd1] evs1].
    set (b1 := if existsb isCallBuySignal evs1
               then startTrade TradeExecutor.ExecuteBuy BuySignalHandler
                      (withDetector sd1 b)
               else withDetector sd1 b).
    assert (consistent b1) as C1.
    { subst b1. destruct (existsb _ evs1).
      - now apply consistent_startTrade, consistent_withDetector.
      - now apply consistent_withDetector. }
    destruct (SignalDetector.checkSellSignal _ sv now (detector b1))
      as [[v2 sd2] evs2].
    destruct (existsb _ evs2).
    + now apply consistent_startTrade, consistent_withDetector.
    + now apply consistent_withDetector.
  - injection H as <-. unfold onStopLossTick.
    pose proof (checkStopLoss_position dex (positions b)) as K.
    destruct (StopLossManager.checkStopLoss dex (positions b))
      as [[pm pending] evs]. simpl in K.
    assert (consistent (withPositions pm b)) as C1.
    { destruct C as [A S P]. split; simpl; rewrite ?K; assumption. }
    destruct pending as [|price peak]; [exact C1|].
    now apply consistent_startTrade.
  - unfold onSettled in H.
    destruct (TradeExecutor.settle id r now (trades b)) as [rt|] eqn:Hs;
      simpl in H; [|discriminate].
    injection H as <-.
    destruct (settle_inv _ _ _ _ _ Hs)
      as (a & this' & next & evs & Ha & Hr & He & Hn).
    pose proof (resume_shape _ _ _ _ _ _ _ _ Hr) as Sh.
    destruct C as [A S P].
    destruct next as [a'|c].
    + destruct Hn as [Hact ->]. destruct Sh as [Hm ->].
      split; simpl; rewrite ?He; try assumption.
      intros id0 w Hw. rewrite Hact.
      destruct (decide (id0 = id)) as [->|N].
      * rewrite lookup_insert_eq. destruct (A _ _ Hw) as (a0 & Ha0 & Hm0).
        exists a'. split; [reflexivity|]. congruence.
      * rewrite lookup_insert_ne by congruence. now apply A.
    + destruct Hn as [Hact ->].
      assert (forall id0 w, delete id (awaiting b) !! id0 = Some w ->
                exists a0, TradeExecutor.active rt !! id0 = Some a0
                           /\ methodOf a0 = methodFor w) as A'.
      { intros id0 w Hw. apply lookup_delete_Some in Hw as [N Hw].
        rewrite Hact, lookup_delete_ne by congruence. now apply A. }
      assert (forall rec0,
                In rec0 (TradeExecutor.transactions
                           (TradeExecutor.executor (trades b))) ->
                In rec0 (TradeExecutor.transactions
                           (TradeExecutor.executor rt))) as Keep.
      { intros rec0 Hin. rewrite He. destruct c as [|rec|msg].
        - now rewrite Sh.
        - destruct Sh as [_ ->]. apply in_or_app. now left.
        - now rewrite Sh. }
      assert (PositionManager.currentPosition (positions b) <> None ->
              exists r0,
                In r0 (TradeExecutor.transactions
                         (TradeExecutor.executor rt))
                /\ TradeExecutor.type r0 = "buy"%string) as P'.
      { intros Hp. destruct (P Hp) as (r0 & Hin & Ht). eauto. }
      destruct (awaiting b !! id) as [w|] eqn:Hw.
      * destruct (A _ _ Hw) as (a0 & Ha0 & Hm0).
        assert (a0 = a) as -> by congruence.
        destruct c as [|rec|msg];
          [now destruct w; split; simpl
          | |now destruct w; split; simpl].
        destruct Sh as [Ht Htx].
        destruct w as [| |price peak].
        -- split; simpl; [exact A'|now right|].
           intros _. exists rec. split.
           ++ rewrite He, Htx. apply in_or_app. right. now left.
           ++ rewrite Ht, Hm0. reflexivity.
        -- assert (PositionManager.currentPosition
                     (fst (PositionManager.closePosition
                             (DexPriceMonitor.getCurrentPrice dex) now
                             (positions b))) = None) as Hc.
           { unfold PositionManager.closePosition.
             destruct (PositionManager.currentPosition (positions b))
               as [p|] eqn:Hp; simpl; [|exact Hp].
             destruct p; simpl; [|reflexivity].
             destruct S as [S|S]; congruence. }
           split; simpl; [exact A'|now left|]. intros Hp. congruence.
        -- now split; simpl.
      * now split; simpl.
Qed.

Lemma consistent_run (actions : list action) (b b' : t) :
  run actions b = Some b' -> consistent b -> consistent b'.
Proof.
  revert b. induction actions as [|a rest IH]; intros b H C.
  - injection H as <-. exact C.
  - simpl in H. destruct (step a b) as [b1|] eqn:S; simpl in H;
      [|discriminate].
    exact (IH b1 H (consistent_step a b b1 S C)).
Qed.

(** X21.  The bot never tracks a position without a completed buy in its
    ledger: however price updates, stop-loss ticks and settlements follow one
    another, the position is either none or long, and when it is long the
    executor's transactions hold a record of a buy that returned. *)
Theorem position_needs_a_completed_buy (actions : list action) (b : t) :
  run actions constructor = Some b ->
  (PositionManager.currentPosition (positions b) = None
   \/ PositionManager.currentPosition (positions b) = Some "long"%string)
  /\ (PositionManager.currentPosition (positions b) = Some "long"%string ->
      exists r,
        In r (TradeExecutor.transactions
                (TradeExecutor.executor (trades b)))
        /\ TradeExecutor.type r = "buy"%string).
Proof.
  intros H.
  destruct (consistent_run actions constructor b H consistent_constructor)
    as [_ S P].
  split; [exact S|]. intros Hp. apply P. congruence.
Qed.

Lemma position_needs_a_completed_buy_witness :
  let sv :=
    SignalDetector.market 50100 49700 (Some 25%float) (Some 50000%float) in
  let dex := {| DexPriceMonitor.price := 49700 |} in
  let actions :=
    [PriceUpdate sv 1000;
     Settled 0 (TradeExecutor.Amount 1000) 1100 dex;
     Settled 0 (TradeExecutor.Quote 5000) 1200 dex;
     Settled 0 (TradeExecutor.Transaction "0xb") 1300 dex;
     Settled 0 (TradeExecutor.Receipt 12) 1400 dex] in
  let b := default constructor (run actions constructor) in
  run actions constructor = Some b
  /\ PositionManager.currentPosition (positions b) = Some "long"%string
  /\ PositionManager.entryPrice (positions b) = Some 49700%float
  /\ exists r,
       In r (TradeExecutor.transactions
               (TradeExecutor.executor (trades b)))
       /\ TradeExecutor.type r = "buy"%string.
Proof.
  intros sv dex actions b.
  assert (run actions constructor = Some b) as H
    by (vm_compute; reflexivity).
  split; [exact H|]. split; [reflexivity|]. split; [reflexivity|].
  exact (proj2 (position_needs_a_completed_buy actions b H) eq_refl).
Defined.

(** X22.  A buy that returns its record opens the position anew, whatever
    the position was: entry price and peak become the DEX price of that
    moment.  When two buys overlapped, the second one to complete therefore
    replaces the entry price of the first and resets the peak the trailing
    stop follows, to a lower price if the DEX price is lower then. *)
Theorem completed_buy_reopens_the_position
    (b : t) (id : nat) (amountIn expected : BigNumber.t) (hash : string)
    (block : Z) (now : JS.date) (dex : DexPriceMonitor.t) :
  TradeExecutor.active (trades b) !! id
  = Some (TradeExecutor.AwaitingReceipt TradeExecutor.ExecuteBuy
            amountIn expected hash) ->
  awaiting b !! id = Some BuySignalHandler ->
  exists b' : t,
    onSettled id (TradeExecutor.Receipt block) now dex b = Some b'
    /\ positions b'
       = fst (PositionManager.openPosition (DexPriceMonitor.price dex) now
                (positions b))
    /\ PositionManager.currentPosition (positions b') = Some "long"%string
    /\ PositionManager.entryPrice (positions b')
       = Some (DexPriceMonitor.price dex)
    /\ PositionManager.highestPrice (positions b')
       = Some (DexPriceMonitor.price dex)
    /\ TradeExecutor.transactions (TradeExecutor.executor (trades b'))
       = TradeExecutor.transactions (TradeExecutor.executor (trades b))
         ++ [{| TradeExecutor.type := "buy"; TradeExecutor.txHash := hash;
                TradeExecutor.amountIn := amountIn;
                TradeExecutor.amountOut := expected;
                TradeExecutor.timestamp := now;
                TradeExecutor.blockNumber := block |}].
Proof.
  intros Ha Hw. unfold onSettled, TradeExecutor.settle.
  rewrite Ha. simpl. unfold outcome. simpl.
  rewrite lookup_delete_eq, last_snoc, Hw. simpl.
  eexists. split; [reflexivity|]. repeat split.
Qed.

Lemma completed_buy_reopens_the_position_witness :
  let sv :=
    SignalDetector.market 50100 49700 (Some 25%float) (Some 50000%float) in
  let at_ (p : float) := {| DexPriceMonitor.price := p |} in
  let actions :=
    [PriceUpdate sv 1000; PriceUpdate sv 2000;
     Settled 0 (TradeExecutor.Amount 1000) 2100 (at_ 49700%float);
     Settled 1 (TradeExecutor.Amount 900) 2200 (at_ 49700%float);
     Settled 0 (TradeExecutor.Quote 5000) 2300 (at_ 49700%float);
     Settled 1 (TradeExecutor.Quote 4500) 2400 (at_ 49700%float);
     Settled 0 (TradeExecutor.Transaction "0xa") 2500 (at_ 49700%float);
     Settled 1 (TradeExecutor.Transaction "0xb") 2600 (at_ 49700%float);
     Settled 0 (TradeExecutor.Receipt 12) 5000 (at_ 50000%float);
     StopLossTick (at_ 51000%float)] in
  let b := default constructor (run actions constructor) in
  PositionManager.entryPrice (positions b) = Some 50000%float
  /\ PositionManager.highestPrice (positions b) = Some 51000%float
  /\ exists b' : t,
       onSettled 1 (TradeExecutor.Receipt 13) 9000 (at_ 50200%float) b = Some b'
       /\ PositionManager.entryPrice (positions b') = Some 50200%float
       /\ PositionManager.highestPrice (positions b') = Some 50200%float.
Proof.
  intros sv at_ actions b.
  split; [vm_compute; reflexivity|]. split; [vm_compute; reflexivity|].
  destruct (completed_buy_reopens_the_position b 1 900 4500 "0xb" 13 9000
              (at_ 50200%float)
              ltac:(vm_compute; reflexivity) ltac:(vm_compute; reflexivity))
    as (b' & E & _ & _ & He & Hh & _).
  exists b'. split; [exact E|]. split; [exact He|exact Hh].
Defined.

End BotProps.

(* ===================================================================== *)
(** * TradeExecutor and SlippageController: the swap submitted *)
(* ===================================================================== *)

Module SwapProps.
Import TradeExecutor.

(** X23.  Once the router has quoted an output, the call always goes on to
    submit its swap: applying the slippage never fails.  The swap is for the
    amount decided before the quote, with the deadline computed then, and its
    minimum output is the quote less 0.2 percent, rounded down: never above
    the quote, below it by at most a five-hundredth of it and one base unit,
    and zero for a quote of zero.  The executor itself is unchanged. *)
Theorem swap_minimum_is_the_adjusted_quote
    (m : method) (amountIn : BigNumber.t) (deadline : Z)
    (expected : BigNumber.t) (now : JS.date) (sl : SlippageController.t)
    (this : t) :
  0 <= expected ->
  exists (minAmountOut : BigNumber.t) (before : list event),
    resume (AwaitingQuote m amountIn deadline) (Quote expected) now sl this
    = Some (this, inl (AwaitingSwap m amountIn expected minAmountOut),
            before ++ [SubmitSwap m amountIn minAmountOut deadline])
    /\ Forall (fun e => isSwap e = false) before
    /\ minAmountOut = expected * 998 / 1000
    /\ 0 <= minAmountOut <= expected
    /\ 500 * (expected - minAmountOut) <= expected + 500
    /\ (expected = 0 -> minAmountOut = 0).
Proof.
  intros H.
  pose proof (SlippageControllerProps.adjusted_eq expected (tradeType m) sl)
    as E.
  unfold SlippageController.adjusted in E. simpl resume.
  destruct (SlippageController.applySlippage expected (tradeType m) sl)
    as [[mo evs]|]; [|discriminate E].
  simpl in E. injection E as ->.
  assert (Z.quot (expected * 9980) 10000 = expected * 998 / 1000) as Q.
  { rewrite Z.quot_div_nonneg by lia.
    replace (expected * 9980) with (expected * 998 * 10) by lia.
    change 10000 with (1000 * 10). now rewrite Z.div_mul_cancel_r by lia. }
  exists (Z.quot (expected * 9980) 10000),
    (map Slippage evs
     ++ [LogInfo (Trading m amountIn);
         LogInfo (ExpectingAtLeast m (Z.quot (expected * 9980) 10000))]).
  split. { now rewrite <- app_assoc. }
  split.
  { apply Forall_app. split; [|repeat constructor].
    induction evs; simpl; constructor; auto. }
  split; [exact Q|]. rewrite Q.
  pose proof (Z.div_mod (expected * 998) 1000 ltac:(lia)) as D.
  pose proof (Z.mod_pos_bound (expected * 998) 1000 ltac:(lia)) as B.
  repeat split; lia.
Qed.

Lemma swap_minimum_is_the_adjusted_quote_witness :
  exists before : list event,
    resume (AwaitingQuote ExecuteSell 7 300) (Quote (350000 * 10 ^ 18)) 0
      SlippageController.constructor constructor
    = Some (constructor,
            inl (AwaitingSwap ExecuteSell 7 (350000 * 10 ^ 18)
                   (349300 * 10 ^ 18)),
            before ++ [SubmitSwap ExecuteSell 7 (349300 * 10 ^ 18) 300]).
Proof.
  destruct (swap_minimum_is_the_adjusted_quote ExecuteSell 7 300
              (350000 * 10 ^ 18) 0 SlippageController.constructor
              constructor ltac:(vm_compute; discriminate))
    as (mo & before & E & _ & -> & _).
  exists before. exact E.
Defined.

End SwapProps.
